(** * SignedDataVerifier (deno_jws_verification.ts): a shallow embedding

    The verifier of App Store signed data, as ported to Deno.  The class
    [SignedDataVerifier], its four public entry points, the generic
    [verifyJWT] pipeline and the placeholder [verifyCertificateChain] are
    transcribed statement by statement.  JavaScript values produced by
    [JSON.parse] are modelled by an inductive type, exceptions by an error
    monad over an explicit world (clock, key generator, console). *)

From Stdlib Require Import ZArith String Ascii List Lia.
From stdpp Require Import base option list strings pretty gmap.

#[local] Set Warnings "-register-all".
Local Open Scope string_scope.
Local Open Scope Z_scope.

(** ** JavaScript values *)

Module JS.

(** What [JSON.parse] can return.  [Number n] is the number whose value is
    the integer [n]: the verifier only tests numbers for truthiness and
    strict equality (app identifiers, dates in milliseconds), and numbers
    with a fractional part are left out.  An object lists its own
    properties, each key once.  [undefined] is not a JSON value: a
    property read returns [option Value], [None] standing for
    [undefined]. *)
Inductive Value : Type :=
| Null
| Bool (b : bool)
| Number (n : Z)
| Str (s : string)
| Array (elements : list Value)
| Object (properties : list (string * Value)).

(** Own-property lookup in an object. *)
Fixpoint own (k : string) (properties : list (string * Value)) : option Value :=
  match properties with
  | [] => None
  | (k', v) :: rest => if String.eqb k k' then Some v else own k rest
  end.

(** Errors of the platform: the built-ins throw [TypeError], [SyntaxError]
    ([JSON.parse]) and [DOMException] ([atob], [crypto.subtle]);
    [Error msg] is [new Error(msg)]. *)
Inductive NativeError : Type :=
| TypeError
| SyntaxError
| DOMException
| Error (message : string).

(** [x.k] for a property name [k] that no prototype defines (every name
    the verifier reads is such a name): reading from [undefined] or [null]
    throws, an object answers with its own property, any other value with
    [undefined]. *)
Definition get (x : option Value) (k : string) : NativeError + option Value :=
  match x with
  | None | Some Null => inl TypeError
  | Some (Object properties) => inr (own k properties)
  | Some _ => inr None
  end.

(** [x ?? d] *)
Definition nullish (x : option Value) (d : Value) : Value :=
  match x with
  | None | Some Null => d
  | Some v => v
  end.


(** [ToBoolean], as applied by [if (x)] and [x && y]. *)
Definition truthy (x : option Value) : bool :=
  match x with
  | None | Some Null => false
  | Some (Bool b) => b
  | Some (Number n) => negb (n =? 0)
  | Some (Str s) => negb (String.eqb s "")
  | Some (Array _) | Some (Object _) => true
  end.

(** [x === y] when one side is a primitive of the configuration: two
    values are strictly equal when they are the same primitive; an array or
    object is only equal to itself, never to a configured primitive. *)
Definition strict_eq (x y : option Value) : bool :=
  match x, y with
  | None, None => true
  | Some Null, Some Null => true
  | Some (Bool a), Some (Bool b) => Bool.eqb a b
  | Some (Number a), Some (Number b) => a =? b
  | Some (Str a), Some (Str b) => String.eqb a b
  | _, _ => false
  end.

(** [s.startsWith(p)] *)
Fixpoint startsWith (s p : string) : bool :=
  match p, s with
  | EmptyString, _ => true
  | String c p', String d s' => Ascii.eqb c d && startsWith s' p'
  | String _ _, EmptyString => false
  end.

(** [x.startsWith(p)] for a truthy [x]: only a string has the method. *)
Definition call_startsWith (x : option Value) (p : string) : NativeError + bool :=
  match x with
  | Some (Str s) => inr (startsWith s p)
  | _ => inl TypeError
  end.

(** [s.split(sep)] for a one-character separator: never empty; [n]
    separators give [n + 1] parts. *)
Fixpoint split (sep : ascii) (s : string) : list string :=
  match s with
  | EmptyString => [EmptyString]
  | String c rest =>
      if Ascii.eqb c sep then EmptyString :: split sep rest
      else match split sep rest with
           | [] => [String c EmptyString]
           | part :: parts => String c part :: parts
           end
  end.

(** [ToPrimitive] on a JSON value throws exactly when the conversion meets
    an object whose own [toString] shadows the inherited method (a JSON
    value is never callable); arrays convert through [join], element by
    element. *)
Fixpoint toPrimitive_throws (v : Value) : bool :=
  match v with
  | Object properties => bool_decide (is_Some (own "toString" properties))
  | Array elements => existsb toPrimitive_throws elements
  | _ => false
  end.

End JS.

Import JS.

(** ** Exceptions *)

Inductive VerificationStatus : Type :=
| OK
| VERIFICATION_FAILURE
| INVALID_APP_IDENTIFIER
| INVALID_ENVIRONMENT
| INVALID_CHAIN_LENGTH
| INVALID_CERTIFICATE
| FAILURE.

(** Whatever a [throw] can carry: an error of the platform, or a
    [VerificationException] with its [status] and optional [cause] (the
    message is a function of both and is not stored). *)
Inductive Thrown : Type :=
| Native (e : NativeError)
| VerificationException (status : VerificationStatus) (cause : option Thrown).

(** [e instanceof VerificationException] *)
Definition instanceof_VerificationException (e : Thrown) : bool :=
  match e with
  | VerificationException _ _ => true
  | Native _ => false
  end.

(** ** The world and the monad of effects *)

Definition CryptoKey : Type := nat.

(** A [Date] is built from the clock ([new Date()]) or from a value
    ([new Date(v)]). *)
Inductive Date : Type :=
| DateNow (clock : Z)
| DateOf (v : Value).

(** What the verifier touches outside itself: the wall clock, the key
    generator of [crypto.subtle] (the number of times it has been called,
    the public key of call [n] being [n]) and the error console. *)
Record World : Type := mkWorld {
  clock : Z;
  generateKey_calls : nat;
  console : list Thrown
}.

(** An (awaited) computation: it runs in a world and either throws or
    returns. *)
Definition M (A : Type) : Type := World -> (Thrown + A) * World.

Definition ret {A} (a : A) : M A := fun w => (inr a, w).

Definition throw {A} (e : Thrown) : M A := fun w => (inl e, w).

Definition bind {A B} (m : M A) (k : A -> M B) : M B :=
  fun w => match m w with
           | (inr a, w') => k a w'
           | (inl e, w') => (inl e, w')
           end.

(** [try { body } catch (e) { handler }] *)
Definition try_catch {A} (body : M A) (handler : Thrown -> M A) : M A :=
  fun w => match body w with
           | (inl e, w') => handler e w'
           | r => r
           end.

(** A built-in or collaborator that may throw an error of the platform. *)
Definition native {A} (r : NativeError + A) : M A :=
  match r with
  | inl e => throw (Native e)
  | inr a => ret a
  end.

Notation "'let!' x ':=' m 'in' k" := (bind m (fun x => k))
  (at level 10, x name, m at level 100, k at level 200).
Notation "'do!' m 'in' k" := (bind m (fun _ => k))
  (at level 10, m at level 100, k at level 200).

(** Sequencing of steps that only fail with an error of the platform. *)
Notation "'let?' x ':=' m 'in' k" :=
  (match m with inl e => inl e | inr x => k end)
  (at level 10, x name, m at level 100, k at level 200).

(** [new Date()] *)
Definition new_Date : M Date := fun w => (inr (DateNow (clock w)), w).

(** [new Date(v)] *)
Definition new_Date_of (v : Value) : M Date :=
  if toPrimitive_throws v then throw (Native TypeError) else ret (DateOf v).

(** [console.error("Error verifying JWT:", e)] *)
Definition console_error (e : Thrown) : M unit :=
  fun w => (inr tt, mkWorld (clock w) (generateKey_calls w) (e :: console w)).

(** ** Collaborators *)

(** The built-ins of the platform and the Deno standard library that the
    verifier calls, at their interface. *)
Class Platform : Type := {
  (** [decode] of std/encoding/base64url.ts *)
  decode : string -> NativeError + list Byte.byte;
  (** [new TextDecoder().decode(bytes)]; it does not throw *)
  TextDecoder_decode : list Byte.byte -> string;
  (** [JSON.parse] *)
  JSON_parse : string -> NativeError + Value;
  (** [atob(cert)], the argument converted to a string first; the result
      is a string of characters below 256 *)
  atob : Value -> NativeError + string;
  (** [v.length != 3] for a [v] that is not an array: a string has its
      number of code units, an object may own a [length] property, which
      the comparison coerces; nothing else has a length.  A coercion that
      throws throws a [TypeError], which is also what the step after the
      comparison throws on what is not an array: such a length counts as
      not reported wrong *)
  length_ne_3 : Value -> bool;
  (** [crypto.subtle.generateKey] at the arguments the verifier passes
      (ECDSA on P-256, extractable, usage [verify]): the error with which
      the platform rejects this request, if it does; otherwise every call
      resolves to a fresh key pair *)
  generateKey_rejection : option NativeError
}.

(** [Validator<T>]: [validate(obj)] answers with a boolean, or throws when
    it reads a property of [null]. *)
Definition Validator : Type := Value -> NativeError + bool.

(** The validators of models/*.ts that the verifier instantiates. *)
Class Validators : Type := {
  JWSRenewalInfoDecodedPayloadValidator : Validator;
  JWSTransactionDecodedPayloadValidator : Validator;
  responseBodyV2DecodedPayloadValidator : Validator;
  appTransactionValidator : Validator
}.

(** Modelled from the spec: models/Environment.ts, the enumeration
    {PRODUCTION, SANDBOX, XCODE, LOCAL_TESTING} whose members are strings
    (a decoded payload carries "Sandbox" or "Production" in its
    [environment] field). *)
Inductive Environment : Type :=
| SANDBOX
| PRODUCTION
| XCODE
| LOCAL_TESTING.

Definition Environment_value (e : Environment) : string :=
  match e with
  | SANDBOX => "Sandbox"
  | PRODUCTION => "Production"
  | XCODE => "Xcode"
  | LOCAL_TESTING => "LocalTesting"
  end.

#[global] Instance Environment_eq_dec : EqDecision Environment.
Proof. solve_decision. Defined.

(** ** The verifier *)

Definition MAX_SKEW : Z := 60000.
Definition MAXIMUM_CACHE_SIZE : Z := 32.
Definition CACHE_TIME_LIMIT : Z := 15 * 60 * 1000.

Record CacheValue : Type := mkCacheValue {
  publicKey : CryptoKey;
  cacheExpiry : Z
}.

Record SignedDataVerifier : Type := mkSignedDataVerifier {
  rootCertificates : list (list Byte.byte);
  enableOnlineChecks : bool;
  bundleId : string;
  appAppleId : option Z;
  environment : Environment;
  verifiedPublicKeyCache : gmap string CacheValue
}.

(** [this.environment === e] for a member [e] of the enumeration *)
Definition this_environment_is (this : SignedDataVerifier) (e : Environment)
  : bool :=
  bool_decide (environment this = e).

Definition status_error {A} (status : VerificationStatus) : M A :=
  throw (VerificationException status None).

(** [xs.map(f)] for a callback that may throw: left to right, stopping at
    the first exception. *)
Fixpoint map_M {A B} (f : A -> M B) (xs : list A) : M (list B) :=
  match xs with
  | [] => ret []
  | x :: rest =>
      let! y := f x in
      let! ys := map_M f rest in
      ret (y :: ys)
  end.

Section Verifier.
Context {platform : Platform} {validators : Validators}.

(** The constructor assigns the six fields, then checks the configuration. *)
Definition constructor (appleRootCertificates : list (list Byte.byte))
    (enableOnlineChecks : bool) (environment : Environment)
    (bundleId : string) (appAppleId : option Z)
  : NativeError + SignedDataVerifier :=
  let this :=
    mkSignedDataVerifier appleRootCertificates enableOnlineChecks bundleId
      appAppleId environment ∅ in
  if bool_decide (environment = PRODUCTION) && bool_decide (appAppleId = None)
  then inl (Error "appAppleId is required when the environment is Production")
  else inr this.

(** [crypto.subtle.generateKey({name: ECDSA, namedCurve: P-256}, true,
    [verify]).then(keyPair => keyPair.publicKey)] *)
Definition generateKey_publicKey : M CryptoKey :=
  fun w =>
    let w' := mkWorld (clock w) (S (generateKey_calls w)) (console w) in
    match generateKey_rejection with
    | Some e => (inl (Native e), w')
    | None => (inr (generateKey_calls w), w')
    end.

(** The placeholder of the port: the arguments are ignored, the result is
    the public half of a freshly generated key pair. *)
Definition verifyCertificateChain (this : SignedDataVerifier)
    (trustedRoots : list (list Byte.byte))
    (leaf intermediate : option (list Byte.byte)) (effectiveDate : Date)
  : M CryptoKey :=
  generateKey_publicKey.

Definition checkDates (cert : list Byte.byte) (effectiveDate : Date) : bool :=
  true.

Definition parseX509Date (date : string) : M Date := new_Date.

Definition extractSignedDate (decodedJWT : Value) : M Date :=
  let! signedDate := native (get (Some decodedJWT) "signedDate") in
  match signedDate with
  | None => new_Date
  | Some v => new_Date_of v
  end.

(** [cert => new Uint8Array(atob(cert).split('').map(c => c.charCodeAt(0)))] *)
Definition certificate_bytes (cert : Value) : M (list Byte.byte) :=
  let! binary := native (atob cert) in
  ret (list_byte_of_string binary).

(** [chain.length != 3] *)
Definition chain_length_ne_3 (chain : Value) : bool :=
  match chain with
  | Array elements => negb (length elements =? 3)%nat
  | _ => length_ne_3 chain
  end.

(** [chain.slice(0, 2).map(f)]: what is not an array has no [map] to
    call (a string slices to a string, an object has no callable
    [slice]). *)
Definition chain_slice_0_2_map {B} (chain : Value) (f : Value -> M B)
  : M (list B) :=
  match chain with
  | Array elements => map_M f (take 2 elements)
  | _ => throw (Native TypeError)
  end.

Definition verifyJWT (this : SignedDataVerifier) (jwt : string)
    (validator : Validator) (signedDateExtractor : Value -> M Date)
  : M Value :=
  try_catch
    (let parts := split "." jwt in
     if negb (length parts =? 3)%nat then status_error FAILURE else
     let! payloadBytes := native (decode (nth 1 parts "")) in
     let! payload := native (JSON_parse (TextDecoder_decode payloadBytes)) in
     let decodedJWT := payload in
     let! valid := native (validator decodedJWT) in
     if negb valid then status_error FAILURE else
     if this_environment_is this XCODE || this_environment_is this LOCAL_TESTING
     then ret decodedJWT
     else
       try_catch
         (let! headerBytes := native (decode (nth 0 parts "")) in
          let headerStr := TextDecoder_decode headerBytes in
          let! headerObj := native (JSON_parse headerStr) in
          let! x5c := native (get (Some headerObj) "x5c") in
          let chain := nullish x5c (Array []) in
          if chain_length_ne_3 chain then status_error INVALID_CHAIN_LENGTH else
          let! certificateChain := chain_slice_0_2_map chain certificate_bytes in
          let! effectiveDate := signedDateExtractor decodedJWT in
          let! publicKey :=
            verifyCertificateChain this (rootCertificates this)
              (certificateChain !! 0%nat) (certificateChain !! 1%nat)
              effectiveDate in
          ret decodedJWT)
         (fun e =>
            do! console_error e in
            throw (VerificationException VERIFICATION_FAILURE (Some e))))
    (fun e =>
       if instanceof_VerificationException e then throw e
       else throw (VerificationException FAILURE (Some e))).

(** [this.bundleId] and [this.environment] as the values they are compared
    with. *)
Definition this_bundleId (this : SignedDataVerifier) : option Value :=
  Some (Str (bundleId this)).

Definition this_environment (this : SignedDataVerifier) : option Value :=
  Some (Str (Environment_value (environment this))).

Definition this_appAppleId (this : SignedDataVerifier) : option Value :=
  Number <$> appAppleId this.

Definition verifyAndDecodeTransaction (this : SignedDataVerifier)
    (signedTransactionInfo : string) : M Value :=
  let! decodedJWT :=
    verifyJWT this signedTransactionInfo JWSTransactionDecodedPayloadValidator
      extractSignedDate in
  let! bundleId := native (get (Some decodedJWT) "bundleId") in
  if negb (strict_eq bundleId (this_bundleId this))
  then status_error INVALID_APP_IDENTIFIER else
  let! environment := native (get (Some decodedJWT) "environment") in
  if negb (strict_eq environment (this_environment this))
  then status_error INVALID_ENVIRONMENT else
  ret decodedJWT.

Definition verifyAndDecodeRenewalInfo (this : SignedDataVerifier)
    (signedRenewalInfo : string) : M Value :=
  let! decodedRenewalInfo :=
    verifyJWT this signedRenewalInfo JWSRenewalInfoDecodedPayloadValidator
      extractSignedDate in
  let! environment := native (get (Some decodedRenewalInfo) "environment") in
  if negb (strict_eq (this_environment this) environment)
  then status_error INVALID_ENVIRONMENT else
  ret decodedRenewalInfo.

Definition verifyNotification (this : SignedDataVerifier)
    (bundleId appAppleId environment : option Value) : M unit :=
  if negb (strict_eq (this_bundleId this) bundleId)
     || (this_environment_is this PRODUCTION
         && negb (strict_eq (this_appAppleId this) appAppleId))
  then status_error INVALID_APP_IDENTIFIER else
  if negb (strict_eq (this_environment this) environment)
  then status_error INVALID_ENVIRONMENT else
  ret tt.

(** The three [let] variables of [verifyAndDecodeNotification] after its
    [if]/[else if] cascade: [(appAppleId, bundleId, environment)], all
    [undefined] when no branch is taken.  Only property reads and
    [startsWith] can throw here. *)
Definition notification_identity (decodedJWT : Value)
  : NativeError + (option Value * option Value * option Value) :=
  let? data := get (Some decodedJWT) "data" in
  if truthy data then
    let? appAppleId := get data "appAppleId" in
    let? bundleId := get data "bundleId" in
    let? environment := get data "environment" in
    inr (appAppleId, bundleId, environment)
  else
  let? summary := get (Some decodedJWT) "summary" in
  if truthy summary then
    let? appAppleId := get summary "appAppleId" in
    let? bundleId := get summary "bundleId" in
    let? environment := get summary "environment" in
    inr (appAppleId, bundleId, environment)
  else
  let? externalPurchaseToken := get (Some decodedJWT) "externalPurchaseToken" in
  if truthy externalPurchaseToken then
    let? appAppleId := get externalPurchaseToken "appAppleId" in
    let? bundleId := get externalPurchaseToken "bundleId" in
    let? externalPurchaseId := get externalPurchaseToken "externalPurchaseId" in
    let? sandbox :=
      if truthy externalPurchaseId
      then call_startsWith externalPurchaseId "SANDBOX"
      else inr false in
    if sandbox
    then inr (appAppleId, bundleId, Some (Str (Environment_value SANDBOX)))
    else inr (appAppleId, bundleId, Some (Str (Environment_value PRODUCTION)))
  else inr (None, None, None).

Definition verifyAndDecodeNotification (this : SignedDataVerifier)
    (signedPayload : string) : M Value :=
  let! decodedJWT :=
    verifyJWT this signedPayload responseBodyV2DecodedPayloadValidator
      extractSignedDate in
  let! identity := native (notification_identity decodedJWT) in
  let '(appAppleId, bundleId, environment) := identity in
  do! verifyNotification this bundleId appAppleId environment in
  ret decodedJWT.

(** [t => t.receiptCreationDate === undefined ? new Date()
                                              : new Date(t.receiptCreationDate)] *)
Definition extractReceiptCreationDate (t : Value) : M Date :=
  let! receiptCreationDate := native (get (Some t) "receiptCreationDate") in
  match receiptCreationDate with
  | None => new_Date
  | Some v => new_Date_of v
  end.

Definition verifyAndDecodeAppTransaction (this : SignedDataVerifier)
    (signedAppTransaction : string) : M Value :=
  let! decodedAppTransaction :=
    verifyJWT this signedAppTransaction appTransactionValidator
      extractReceiptCreationDate in
  let! environment := native (get (Some decodedAppTransaction) "receiptType") in
  (* the identifiers are read from the value that has just answered a read *)
  let! bundleId := native (get (Some decodedAppTransaction) "bundleId") in
  let! appAppleId := native (get (Some decodedAppTransaction) "appAppleId") in
  if negb (strict_eq (this_bundleId this) bundleId)
     || (this_environment_is this PRODUCTION
         && negb (strict_eq (this_appAppleId this) appAppleId))
  then status_error INVALID_APP_IDENTIFIER else
  if negb (strict_eq (this_environment this) environment)
  then status_error INVALID_ENVIRONMENT else
  ret decodedAppTransaction.

End Verifier.

(** ** A reference platform

    Executable stand-ins for the built-ins, used to run the verifier on
    concrete tokens.  A string is kept as the bytes of its UTF-8 encoding
    (a lone surrogate, which only an escape of [JSON.parse] can produce,
    as the three bytes that the same scheme gives it).  Base64 and
    base64url decoding, the UTF-8 decoder of [TextDecoder] and the
    grammar of [JSON.parse] are those of the platform; a number is
    rounded to the nearest double as [JSON.parse] rounds it, and one that
    is then no integer has no counterpart in [Value]: it is answered with
    an [Error] of the reference's own, never with a [SyntaxError].  The
    key generator rejects the request of the placeholder: with the usage
    [verify] alone the private key of the pair would have no usage, which
    [crypto.subtle.generateKey] answers with a [DOMException] (named
    SyntaxError). *)

Module Reference.

(** *** Doubles *)

(** The floor of the binary logarithm of [a / b], for positive [a], [b]. *)
Definition log2_floor (a b : Z) : Z :=
  let k := Z.log2 a - Z.log2 b in
  let reached := if 0 <=? k then b * 2 ^ k <=? a else b <=? a * 2 ^ (- k) in
  if reached then k else k - 1.

(** The integer nearest to [a / b], a tie going to the even one. *)
Definition round_half_even (a b : Z) : Z :=
  let q := a / b in
  let r := a mod b in
  if 2 * r <? b then q
  else if b <? 2 * r then q + 1
  else if Z.even q then q else q + 1.

(** The double nearest to [a / b], for [0 <= a] and [0 < b], ties to
    even: [(m, e)] stands for [m * 2 ^ e], where [m < 2 ^ 53] and
    [-1074 <= e], and [2 ^ 52 <= m] unless [e] is [-1074]; zero is
    [(0, 0)], and [None] is [Infinity]. *)
Definition nearest_double (a b : Z) : option (Z * Z) :=
  if a =? 0 then Some (0, 0) else
  let e := Z.max (log2_floor a b - 52) (-1074) in
  let m :=
    if 0 <=? e then round_half_even a (b * 2 ^ e)
    else round_half_even (a * 2 ^ (- e)) b in
  if m =? 0 then Some (0, 0)
  else if (0 <=? e) && (2 ^ 1024 <=? m * 2 ^ e) then None
  else if m =? 2 ^ 53 then Some (2 ^ 52, e + 1)
  else Some (m, e).

(** The double nearest to [m * 10 ^ x], for [0 <= m].  A power of ten is
    only computed when the result is within reach of the doubles: beyond
    [2 ^ 1100] the result is [Infinity], below [2 ^ -1100] it is zero. *)
Definition double_of_decimal (m x : Z) : option (Z * Z) :=
  if m =? 0 then Some (0, 0)
  else if 0 <=? x then
    if 1100 <? Z.log2 m + 3 * x then None else nearest_double (m * 10 ^ x) 1
  else
    if Z.log2 m + 3 * x <? -1100 then Some (0, 0)
    else nearest_double m (10 ^ (- x)).

(** The integer that a double is, when it is one. *)
Definition integer_of_double (d : Z * Z) : option Z :=
  let '(m, e) := d in
  if 0 <=? e then Some (m * 2 ^ e)
  else if m mod 2 ^ (- e) =? 0 then Some (m / 2 ^ (- e))
  else None.

(** [m * 10 ^ x] as a Number, when that Number is an integer. *)
Definition integer_of_decimal (m x : Z) : option Z :=
  double_of_decimal m x ≫= integer_of_double.

(** *** Characters *)

Definition code (c : ascii) : Z := Z.of_N (N_of_ascii c).

Definition char (n : Z) : ascii := ascii_of_N (Z.to_N (n mod 256)).

Definition is_digit (c : ascii) : bool := (48 <=? code c) && (code c <=? 57).

(** The longest prefix of digits, and what follows it. *)
Fixpoint digits (s : list ascii) : list ascii * list ascii :=
  match s with
  | c :: rest =>
      if is_digit c then let '(d, r) := digits rest in (c :: d, r) else ([], s)
  | [] => ([], [])
  end.

(** The value of a hexadecimal digit, which covers the other bases. *)
Definition digit_value (c : ascii) : option Z :=
  let n := code c in
  if (48 <=? n) && (n <=? 57) then Some (n - 48)
  else if (65 <=? n) && (n <=? 70) then Some (n - 55)
  else if (97 <=? n) && (n <=? 102) then Some (n - 87)
  else None.

(** The number that a non-empty list of digits of base [base] writes. *)
Definition numeral (base : Z) (d : list ascii) : option Z :=
  match d with
  | [] => None
  | _ =>
      foldl (fun acc c =>
               n ← acc; v ← digit_value c;
               if v <? base then Some (base * n + v) else None)
            (Some 0) d
  end.

Definition decimal (d : list ascii) : Z := default 0 (numeral 10 d).

(** The exponent part of a literal after its letter: an optional sign and
    at least one digit. *)
Definition exponent (s : list ascii) : option (Z * list ascii) :=
  let '(sign, s) :=
    match s with
    | c :: r =>
        if Ascii.eqb c "+" then (1, r)
        else if Ascii.eqb c "-" then (-1, r)
        else (1, s)
    | [] => (1, s)
    end in
  match digits s with
  | ([], _) => None
  | (d, r) => Some (sign * decimal d, r)
  end.

Definition is_exponent_letter (c : ascii) : bool :=
  Ascii.eqb c "e" || Ascii.eqb c "E".

(** *** Base64 *)

Definition sextet (c : ascii) : option N :=
  let n := N_of_ascii c in
  if ((65 <=? n) && (n <=? 90))%N then Some (n - 65)%N
  else if ((97 <=? n) && (n <=? 122))%N then Some (n - 71)%N
  else if ((48 <=? n) && (n <=? 57))%N then Some (n + 4)%N
  else if (n =? 43)%N then Some 62%N
  else if (n =? 47)%N then Some 63%N
  else None.

Definition octet (n : N) : Byte.byte := byte_of_ascii (ascii_of_N (n mod 256)).

(** Four sextets give three octets; a tail of two or three gives one or
    two, the spare bits dropped; a tail of one is an error. *)
Fixpoint octets (l : list N) : option (list Byte.byte) :=
  match l with
  | [] => Some []
  | [_] => None
  | [a; b] => Some [octet (a * 4 + b / 16)]
  | [a; b; c] => Some [octet (a * 4 + b / 16); octet (b * 16 + c / 4)]
  | a :: b :: c :: d :: rest =>
      tail ← octets rest;
      Some (octet (a * 4 + b / 16) :: octet (b * 16 + c / 4)
              :: octet (c * 64 + d) :: tail)
  end%N.

(** ASCII whitespace: tab, line feed, form feed, carriage return, space. *)
Definition is_whitespace (c : ascii) : bool :=
  let n := N_of_ascii c in
  ((n =? 32) || (n =? 9) || (n =? 10) || (n =? 12) || (n =? 13))%N.

Definition is_pad (c : ascii) : bool := Ascii.eqb c "=".

(** Drops at most [n] trailing padding characters. *)
Fixpoint drop_pad (n : nat) (rev_chars : list ascii) : list ascii :=
  match n, rev_chars with
  | S n', c :: rest => if is_pad c then drop_pad n' rest else rev_chars
  | _, _ => rev_chars
  end.

(** The forgiving-base64 decoder behind [atob]. *)
Definition forgiving_base64 (s : string) : NativeError + list Byte.byte :=
  let chars := filter (fun c => is_whitespace c = false) (list_ascii_of_string s) in
  let chars :=
    if (length chars mod 4 =? 0)%nat then rev (drop_pad 2 (rev chars))
    else chars in
  match mapM sextet chars ≫= octets with
  | Some bytes => inr bytes
  | None => inl DOMException
  end.

Definition is_url_char (c : ascii) : bool :=
  let n := N_of_ascii c in
  ((65 <=? n) && (n <=? 90) || (97 <=? n) && (n <=? 122)
   || (48 <=? n) && (n <=? 57) || (n =? 45) || (n =? 95))%N.

Definition url_to_base64 (c : ascii) : ascii :=
  if Ascii.eqb c "-" then "+"%char
  else if Ascii.eqb c "_" then "/"%char
  else c.

(** [decode] of std/encoding/base64url.ts: the characters are checked, the
    padding completed, the alphabet translated, and [atob] decodes. *)
Definition base64url_decode (s : string) : NativeError + list Byte.byte :=
  let chars := list_ascii_of_string s in
  let body := rev (drop_pad 2 (rev chars)) in
  if negb (forallb is_url_char body) then inl TypeError else
  let padded :=
    match (length chars mod 4)%nat with
    | 2%nat => inr (chars ++ ["="; "="]%char)%list
    | 3%nat => inr (chars ++ ["="]%char)%list
    | 1%nat => inl TypeError
    | _ => inr chars
    end in
  match padded with
  | inl e => inl e
  | inr padded =>
      forgiving_base64 (string_of_list_ascii (map url_to_base64 padded))
  end.

(** *** UTF-8 *)

(** The bytes of U+FFFD, which replaces what is not UTF-8. *)
Definition replacement : list ascii := [char 239; char 191; char 189].

(** What a byte starts: itself, a sequence with so many bytes to follow,
    the first of them in the given range, or nothing. *)
Inductive Lead : Type :=
| Single
| Sequence (needed : nat) (lower upper : Z)
| Stray.

Definition lead (b : Z) : Lead :=
  if b <=? 127 then Single
  else if (194 <=? b) && (b <=? 223) then Sequence 1 128 191
  else if b =? 224 then Sequence 2 160 191
  else if b =? 237 then Sequence 2 128 159
  else if (225 <=? b) && (b <=? 239) then Sequence 2 128 191
  else if b =? 240 then Sequence 3 144 191
  else if b =? 244 then Sequence 3 128 143
  else if (241 <=? b) && (b <=? 243) then Sequence 3 128 191
  else Stray.

(** The UTF-8 decoder that replaces errors: [seen] holds, last first, the
    bytes of the sequence under way, of which [needed] more are awaited,
    the next one between [lower] and [upper].  A byte that does not
    continue the sequence ends it with a replacement and is looked at
    again as a first byte. *)
Fixpoint utf8_decode (seen : list ascii) (needed : nat) (lower upper : Z)
    (bytes : list ascii) : list ascii :=
  match bytes with
  | [] => match needed with O => [] | S _ => replacement end
  | b :: rest =>
      let first :=
        match lead (code b) with
        | Single => b :: utf8_decode [] 0 128 191 rest
        | Sequence n lo hi => utf8_decode [b] n lo hi rest
        | Stray => (replacement ++ utf8_decode [] 0 128 191 rest)%list
        end in
      match needed with
      | O => first
      | S n =>
          if (lower <=? code b) && (code b <=? upper) then
            match n with
            | O => (rev (b :: seen) ++ utf8_decode [] 0 128 191 rest)%list
            | S _ => utf8_decode (b :: seen) n 128 191 rest
            end
          else (replacement ++ first)%list
      end
  end.

(** [new TextDecoder().decode(bytes)]: a byte order mark at the start is
    dropped, the rest decoded. *)
Definition text_of_bytes (bytes : list Byte.byte) : string :=
  let chars := map ascii_of_byte bytes in
  let chars :=
    match chars with
    | a :: b :: c :: rest =>
        if (code a =? 239) && (code b =? 187) && (code c =? 191) then rest
        else chars
    | _ => chars
    end in
  string_of_list_ascii (utf8_decode [] 0 128 191 chars).

(** The bytes of a code point, a surrogate included. *)
Definition utf8_encode (cp : Z) : list ascii :=
  if cp <? 128 then [char cp]
  else if cp <? 2048 then [char (192 + cp / 64); char (128 + cp mod 64)]
  else if cp <? 65536 then
    [char (224 + cp / 4096); char (128 + cp / 64 mod 64); char (128 + cp mod 64)]
  else
    [char (240 + cp / 262144); char (128 + cp / 4096 mod 64);
     char (128 + cp / 64 mod 64); char (128 + cp mod 64)].

(** The number of UTF-16 code units of a string: a byte that continues a
    sequence counts for nothing, the first byte of a sequence of four for
    two. *)
Fixpoint code_units (s : list ascii) : nat :=
  match s with
  | [] => 0
  | c :: rest =>
      let units :=
        if (128 <=? code c) && (code c <=? 191) then 0%nat
        else if 240 <=? code c then 2%nat else 1%nat in
      (units + code_units rest)%nat
  end.

(** *** JSON *)

Definition quote : ascii := ascii_of_N 34.

(** Whitespace between tokens: tab, line feed, carriage return, space. *)
Definition is_json_whitespace (c : ascii) : bool :=
  (code c =? 32) || (code c =? 9) || (code c =? 10) || (code c =? 13).

Fixpoint skip_whitespace (s : list ascii) : list ascii :=
  match s with
  | c :: rest => if is_json_whitespace c then skip_whitespace rest else s
  | [] => []
  end.

(** A number without its sign: an integer part without a leading zero,
    then an optional fraction and an optional exponent, read as
    [(m, x)] for [m * 10 ^ x]. *)
Definition number (s : list ascii) : option (Z * Z * list ascii) :=
  let '(int, r) := digits s in
  match int with
  | [] => None
  | c :: more =>
      if Ascii.eqb c "0" && negb (bool_decide (more = [])) then None else
      '(fraction, r) ←
        match r with
        | d :: r' =>
            if Ascii.eqb d "." then
              match digits r' with
              | ([], _) => None
              | (f, r'') => Some (f, r'')
              end
            else Some ([], r)
        | [] => Some ([], r)
        end;
      '(x, r) ←
        match r with
        | d :: r' => if is_exponent_letter d then exponent r' else Some (0, r)
        | [] => Some (0, r)
        end;
      Some (decimal (int ++ fraction), x - Z.of_nat (length fraction), r)
  end.

(** A character of a string literal: a byte of the text, or the code unit
    that an escape names. *)
Inductive Item : Type :=
| Literal (c : ascii)
| Escaped (unit : Z).

Definition simple_escape (c : ascii) : option Z :=
  if Ascii.eqb c quote then Some 34
  else if Ascii.eqb c "\" then Some 92
  else if Ascii.eqb c "/" then Some 47
  else if Ascii.eqb c "b" then Some 8
  else if Ascii.eqb c "f" then Some 12
  else if Ascii.eqb c "n" then Some 10
  else if Ascii.eqb c "r" then Some 13
  else if Ascii.eqb c "t" then Some 9
  else None.

(** The characters of a string literal up to its closing quote; a control
    character is refused. *)
Fixpoint characters (s : list ascii) : option (list Item * list ascii) :=
  match s with
  | c :: rest =>
      if Ascii.eqb c quote then Some ([], rest)
      else if code c <? 32 then None
      else if Ascii.eqb c "\" then
        match rest with
        | e :: rest' =>
            if Ascii.eqb e "u" then
              match rest' with
              | h1 :: h2 :: h3 :: h4 :: rest'' =>
                  unit ← numeral 16 [h1; h2; h3; h4];
                  '(items, r) ← characters rest'';
                  Some (Escaped unit :: items, r)
              | _ => None
              end
            else
              unit ← simple_escape e;
              '(items, r) ← characters rest';
              Some (Escaped unit :: items, r)
        | [] => None
        end
      else '(items, r) ← characters rest; Some (Literal c :: items, r)
  | [] => None
  end.

Definition is_high_surrogate (u : Z) : bool := (55296 <=? u) && (u <=? 56319).
Definition is_low_surrogate (u : Z) : bool := (56320 <=? u) && (u <=? 57343).

(** The bytes of the string that the items spell: an escaped high
    surrogate and the escaped low surrogate after it are one code
    point. *)
Fixpoint spell (items : list Item) : list ascii :=
  match items with
  | [] => []
  | Literal c :: rest => c :: spell rest
  | Escaped u :: rest =>
      match rest with
      | Escaped v :: rest' =>
          if is_high_surrogate u && is_low_surrogate v
          then (utf8_encode (65536 + (u - 55296) * 1024 + (v - 56320))
                  ++ spell rest')%list
          else (utf8_encode u ++ spell rest)%list
      | _ => (utf8_encode u ++ spell rest)%list
      end
  end.

Definition string_literal (s : list ascii) : option (string * list ascii) :=
  '(items, r) ← characters s; Some (string_of_list_ascii (spell items), r).

Fixpoint expect (word : list ascii) (s : list ascii) : option (list ascii) :=
  match word, s with
  | [], _ => Some s
  | c :: word', d :: s' => if Ascii.eqb c d then expect word' s' else None
  | _ :: _, [] => None
  end.

(** The array index that a key writes, if it writes one: a numeral
    without a leading zero, below [2 ^ 32 - 1]. *)
Definition array_index (k : string) : option Z :=
  let d := list_ascii_of_string k in
  match d with
  | [] => None
  | c :: more =>
      if Ascii.eqb c "0" && negb (bool_decide (more = [])) then None else
      n ← numeral 10 d;
      if n <? 2 ^ 32 - 1 then Some n else None
  end.

(** Whether a new key [k] comes before the key [k'] of an object: the
    array indices come first, in ascending order, the other keys as they
    were added. *)
Definition precedes (k k' : string) : bool :=
  match array_index k, array_index k' with
  | Some n, Some n' => n <? n'
  | Some _, None => true
  | None, _ => false
  end.

(** Defines the property [k]: a key that the object has keeps its place
    and takes the new value; a new key goes before the first key that it
    precedes. *)
Fixpoint define (k : string) (v : Value) (properties : list (string * Value))
  : list (string * Value) :=
  match properties with
  | [] => [(k, v)]
  | (k', v') :: rest =>
      if String.eqb k k' then (k, v) :: rest
      else if precedes k k' then (k, v) :: (k', v') :: rest
      else (k', v') :: define k v rest
  end.

(** The error for a number that is no integer. *)
Definition not_an_integer : NativeError :=
  Error "a number that is not an integer has no counterpart among the values".

Definition or_syntax_error {A} (r : option A) : NativeError + A :=
  match r with
  | Some a => inr a
  | None => inl SyntaxError
  end.

(** A number literal after its sign, as a value. *)
Definition signed (negative : bool) (s : list ascii)
  : NativeError + (Value * list ascii) :=
  let? parsed := or_syntax_error (number s) in
  let '(m, x, r) := parsed in
  match integer_of_decimal m x with
  | Some n => inr (Number (if negative then - n else n), r)
  | None => inl not_an_integer
  end.

(** [fuel] bounds the depth of nesting. *)
Fixpoint value (fuel : nat) (s : list ascii)
  : NativeError + (Value * list ascii) :=
  match fuel with
  | O => inl SyntaxError
  | S fuel =>
      match skip_whitespace s with
      | [] => inl SyntaxError
      | c :: rest =>
          if Ascii.eqb c "n" then
            let? r := or_syntax_error (expect ["u"; "l"; "l"]%char rest) in inr (Null, r)
          else if Ascii.eqb c "t" then
            let? r := or_syntax_error (expect ["r"; "u"; "e"]%char rest) in
            inr (Bool true, r)
          else if Ascii.eqb c "f" then
            let? r := or_syntax_error (expect ["a"; "l"; "s"; "e"]%char rest) in
            inr (Bool false, r)
          else if Ascii.eqb c quote then
            let? parsed := or_syntax_error (string_literal rest) in
            inr (Str parsed.1, parsed.2)
          else if Ascii.eqb c "-" then signed true rest
          else if is_digit c then signed false (c :: rest)
          else if Ascii.eqb c "[" then
            match skip_whitespace rest with
            | d :: r => if Ascii.eqb d "]" then inr (Array [], r)
                        else elements fuel [] rest
            | [] => inl SyntaxError
            end
          else if Ascii.eqb c "{" then
            match skip_whitespace rest with
            | d :: r => if Ascii.eqb d "}" then inr (Object [], r)
                        else members fuel [] rest
            | [] => inl SyntaxError
            end
          else inl SyntaxError
      end
  end
with elements (fuel : nat) (acc : list Value) (s : list ascii)
  : NativeError + (Value * list ascii) :=
  match fuel with
  | O => inl SyntaxError
  | S fuel =>
      let? parsed := value fuel s in
      let '(v, r) := parsed in
      match skip_whitespace r with
      | c :: r' =>
          if Ascii.eqb c "," then elements fuel (acc ++ [v])%list r'
          else if Ascii.eqb c "]" then inr (Array (acc ++ [v])%list, r')
          else inl SyntaxError
      | [] => inl SyntaxError
      end
  end
with members (fuel : nat) (acc : list (string * Value)) (s : list ascii)
  : NativeError + (Value * list ascii) :=
  match fuel with
  | O => inl SyntaxError
  | S fuel =>
      match skip_whitespace s with
      | c :: r =>
          if negb (Ascii.eqb c quote) then inl SyntaxError else
          match string_literal r with
          | None => inl SyntaxError
          | Some (k, r) =>
              match skip_whitespace r with
              | d :: r =>
                  if negb (Ascii.eqb d ":") then inl SyntaxError else
                  let? parsed := value fuel r in
                  let '(v, r) := parsed in
                  match skip_whitespace r with
                  | e :: r' =>
                      if Ascii.eqb e "," then members fuel (define k v acc) r'
                      else if Ascii.eqb e "}"
                      then inr (Object (define k v acc), r')
                      else inl SyntaxError
                  | [] => inl SyntaxError
                  end
              | [] => inl SyntaxError
              end
          end
      | [] => inl SyntaxError
      end
  end.

(** [JSON.parse(text)] *)
Definition parse (text : string) : NativeError + Value :=
  let s := list_ascii_of_string text in
  let? parsed := value (S (length s)) s in
  match skip_whitespace parsed.2 with
  | [] => inr parsed.1
  | _ :: _ => inl SyntaxError
  end.

(** *** Conversion to a string *)

(** The number of digits of a positive integer. *)
Definition digit_count (n : Z) : Z := Z.of_nat (String.length (pretty n)).

(** The shortest numeral [s], of [k] digits at most, for which
    [s * 10 ^ (count - k)] is the double [n], with the exponent of its
    first digit: of the two candidates the one nearer to [n] is taken,
    the even one in a tie. *)
Fixpoint shortest (fuel : nat) (k : Z) (n : Z) : Z * Z :=
  let count := digit_count n in
  let p := 10 ^ (count - k) in
  let same (c : Z) := bool_decide (nearest_double (c * p) 1 = nearest_double n 1) in
  let low := n / p in
  let high := low + 1 in
  let pick (s : Z) := if s =? 10 ^ k then (1, count) else (s, count - 1) in
  match fuel with
  | O => (low, count - 1)
  | S fuel =>
      if same low && same high then
        if (n - low * p <? high * p - n)
           || ((n - low * p =? high * p - n) && Z.even low)
        then pick low else pick high
      else if same low then pick low
      else if same high then pick high
      else shortest fuel (k + 1) n
  end.

(** [Number.prototype.toString] on an integer: plain digits below
    [10 ^ 21], and from there on the shortest digits that name the
    double, with an exponent. *)
Definition number_to_string (n : Z) : string :=
  if Z.abs n <? 10 ^ 21 then pretty n else
  let '(s, x) := shortest 17 1 (Z.abs n) in
  let sign := if n <? 0 then "-" else "" in
  match pretty s with
  | String first more =>
      sign ++ String first (if String.eqb more "" then "" else "." ++ more)
      ++ "e+" ++ pretty x
  | EmptyString => sign
  end.

(** [ToString] on a JSON value. *)
Fixpoint to_string (v : Value) : NativeError + string :=
  match v with
  | Null => inr "null"
  | Bool true => inr "true"
  | Bool false => inr "false"
  | Number n => inr (number_to_string n)
  | Str s => inr s
  | Array elements =>
      (fix join (l : list Value) : NativeError + string :=
         let item (x : Value) :=
           match x with Null => inr "" | _ => to_string x end in
         match l with
         | [] => inr ""
         | [x] => item x
         | x :: rest =>
             match item x, join rest with
             | inr s, inr t => inr (s ++ "," ++ t)
             | inl e, _ | _, inl e => inl e
             end
         end) elements
  | Object properties =>
      if bool_decide (is_Some (own "toString" properties)) then inl TypeError
      else inr "[object Object]"
  end.

Definition atob_of_value (data : Value) : NativeError + string :=
  match to_string data with
  | inl e => inl e
  | inr s =>
      match forgiving_base64 s with
      | inl e => inl e
      | inr bytes => inr (string_of_list_byte bytes)
      end
  end.

(** *** [JSON.stringify] and [URLSearchParams] *)

Definition hex_digit (uppercase : bool) (n : Z) : ascii :=
  if n <? 10 then char (48 + n)
  else char ((if uppercase then 55 else 87) + n).

(** The code unit of a lone surrogate, when the three bytes are one. *)
Definition lone_surrogate (a b c : ascii) : option Z :=
  if (code a =? 237) && (160 <=? code b) && (code b <=? 191)
     && (128 <=? code c) && (code c <=? 191)
  then Some (53248 + (code b - 128) * 64 + (code c - 128))
  else None.

Definition unicode_escape (u : Z) : list ascii :=
  ["\"; "u"; hex_digit false (u / 4096); hex_digit false (u / 256 mod 16);
   hex_digit false (u / 16 mod 16); hex_digit false (u mod 16)]%char.

(** The characters of a string between the quotes of its JSON text. *)
Fixpoint quoted (s : list ascii) : list ascii :=
  let one (c : ascii) (rest : list ascii) : list ascii :=
    let escaped : list ascii :=
      if Ascii.eqb c quote then ["\"%char; quote]
      else if Ascii.eqb c "\" then ["\"; "\"]%char
      else if code c =? 8 then ["\"; "b"]%char
      else if code c =? 9 then ["\"; "t"]%char
      else if code c =? 10 then ["\"; "n"]%char
      else if code c =? 12 then ["\"; "f"]%char
      else if code c =? 13 then ["\"; "r"]%char
      else if code c <? 32 then unicode_escape (code c)
      else [c] in
    (escaped ++ rest)%list in
  match s with
  | [] => []
  | a :: rest =>
      match rest with
      | b :: c :: rest' =>
          match lone_surrogate a b c with
          | Some u => (unicode_escape u ++ quoted rest')%list
          | None => one a (quoted rest)
          end
      | _ => one a (quoted rest)
      end
  end.

Definition quoted_string (s : string) : string :=
  string_of_list_ascii
    (quote :: quoted (list_ascii_of_string s) ++ [quote])%list.

(** [JSON.stringify(v)] *)
Fixpoint stringify (v : Value) : string :=
  match v with
  | Null => "null"
  | Bool true => "true"
  | Bool false => "false"
  | Number n => number_to_string n
  | Str s => quoted_string s
  | Array elements =>
      "[" ++ String.concat "," (map stringify elements) ++ "]"
  | Object properties =>
      "{" ++ String.concat ","
               (map (fun p => quoted_string p.1 ++ ":" ++ stringify p.2)
                  properties)
      ++ "}"
  end.

(** The serialization of a name or a value of [URLSearchParams]: letters,
    digits and the four characters [*-._] stand for themselves, a space
    is a plus sign, a lone surrogate is replaced, and every other byte is
    a percent sign and two digits. *)
Fixpoint form_urlencoded (s : list ascii) : list ascii :=
  let one (c : ascii) : list ascii :=
    let n := code c in
    if (48 <=? n) && (n <=? 57) || (65 <=? n) && (n <=? 90)
       || (97 <=? n) && (n <=? 122)
       || (n =? 42) || (n =? 45) || (n =? 46) || (n =? 95)
    then [c]
    else if n =? 32 then ["+"%char]
    else ["%"%char; hex_digit true (n / 16); hex_digit true (n mod 16)] in
  match s with
  | [] => []
  | a :: rest =>
      match rest with
      | b :: c :: rest' =>
          match lone_surrogate a b c with
          | Some _ => (flat_map one replacement ++ form_urlencoded rest')%list
          | None => (one a ++ form_urlencoded rest)%list
          end
      | _ => (one a ++ form_urlencoded rest)%list
      end
  end.

(** [params.toString()] for the appended entries. *)
Definition search_params (entries : list (string * string)) : string :=
  let encoded (s : string) :=
    string_of_list_ascii (form_urlencoded (list_ascii_of_string s)) in
  String.concat "&" (map (fun p => encoded p.1 ++ "=" ++ encoded p.2) entries).

(** *** Dates *)

(** [n] in decimal, with zeros in front up to [width] digits. *)
Definition padded (width : nat) (n : Z) : string :=
  let digits := pretty n in
  string_of_list_ascii
    (replicate (width - String.length digits) "0"%char)
  ++ digits.

(** The year, the month and the day of the month of a day counted from
    the first of January 1970, in the proleptic Gregorian calendar: the
    count is taken from the first of March of a year that is a multiple
    of 400, by eras of 146097 days. *)
Definition civil (day : Z) : Z * Z * Z :=
  let z := day + 719468 in
  let era := z / 146097 in
  let doe := z mod 146097 in
  let yoe := (doe - doe / 1460 + doe / 36524 - doe / 146096) / 365 in
  let doy := doe - (365 * yoe + yoe / 4 - yoe / 100) in
  let mp := (5 * doy + 2) / 153 in
  let d := doy - (153 * mp + 2) / 5 + 1 in
  let m := if mp <? 10 then mp + 3 else mp - 9 in
  (yoe + era * 400 + (if m <=? 2 then 1 else 0), m, d).

(** [new Date(t).toISOString()] for a time value [t], in milliseconds: a
    year outside 0 to 9999 is written with its sign and six digits. *)
Definition to_ISO_string (t : Z) : string :=
  let '(y, m, d) := civil (t / 86400000) in
  let ms := t mod 86400000 in
  let year :=
    if (0 <=? y) && (y <=? 9999) then padded 4 y
    else (if y <? 0 then "-" else "+") ++ padded 6 (Z.abs y) in
  year ++ "-" ++ padded 2 m ++ "-" ++ padded 2 d ++ "T"
  ++ padded 2 (ms / 3600000) ++ ":" ++ padded 2 (ms / 60000 mod 60) ++ ":"
  ++ padded 2 (ms / 1000 mod 60) ++ "." ++ padded 3 (ms mod 1000) ++ "Z".

(** *** Conversion of a string to a number *)

(** The white space and the line terminators of the language, in UTF-8:
    U+0009 to U+000D, U+0020, U+00A0, U+1680, U+2000 to U+200A, U+2028,
    U+2029, U+202F, U+205F, U+3000 and U+FEFF. *)
Definition blanks : list (list Z) :=
  [[9]; [10]; [11]; [12]; [13]; [32]; [194; 160]; [225; 154; 128];
   [226; 128; 128]; [226; 128; 129]; [226; 128; 130]; [226; 128; 131];
   [226; 128; 132]; [226; 128; 133]; [226; 128; 134]; [226; 128; 135];
   [226; 128; 136]; [226; 128; 137]; [226; 128; 138]; [226; 128; 168];
   [226; 128; 169]; [226; 128; 175]; [226; 129; 159]; [227; 128; 128];
   [239; 187; 191]].

(** [s] without the blank [blank] at its start, if it starts with it. *)
Fixpoint strip (blank : list Z) (s : list ascii) : option (list ascii) :=
  match blank, s with
  | [], _ => Some s
  | b :: blank', c :: s' => if code c =? b then strip blank' s' else None
  | _ :: _, [] => None
  end.

Definition strip_one (among : list (list Z)) (s : list ascii)
  : option (list ascii) :=
  list_find (fun r => bool_decide (is_Some r)) (map (fun b => strip b s) among)
  ≫= snd.

(** [fuel] is the length of [s] at least. *)
Fixpoint trim_start (fuel : nat) (among : list (list Z)) (s : list ascii)
  : list ascii :=
  match fuel with
  | O => s
  | S fuel =>
      match strip_one among s with
      | Some s' => trim_start fuel among s'
      | None => s
      end
  end.

Definition trim (s : list ascii) : list ascii :=
  let s := trim_start (length s) blanks s in
  rev (trim_start (length s) (map (@rev Z) blanks) (rev s)).

(** Whether the digits [d] of base [base], after a prefix of two
    characters, write the number three. *)
Definition writes_three (base : Z) (d : list ascii) : bool :=
  bool_decide (numeral base d = Some 3).

(** Whether an unsigned decimal literal of a string is the number three,
    once rounded: digits with an optional fraction, or a fraction alone,
    and an optional exponent, with nothing after it. *)
Definition decimal_is_three (s : list ascii) : bool :=
  let '(int, r) := digits s in
  let '(dot, fraction, r) :=
    match r with
    | d :: r' =>
        if Ascii.eqb d "." then let '(f, r'') := digits r' in (true, f, r'')
        else (false, [], r)
    | [] => (false, [], r)
    end in
  if bool_decide (int = []) && bool_decide (fraction = []) then false else
  let x :=
    match r with
    | d :: r' =>
        if is_exponent_letter d then
          match exponent r' with
          | Some (x, []) => Some x
          | _ => None
          end
        else None
    | [] => Some 0
    end in
  match x with
  | Some x =>
      bool_decide
        (double_of_decimal (decimal (int ++ fraction))
           (x - Z.of_nat (length fraction))
         = nearest_double 3 1)
  | None => false
  end.

(** Whether [ToNumber] of a string is the number three. *)
Definition string_is_three (s : string) : bool :=
  match trim (list_ascii_of_string s) with
  | c :: d :: rest =>
      if Ascii.eqb c "0" && (Ascii.eqb d "x" || Ascii.eqb d "X")
      then writes_three 16 rest
      else if Ascii.eqb c "0" && (Ascii.eqb d "o" || Ascii.eqb d "O")
      then writes_three 8 rest
      else if Ascii.eqb c "0" && (Ascii.eqb d "b" || Ascii.eqb d "B")
      then writes_three 2 rest
      else if Ascii.eqb c "+" then decimal_is_three (d :: rest)
      else decimal_is_three (c :: d :: rest)
  | s => decimal_is_three s
  end.

(** [v.length != 3] off arrays.  A string has its code units; of an
    object the own property [length] is compared, after the conversions
    of [!=]: nothing but a number, or what converts to one, equals three.
    When the conversion throws, the error is the [TypeError] that the
    next step throws on what is not an array: no wrong length is
    reported. *)
Definition non_array_length_ne_3 (v : Value) : bool :=
  match v with
  | Str s => negb (code_units (list_ascii_of_string s) =? 3)%nat
  | Object properties =>
      match own "length" properties with
      | None | Some Null | Some (Bool _) => true
      | Some (Number n) => negb (n =? 3)
      | Some (Str s) => negb (string_is_three s)
      | Some length =>
          match to_string length with
          | inr s => negb (string_is_three s)
          | inl _ => false
          end
      end
  | _ => true
  end.

#[export] Instance platform : Platform := {|
  decode := base64url_decode;
  TextDecoder_decode := text_of_bytes;
  JSON_parse := parse;
  atob := atob_of_value;
  length_ne_3 := non_array_length_ne_3;
  generateKey_rejection := Some DOMException
|}.

(** *** Validators

    In the style of models/Data.ts: every listed field, when defined,
    passes its check; reading a field of [null] throws. *)

Definition is_string (v : Value) : NativeError + bool :=
  inr (match v with Str _ => true | _ => false end).

Definition is_number (v : Value) : NativeError + bool :=
  inr (match v with Number _ => true | _ => false end).

Fixpoint validate_fields (fields : list (string * Validator)) (obj : Value)
  : NativeError + bool :=
  match fields with
  | [] => inr true
  | (k, check) :: rest =>
      match get (Some obj) k with
      | inl e => inl e
      | inr None => validate_fields rest obj
      | inr (Some v) =>
          match check v with
          | inr true => validate_fields rest obj
          | r => r
          end
      end
  end.

Definition identity_fields : list (string * Validator) :=
  [("bundleId", is_string); ("environment", is_string);
   ("appAppleId", is_number); ("signedDate", is_number);
   ("receiptType", is_string); ("receiptCreationDate", is_number);
   ("externalPurchaseId", is_string)].

Definition payload_validator : Validator := validate_fields identity_fields.

Definition notification_validator : Validator :=
  validate_fields
    [("notificationType", is_string); ("signedDate", is_number);
     ("data", payload_validator); ("summary", payload_validator);
     ("externalPurchaseToken", payload_validator)].

#[export] Instance validators : Validators := {|
  JWSRenewalInfoDecodedPayloadValidator := payload_validator;
  JWSTransactionDecodedPayloadValidator := payload_validator;
  responseBodyV2DecodedPayloadValidator := notification_validator;
  appTransactionValidator := payload_validator
|}.

(** *** Sample configurations and tokens *)

Definition world0 : World := mkWorld 1700000000000 0 [].

Definition sandbox_verifier : SignedDataVerifier :=
  mkSignedDataVerifier [] true "com.example" None SANDBOX ∅.

Definition production_verifier : SignedDataVerifier :=
  mkSignedDataVerifier [] true "com.example" (Some 7) PRODUCTION ∅.

Definition xcode_verifier : SignedDataVerifier :=
  mkSignedDataVerifier [] true "com.example" None XCODE ∅.

(** Headers: [{alg: ES256, x5c: [YQ==, Yg==, Yw==]}], the same with the
    chain cut to two entries, and one without a chain. *)
Definition header_chain3 : string :=
  "eyJhbGciOiJFUzI1NiIsIng1YyI6WyJZUT09IiwiWWc9PSIsIll3PT0iXX0".

Definition header_chain2 : string :=
  "eyJhbGciOiJFUzI1NiIsIng1YyI6WyJZUT09IiwiWWc9PSJdfQ".

Definition header_no_chain : string := "eyJhbGciOiJFUzI1NiJ9".

(** The payload [{bundleId: com.example, environment: Sandbox,
    signedDate: 1700000000000}]. *)
Definition payload_sandbox : string :=
  "eyJidW5kbGVJZCI6ImNvbS5leGFtcGxlIiwiZW52aXJvbm1lbnQiOiJTYW5kYm94Iiwic2lnbmVkRGF0ZSI6MTcwMDAwMDAwMDAwMH0".

(** [{bundleId: com.example, environment: Xcode}] and the same for bundle
    [com.other]. *)
Definition payload_xcode : string :=
  "eyJidW5kbGVJZCI6ImNvbS5leGFtcGxlIiwiZW52aXJvbm1lbnQiOiJYY29kZSJ9".

Definition payload_xcode_other : string :=
  "eyJidW5kbGVJZCI6ImNvbS5vdGhlciIsImVudmlyb25tZW50IjoiWGNvZGUifQ".

(** Notifications: [{notificationType: TEST}], with no sub-object;
    [{notificationType: TEST, data: {bundleId: com.example,
    environment: Sandbox, appAppleId: 7}}];
    [{notificationType: TEST, data: {bundleId: com.example,
    environment: Xcode, appAppleId: 8}}];
    [{externalPurchaseToken: {bundleId: com.example, appAppleId: 7,
    externalPurchaseId: SANDBOX_1234}}]. *)
Definition notification_unpopulated : string :=
  "eyJub3RpZmljYXRpb25UeXBlIjoiVEVTVCJ9".

Definition notification_xcode : string :=
  "eyJub3RpZmljYXRpb25UeXBlIjoiVEVTVCIsImRhdGEiOnsiYnVuZGxlSWQiOiJjb20uZXhhbXBsZSIsImVudmlyb25tZW50IjoiWGNvZGUiLCJhcHBBcHBsZUlkIjo4fX0".

Definition notification_sandbox : string :=
  "eyJub3RpZmljYXRpb25UeXBlIjoiVEVTVCIsImRhdGEiOnsiYnVuZGxlSWQiOiJjb20uZXhhbXBsZSIsImVudmlyb25tZW50IjoiU2FuZGJveCIsImFwcEFwcGxlSWQiOjd9fQ".

Definition notification_external_sandbox : string :=
  "eyJleHRlcm5hbFB1cmNoYXNlVG9rZW4iOnsiYnVuZGxlSWQiOiJjb20uZXhhbXBsZSIsImFwcEFwcGxlSWQiOjcsImV4dGVybmFsUHVyY2hhc2VJZCI6IlNBTkRCT1hfMTIzNCJ9fQ".

(** App transactions: [{bundleId: com.example, receiptType: Xcode,
    appAppleId: 7}] and the same for bundle [com.other]. *)
Definition app_transaction_xcode : string :=
  "eyJidW5kbGVJZCI6ImNvbS5leGFtcGxlIiwicmVjZWlwdFR5cGUiOiJYY29kZSIsImFwcEFwcGxlSWQiOjd9".

Definition app_transaction_xcode_other : string :=
  "eyJidW5kbGVJZCI6ImNvbS5vdGhlciIsInJlY2VpcHRUeXBlIjoiWGNvZGUiLCJhcHBBcHBsZUlkIjo3fQ".

(** Middle parts that are not payloads: the text [not json], the literal
    [null], and [{bundleId: 5}]. *)
Definition payload_not_json : string := "bm90IGpzb24".

Definition payload_null : string := "bnVsbA".

Definition payload_bundle_number : string := "eyJidW5kbGVJZCI6NX0".

(** The values that the sample headers and payloads decode to. *)
Definition decoded_header (third : Value) : Value :=
  Object [("alg", Str "ES256");
          ("x5c", Array [Str "YQ=="; Str "Yg=="; third])].

Definition decoded_sandbox (bundle : string) : Value :=
  Object [("bundleId", Str bundle); ("environment", Str "Sandbox");
          ("signedDate", Number 1700000000000)].

Definition decoded_xcode (bundle : string) : Value :=
  Object [("bundleId", Str bundle); ("environment", Str "Xcode")].

Definition decoded_notification_sandbox : Value :=
  Object [("notificationType", Str "TEST");
          ("data", Object [("bundleId", Str "com.example");
                           ("environment", Str "Sandbox");
                           ("appAppleId", Number 7)])].

Definition decoded_notification_xcode : Value :=
  Object [("notificationType", Str "TEST");
          ("data", Object [("bundleId", Str "com.example");
                           ("environment", Str "Xcode");
                           ("appAppleId", Number 8)])].

Definition decoded_app_transaction_xcode (bundle : string) : Value :=
  Object [("bundleId", Str bundle); ("receiptType", Str "Xcode");
          ("appAppleId", Number 7)].

Definition external_purchase_token : Value :=
  Object [("bundleId", Str "com.example"); ("appAppleId", Number 7);
          ("externalPurchaseId", Str "SANDBOX_1234")].

Definition decoded_notification_external : Value :=
  Object [("externalPurchaseToken", external_purchase_token)].

Definition token (header payload signature : string) : string :=
  header ++ "." ++ payload ++ "." ++ signature.

(** The bytes that a base64url part decodes to. *)
Definition bytes_of (part : string) : list Byte.byte :=
  match base64url_decode part with
  | inr bytes => bytes
  | inl _ => []
  end.

End Reference.

(** ** Notions used in the statements *)

(** An extractor that throws or not according to its argument alone, and
    leaves the world as it is. *)
Definition reads_clock_only (extractor : Value -> M Date) : Prop :=
  forall v,
    (exists e, forall w, extractor v w = (inl e, w))
    \/ (forall w, exists d, extractor v w = (inr d, w)).

(** The world after a call that reached [verifyCertificateChain] and
    returned. *)
Definition after_key_generation (w : World) : World :=
  mkWorld (clock w) (S (generateKey_calls w)) (console w).

(** The world after the inner [catch] has logged [e]. *)
Definition after_console_error (e : Thrown) (w : World) : World :=
  mkWorld (clock w) (generateKey_calls w) (e :: console w).


(** The four public entry points and the validator each one passes to
    [verifyJWT]. *)
Inductive EntryPoint : Type :=
| Transaction
| RenewalInfo
| Notification
| AppTransaction.

Section Notions.
Context {platform : Platform} {validators : Validators}.

Definition entry_point (op : EntryPoint)
  : SignedDataVerifier -> string -> M Value :=
  match op with
  | Transaction => verifyAndDecodeTransaction
  | RenewalInfo => verifyAndDecodeRenewalInfo
  | Notification => verifyAndDecodeNotification
  | AppTransaction => verifyAndDecodeAppTransaction
  end.

Definition validator_of (op : EntryPoint) : Validator :=
  match op with
  | Transaction => JWSTransactionDecodedPayloadValidator
  | RenewalInfo => JWSRenewalInfoDecodedPayloadValidator
  | Notification => responseBodyV2DecodedPayloadValidator
  | AppTransaction => appTransactionValidator
  end.

(** The identity fields that an entry point compares are those of the
    configuration: the bundle identifier and the environment (for a
    notification, as [notification_identity] finds them; for an app
    transaction the environment is the [receiptType]), and the app
    identifier where the entry point reads one and the configured
    environment is PRODUCTION.  Renewal information is compared on its
    environment only. *)
Definition identity_matches (op : EntryPoint) (this : SignedDataVerifier)
    (payload : Value) : Prop :=
  match op with
  | Transaction =>
      get (Some payload) "bundleId" = inr (this_bundleId this)
      /\ get (Some payload) "environment" = inr (this_environment this)
  | RenewalInfo =>
      get (Some payload) "environment" = inr (this_environment this)
  | Notification =>
      exists appAppleId,
        notification_identity payload
        = inr (appAppleId, this_bundleId this, this_environment this)
        /\ (environment this = PRODUCTION -> appAppleId = this_appAppleId this)
  | AppTransaction =>
      get (Some payload) "bundleId" = inr (this_bundleId this)
      /\ get (Some payload) "receiptType" = inr (this_environment this)
      /\ (environment this = PRODUCTION ->
          get (Some payload) "appAppleId" = inr (this_appAppleId this))
  end.

(** A token is malformed for a validator when it has not three parts, or
    its middle part does not decode, or the decoded bytes do not parse, or
    the validator does not accept the parsed value (it answers [false] or
    throws). *)
Definition malformed (validator : Validator) (jwt : string) : Prop :=
  let parts := split "." jwt in
  length parts ≠ 3%nat
  \/ (exists e, decode (nth 1 parts "") = inl e)
  \/ (exists bytes e,
        decode (nth 1 parts "") = inr bytes
        /\ JSON_parse (TextDecoder_decode bytes) = inl e)
  \/ (exists bytes payload,
        decode (nth 1 parts "") = inr bytes
        /\ JSON_parse (TextDecoder_decode bytes) = inr payload
        /\ validator payload ≠ inr true).

End Notions.

(** * The validators of models/Data.ts and
      models/ResponseBodyV2DecodedPayload.ts *)

(** The validators that these two instantiate and whose files are not
    part of the development: [EnvironmentValidator], [StatusValidator],
    [ConsumptionRequestReasonValidator], [NotificationTypeV2Validator],
    [SubtypeValidator] (an empty extension of [StringValidator], itself
    of models/Validator.ts), [SummaryValidator] and
    [ExternalPurchaseTokenValidator]. *)
Class ModelValidators : Type := {
  environmentValidator : Validator;
  statusValidator : Validator;
  consumptionRequestReasonValidator : Validator;
  notificationTypeValidator : Validator;
  subtypeValidator : Validator;
  summaryValidator : Validator;
  externalPurchaseTokenValidator : Validator
}.

(** [typeof x === "number"] *)
Definition typeof_number : Validator :=
  fun x => inr (match x with Number _ => true | _ => false end).

(** [typeof x === "string" || x instanceof String]: no JSON value is an
    instance of [String]. *)
Definition typeof_string : Validator :=
  fun x => inr (match x with Str _ => true | _ => false end).

(** [(typeof obj[k] !== 'undefined') && !(check(obj[k]))] *)
Definition defined_and_fails (obj : Value) (k : string) (check : Validator)
  : NativeError + bool :=
  let? x := get (Some obj) k in
  match x with
  | None => inr false
  | Some v => let? ok := check v in inr (negb ok)
  end.

Section Models.
Context {models : ModelValidators}.

Definition DataValidator : Validator := fun obj =>
  let? bad := defined_and_fails obj "environment" environmentValidator in
  if bad then inr false else
  let? bad := defined_and_fails obj "appAppleId" typeof_number in
  if bad then inr false else
  let? bad := defined_and_fails obj "bundleId" typeof_string in
  if bad then inr false else
  let? bad := defined_and_fails obj "bundleVersion" typeof_string in
  if bad then inr false else
  let? bad := defined_and_fails obj "signedTransactionInfo" typeof_string in
  if bad then inr false else
  let? bad := defined_and_fails obj "signedRenewalInfo" typeof_string in
  if bad then inr false else
  let? bad := defined_and_fails obj "status" statusValidator in
  if bad then inr false else
  let? bad :=
    defined_and_fails obj "consumptionRequestReason"
      consumptionRequestReasonValidator in
  if bad then inr false else
  inr true.

Definition ResponseBodyV2DecodedPayloadValidator : Validator := fun obj =>
  let? bad := defined_and_fails obj "notificationType" notificationTypeValidator in
  if bad then inr false else
  let? bad := defined_and_fails obj "subtype" subtypeValidator in
  if bad then inr false else
  let? bad := defined_and_fails obj "notificationUUID" typeof_string in
  if bad then inr false else
  let? bad := defined_and_fails obj "data" DataValidator in
  if bad then inr false else
  let? bad := defined_and_fails obj "version" typeof_string in
  if bad then inr false else
  let? bad := defined_and_fails obj "signedDate" typeof_number in
  if bad then inr false else
  let? bad := defined_and_fails obj "summary" summaryValidator in
  if bad then inr false else
  let? bad :=
    defined_and_fails obj "externalPurchaseToken"
      externalPurchaseTokenValidator in
  if bad then inr false else
  inr true.

(** The validators of a verifier, the one for notifications being that
    of the source. *)
Definition with_notification_validator (transaction renewal app : Validator)
  : Validators := {|
  JWSRenewalInfoDecodedPayloadValidator := renewal;
  JWSTransactionDecodedPayloadValidator := transaction;
  responseBodyV2DecodedPayloadValidator := ResponseBodyV2DecodedPayloadValidator;
  appTransactionValidator := app
|}.

(** A field of [obj] passes [check] when it is absent or [check] accepts
    it. *)
Definition field_passes (obj : Value) (k : string) (check : Validator) : Prop :=
  match get (Some obj) k with
  | inr None => True
  | inr (Some v) => check v = inr true
  | inl _ => False
  end.

End Models.

(** * AppStoreServerAPIClient (deno_index.ts) *)

Module API.

Definition PRODUCTION_URL : string := "https://api.storekit.itunes.apple.com".
Definition SANDBOX_URL : string :=
  "https://api.storekit-sandbox.itunes.apple.com".
Definition LOCAL_TESTING_URL : string := "https://local-testing-base-url".
Definition USER_AGENT : string := "app-store-server-library/deno/1.5.0".

Record AppStoreServerAPIClient : Type := mkAppStoreServerAPIClient {
  issuerId : string;
  keyId : string;
  signingKey : string;
  bundleId : string;
  urlBase : string
}.

(** A [Response] as the client reads it: its [ok] flag, its [status] and
    what [response.json()] resolves to or rejects with. *)
Record Response : Type := mkResponse {
  ok : bool;
  status : Z;
  json : NativeError + Value
}.

(** The second argument of [fetch]; [body] is [None] for [undefined],
    [headers] lists the entries of the headers object in insertion
    order. *)
Record RequestInit : Type := mkRequestInit {
  method : string;
  body : option string;
  headers : list (string * string)
}.

(** What the client calls outside itself. *)
Class Network : Type := {
  (** [fetch(url, init)], awaited: a response, or the error of a request
      that could not be made *)
  fetch : string -> RequestInit -> NativeError + Response;
  (** [JSON.stringify] on a request body *)
  JSON_stringify : Value -> string;
  (** the serialization of a [URLSearchParams], entries in insertion
      order *)
  URLSearchParams_toString : list (string * string) -> string;
  (** the conversion of a number to a string *)
  Number_toString : Z -> string;
  (** [create(header, payload, key)] of djwt as [createBearerToken] uses
      it, its result not awaited: the string that the result converts to
      where it is appended to a string, or the error that the call
      throws *)
  create_as_string : Value -> Value -> string -> NativeError + string
}.

Record APIException : Type := mkAPIException {
  httpStatusCode : Z;
  apiError : Value;
  errorMessage : Value;
  message : string
}.

(** What the client throws: an error of the platform or an
    [APIException]. *)
Inductive Thrown : Type :=
| Native (e : NativeError)
| API (e : APIException).

Definition native {A} (r : NativeError + A) : Thrown + A :=
  match r with
  | inl e => inl (Native e)
  | inr a => inr a
  end.

(** [e instanceof APIException] *)
Definition instanceof_APIException (e : Thrown) : bool :=
  match e with
  | API _ => true
  | Native _ => false
  end.

(** The constructor assigns the four fields, then the URL of the
    environment; XCODE has none. *)
Definition constructor (signingKey keyId issuerId bundleId : string)
    (environment : Environment) : NativeError + AppStoreServerAPIClient :=
  let this := mkAppStoreServerAPIClient issuerId keyId signingKey bundleId in
  match environment with
  | XCODE =>
      inl (Error "Xcode is not a supported environment for an AppStoreServerAPIClient")
  | PRODUCTION => inr (this PRODUCTION_URL)
  | LOCAL_TESTING => inr (this LOCAL_TESTING_URL)
  | SANDBOX => inr (this SANDBOX_URL)
  end.

(** The enumeration [APIError] of deno_index.ts. *)
Inductive APIError : Type :=
| GENERAL_BAD_REQUEST
| INVALID_APP_IDENTIFIER
| INVALID_REQUEST_REVISION
| INVALID_TRANSACTION_ID
| INVALID_ORIGINAL_TRANSACTION_ID
| INVALID_EXTEND_BY_DAYS
| INVALID_EXTEND_REASON_CODE
| INVALID_REQUEST_IDENTIFIER
| START_DATE_TOO_FAR_IN_PAST
| START_DATE_AFTER_END_DATE
| INVALID_PAGINATION_TOKEN
| INVALID_START_DATE
| INVALID_END_DATE
| PAGINATION_TOKEN_EXPIRED
| INVALID_NOTIFICATION_TYPE
| MULTIPLE_FILTERS_SUPPLIED
| INVALID_TEST_NOTIFICATION_TOKEN
| INVALID_SORT
| INVALID_PRODUCT_TYPE
| INVALID_PRODUCT_ID
| INVALID_SUBSCRIPTION_GROUP_IDENTIFIER
| INVALID_EXCLUDE_REVOKED
| INVALID_IN_APP_OWNERSHIP_TYPE
| INVALID_EMPTY_STOREFRONT_COUNTRY_CODE_LIST
| INVALID_STOREFRONT_COUNTRY_CODE
| INVALID_REVOKED
| INVALID_STATUS
| INVALID_ACCOUNT_TENURE
| INVALID_APP_ACCOUNT_TOKEN
| INVALID_CONSUMPTION_STATUS
| INVALID_CUSTOMER_CONSENTED
| INVALID_DELIVERY_STATUS
| INVALID_LIFETIME_DOLLARS_PURCHASED
| INVALID_LIFETIME_DOLLARS_REFUNDED
| INVALID_PLATFORM
| INVALID_PLAY_TIME
| INVALID_SAMPLE_CONTENT_PROVIDED
| INVALID_USER_STATUS
| INVALID_TRANSACTION_NOT_CONSUMABLE
| INVALID_TRANSACTION_TYPE_NOT_SUPPORTED
| APP_TRANSACTION_ID_NOT_SUPPORTED_ERROR
| SUBSCRIPTION_EXTENSION_INELIGIBLE
| SUBSCRIPTION_MAX_EXTENSION
| FAMILY_SHARED_SUBSCRIPTION_EXTENSION_INELIGIBLE
| ACCOUNT_NOT_FOUND
| ACCOUNT_NOT_FOUND_RETRYABLE
| APP_NOT_FOUND
| APP_NOT_FOUND_RETRYABLE
| ORIGINAL_TRANSACTION_ID_NOT_FOUND
| ORIGINAL_TRANSACTION_ID_NOT_FOUND_RETRYABLE
| SERVER_NOTIFICATION_URL_NOT_FOUND
| TEST_NOTIFICATION_NOT_FOUND
| STATUS_REQUEST_NOT_FOUND
| TRANSACTION_ID_NOT_FOUND
| RATE_LIMIT_EXCEEDED
| GENERAL_INTERNAL
| GENERAL_INTERNAL_RETRYABLE.

(** The number of a member. *)
Definition APIError_value (e : APIError) : Z :=
  match e with
  | GENERAL_BAD_REQUEST => 4000000
  | INVALID_APP_IDENTIFIER => 4000002
  | INVALID_REQUEST_REVISION => 4000005
  | INVALID_TRANSACTION_ID => 4000006
  | INVALID_ORIGINAL_TRANSACTION_ID => 4000008
  | INVALID_EXTEND_BY_DAYS => 4000009
  | INVALID_EXTEND_REASON_CODE => 4000010
  | INVALID_REQUEST_IDENTIFIER => 4000011
  | START_DATE_TOO_FAR_IN_PAST => 4000012
  | START_DATE_AFTER_END_DATE => 4000013
  | INVALID_PAGINATION_TOKEN => 4000014
  | INVALID_START_DATE => 4000015
  | INVALID_END_DATE => 4000016
  | PAGINATION_TOKEN_EXPIRED => 4000017
  | INVALID_NOTIFICATION_TYPE => 4000018
  | MULTIPLE_FILTERS_SUPPLIED => 4000019
  | INVALID_TEST_NOTIFICATION_TOKEN => 4000020
  | INVALID_SORT => 4000021
  | INVALID_PRODUCT_TYPE => 4000022
  | INVALID_PRODUCT_ID => 4000023
  | INVALID_SUBSCRIPTION_GROUP_IDENTIFIER => 4000024
  | INVALID_EXCLUDE_REVOKED => 4000025
  | INVALID_IN_APP_OWNERSHIP_TYPE => 4000026
  | INVALID_EMPTY_STOREFRONT_COUNTRY_CODE_LIST => 4000027
  | INVALID_STOREFRONT_COUNTRY_CODE => 4000028
  | INVALID_REVOKED => 4000030
  | INVALID_STATUS => 4000031
  | INVALID_ACCOUNT_TENURE => 4000032
  | INVALID_APP_ACCOUNT_TOKEN => 4000033
  | INVALID_CONSUMPTION_STATUS => 4000034
  | INVALID_CUSTOMER_CONSENTED => 4000035
  | INVALID_DELIVERY_STATUS => 4000036
  | INVALID_LIFETIME_DOLLARS_PURCHASED => 4000037
  | INVALID_LIFETIME_DOLLARS_REFUNDED => 4000038
  | INVALID_PLATFORM => 4000039
  | INVALID_PLAY_TIME => 4000040
  | INVALID_SAMPLE_CONTENT_PROVIDED => 4000041
  | INVALID_USER_STATUS => 4000042
  | INVALID_TRANSACTION_NOT_CONSUMABLE => 4000043
  | INVALID_TRANSACTION_TYPE_NOT_SUPPORTED => 4000047
  | APP_TRANSACTION_ID_NOT_SUPPORTED_ERROR => 4000048
  | SUBSCRIPTION_EXTENSION_INELIGIBLE => 4030004
  | SUBSCRIPTION_MAX_EXTENSION => 4030005
  | FAMILY_SHARED_SUBSCRIPTION_EXTENSION_INELIGIBLE => 4030007
  | ACCOUNT_NOT_FOUND => 4040001
  | ACCOUNT_NOT_FOUND_RETRYABLE => 4040002
  | APP_NOT_FOUND => 4040003
  | APP_NOT_FOUND_RETRYABLE => 4040004
  | ORIGINAL_TRANSACTION_ID_NOT_FOUND => 4040005
  | ORIGINAL_TRANSACTION_ID_NOT_FOUND_RETRYABLE => 4040006
  | SERVER_NOTIFICATION_URL_NOT_FOUND => 4040007
  | TEST_NOTIFICATION_NOT_FOUND => 4040008
  | STATUS_REQUEST_NOT_FOUND => 4040009
  | TRANSACTION_ID_NOT_FOUND => 4040010
  | RATE_LIMIT_EXCEEDED => 4290000
  | GENERAL_INTERNAL => 5000000
  | GENERAL_INTERNAL_RETRYABLE => 5000001
  end.

Section Client.
Context {network : Network}.

(** The conversion of a JSON value to a string, by [String(v)] or by
    appending it to a string: an array joins its elements with commas,
    [null] elements as the empty string; an object is [[object Object]]
    unless an own [toString], which is not callable, shadows the
    inherited method, in which case the conversion throws. *)
Fixpoint ToString (v : Value) : NativeError + string :=
  match v with
  | Null => inr "null"
  | Bool true => inr "true"
  | Bool false => inr "false"
  | Number n => inr (Number_toString n)
  | Str s => inr s
  | Array elements =>
      (fix join (l : list Value) : NativeError + string :=
         let item (x : Value) :=
           match x with Null => inr "" | _ => ToString x end in
         match l with
         | [] => inr ""
         | [x] => item x
         | x :: rest =>
             let? s := item x in
             let? t := join rest in
             inr (s ++ "," ++ t)
         end) elements
  | Object properties =>
      if bool_decide (is_Some (own "toString" properties)) then inl TypeError
      else inr "[object Object]"
  end.

(** [new APIException(httpStatusCode, apiError = null, errorMessage =
    null)]: a default applies to an argument that is [undefined]; the
    message is the error message when there is one, and otherwise names
    the status code and, when it is truthy, the API error. *)
Definition new_APIException (httpStatusCode : Z)
    (apiError errorMessage : option Value) : NativeError + APIException :=
  let apiError := default Null apiError in
  let errorMessage := default Null errorMessage in
  let? message :=
    match errorMessage with
    | Null =>
        let? suffix :=
          if truthy (Some apiError)
          then let? code := ToString apiError in inr (" and API error " ++ code)
          else inr "" in
        inr ("Server returned status code " ++ Number_toString httpStatusCode
             ++ suffix)
    | _ => ToString errorMessage
    end in
  inr (mkAPIException httpStatusCode apiError errorMessage message).

(** [now] is the reading of [Date.now()], in milliseconds. *)
Definition createBearerToken (this : AppStoreServerAPIClient) (now : Z)
  : NativeError + string :=
  let now := now / 1000 in
  let payload :=
    Object [("iss", Str (issuerId this)); ("iat", Number now);
            ("exp", Number (now + 3600)); ("aud", Str "appstoreconnect-v1");
            ("bid", Str (bundleId this))] in
  let key := signingKey this in
  create_as_string
    (Object [("alg", Str "ES256"); ("kid", Str (keyId this));
             ("typ", Str "JWT")])
    payload key.

Definition makeFetchRequest (this : AppStoreServerAPIClient) (path : string)
    (parsedQueryParameters : list (string * string)) (method : string)
    (stringBody : option string) (headers : list (string * string))
  : NativeError + Response :=
  fetch (urlBase this ++ path ++ "?"
         ++ URLSearchParams_toString parsedQueryParameters)
    (mkRequestInit method stringBody headers).

(** The entries appended to [params] by the two nested loops over
    [queryParameters], whose keys are listed in enumeration order. *)
Definition appended (queryParameters : list (string * list string))
  : list (string * string) :=
  flat_map (fun '(queryParam, values) => map (pair queryParam) values)
    queryParameters.

(** The headers of a request made with the bearer token [token], with or
    without a body, as [makeRequest] passes them on. *)
Definition headers_of (token : string) (body : option Value)
  : list (string * string) :=
  let sent :=
    [("User-Agent", USER_AGENT); ("Authorization", "Bearer " ++ token);
     ("Accept", "application/json")] in
  match body with
  | Some _ => (sent ++ [("Content-Type", "application/json")])%list
  | None => sent
  end.

(** [send] is the method [makeFetchRequest] of the instance, which a
    subclass may override; [body] is [None] for [null], [validator] too.
    The result [Null] is [null]. *)
Definition makeRequest
    (send : string -> list (string * string) -> string -> option string ->
            list (string * string) -> NativeError + Response)
    (this : AppStoreServerAPIClient) (now : Z) (path method : string)
    (queryParameters : list (string * list string)) (body : option Value)
    (validator : option Validator) : Thrown + Value :=
  let? token := native (createBearerToken this now) in
  let headers :=
    [("User-Agent", USER_AGENT); ("Authorization", "Bearer " ++ token);
     ("Accept", "application/json")] in
  let params := appended queryParameters in
  let stringBody := JSON_stringify <$> body in
  let headers :=
    match body with
    | Some _ => (headers ++ [("Content-Type", "application/json")])%list
    | None => headers
    end in
  let? response := native (send path params method stringBody headers) in
  if ok response then
    match validator with
    | None => inr Null
    | Some validate =>
        let? responseBody := native (json response) in
        let? valid := native (validate responseBody) in
        if negb valid
        then inl (Native (Error "Unexpected response body format"))
        else inr responseBody
    end
  else
    let attempt : Thrown + Value :=
      let? responseBody := native (json response) in
      let? errorCode := native (get (Some responseBody) "errorCode") in
      let? errorMessage := native (get (Some responseBody) "errorMessage") in
      if truthy errorCode then
        let? e := native (new_APIException (status response) errorCode
                            errorMessage) in
        inl (API e)
      else
        let? e := native (new_APIException (status response) None None) in
        inl (API e) in
    match attempt with
    | inl e =>
        if instanceof_APIException e then inl e
        else
          let? e := native (new_APIException (status response) None None) in
          inl (API e)
    | inr v => inr v
    end.

(** The two request methods; their response validators are those of
    models/MassExtendRenewalDateResponse.ts and
    models/ExtendRenewalDateResponse.ts. *)
Definition extendRenewalDateForAllActiveSubscribers
    (MassExtendRenewalDateResponseValidator : Validator)
    (this : AppStoreServerAPIClient) (now : Z)
    (massExtendRenewalDateRequest : Value) : Thrown + Value :=
  makeRequest (makeFetchRequest this) this now
    "/inApps/v1/subscriptions/extend/mass" "POST" []
    (Some massExtendRenewalDateRequest)
    (Some MassExtendRenewalDateResponseValidator).

Definition extendSubscriptionRenewalDate
    (ExtendRenewalDateResponseValidator : Validator)
    (this : AppStoreServerAPIClient) (now : Z)
    (originalTransactionId : string) (extendRenewalDateRequest : Value)
  : Thrown + Value :=
  makeRequest (makeFetchRequest this) this now
    ("/inApps/v1/subscriptions/extend/" ++ originalTransactionId) "PUT" []
    (Some extendRenewalDateRequest)
    (Some ExtendRenewalDateResponseValidator).

End Client.

End API.

(** * The signature creators (deno_jws_signature_creator.ts) *)

Module Signature.

(** What the creators call outside themselves. *)
Class Signer : Type := {
  (** [create(header, payload, key)] of djwt, awaited: the token, or the
      error it rejects with *)
  create : Value -> Value -> CryptoKey -> NativeError + string;
  (** [new Date().toISOString()] when the clock reads the given instant *)
  toISOString : Z -> string;
  (** [n.toString()] for a number [n] *)
  Number_toString : Z -> string
}.

(** [obj[k] = v], and an entry [k: v] that follows a spread in an object
    literal: the value of an existing property is replaced where the
    property stands, a new property is added last. *)
Fixpoint assign (k : string) (v : Value) (properties : list (string * Value))
  : list (string * Value) :=
  match properties with
  | [] => [(k, v)]
  | (k', v') :: rest =>
      if String.eqb k k' then (k, v) :: rest else (k', v') :: assign k v rest
  end.

(** [if (s)] for an optional string: [None] is [undefined] or [null]. *)
Definition provided (s : option string) : bool :=
  match s with
  | Some s => negb (String.eqb s "")
  | None => false
  end.

(** The header that the three creators build. *)
Definition header (keyId : string) : Value :=
  Object [("alg", Str "ES256"); ("kid", Str keyId); ("typ", Str "JWT")].

Module AdvancedCommerceInApp.

Record AdvancedCommerceInAppRequest : Type := mkAdvancedCommerceInAppRequest {
  transactionId : string;
  offerId : string;
  timestamp : string
}.

Record AdvancedCommerceInAppSignatureCreator : Type := mkCreator {
  keyId : string;
  issuerId : string;
  privateKey : CryptoKey;
  bundleId : string
}.

Section Methods.
Context {signer : Signer}.

(** [payload] lists the own properties of the object passed, in
    enumeration order. *)
Definition createSignature (this : AdvancedCommerceInAppSignatureCreator)
    (payload : list (string * Value)) : NativeError + string :=
  let combinedPayload :=
    assign "iss" (Str (issuerId this))
      (assign "bid" (Str (bundleId this)) payload) in
  create (header (keyId this)) (Object combinedPayload) (privateKey this).

Definition createAdvancedCommerceTokenForTransactionId
    (this : AdvancedCommerceInAppSignatureCreator)
    (transactionId timestamp : string) : NativeError + string :=
  let payload :=
    [("transactionId", Str transactionId); ("timestamp", Str timestamp)] in
  createSignature this payload.

(** [clock] is the instant that [new Date()] reads. *)
Definition createRefundRequestSignature
    (this : AdvancedCommerceInAppSignatureCreator) (clock : Z)
    (originalTransactionId : string) : NativeError + string :=
  let now := toISOString clock in
  createAdvancedCommerceTokenForTransactionId this originalTransactionId now.

Definition createAdvancedCommerceRequest
    (this : AdvancedCommerceInAppSignatureCreator)
    (request : AdvancedCommerceInAppRequest) : NativeError + string :=
  let payload :=
    [("transactionId", Str (transactionId request));
     ("offerId", Str (offerId request));
     ("timestamp", Str (timestamp request))] in
  createSignature this payload.

End Methods.

End AdvancedCommerceInApp.

Module IntroductoryOfferEligibility.

Record IntroductoryOfferEligibilitySignatureCreator : Type := mkCreator {
  keyId : string;
  issuerId : string;
  privateKey : CryptoKey;
  bundleId : string;
  appAppleId : Z
}.

Section Methods.
Context {signer : Signer}.

Definition createSignature (this : IntroductoryOfferEligibilitySignatureCreator)
    (appAccountToken applicationUsername : option string)
  : NativeError + string :=
  if negb (provided appAccountToken) && negb (provided applicationUsername)
  then inl (Error "Either appAccountToken or applicationUsername must be provided.")
  else
    let payload :=
      [("bid", Str (bundleId this)); ("iss", Str (issuerId this));
       ("aid", Str (Number_toString (appAppleId this)))] in
    let payload :=
      match appAccountToken with
      | Some token =>
          if provided appAccountToken then assign "iat" (Str token) payload
          else payload
      | None => payload
      end in
    let payload :=
      match applicationUsername with
      | Some name =>
          if provided applicationUsername then assign "nonce" (Str name) payload
          else payload
      | None => payload
      end in
    create (header (keyId this)) (Object payload) (privateKey this).

End Methods.

End IntroductoryOfferEligibility.

Module PromotionalOfferV2.

Record PromotionalOfferV2SignatureCreator : Type := mkCreator {
  keyId : string;
  issuerId : string;
  privateKey : CryptoKey;
  bundleId : string
}.

Section Methods.
Context {signer : Signer}.

(** [applicationUsername] is [None] for [null]. *)
Definition createSignature (this : PromotionalOfferV2SignatureCreator)
    (productIdentifier subscriptionOfferID : string)
    (applicationUsername : option string) (nonce : string) (timestamp : Z)
    (keyIdentifier : string) : NativeError + string :=
  let payload :=
    [("bid", Str (bundleId this)); ("iss", Str (issuerId this));
     ("pid", Str productIdentifier); ("oid", Str subscriptionOfferID);
     ("timestamp", Number timestamp); ("nonce", Str nonce);
     ("kid", Str keyIdentifier)] in
  let payload :=
    match applicationUsername with
    | Some name => if provided applicationUsername
                   then assign "appAccountToken" (Str name) payload
                   else payload
    | None => payload
    end in
  create (header (keyId this)) (Object payload) (privateKey this).

End Methods.

End PromotionalOfferV2.

End Signature.

(** The statuses of the exceptions that leave a typed entry point. *)
Definition entry_point_status (status : VerificationStatus) : Prop :=
  status = FAILURE \/ status = VERIFICATION_FAILURE
  \/ status = INVALID_APP_IDENTIFIER \/ status = INVALID_ENVIRONMENT.

(** * The message of a [VerificationException] *)

(** [VerificationStatus[status]], the name of the member. *)
Definition VerificationStatus_name (status : VerificationStatus) : string :=
  match status with
  | OK => "OK"
  | VERIFICATION_FAILURE => "VERIFICATION_FAILURE"
  | INVALID_APP_IDENTIFIER => "INVALID_APP_IDENTIFIER"
  | INVALID_ENVIRONMENT => "INVALID_ENVIRONMENT"
  | INVALID_CHAIN_LENGTH => "INVALID_CHAIN_LENGTH"
  | INVALID_CERTIFICATE => "INVALID_CERTIFICATE"
  | FAILURE => "FAILURE"
  end.

(** [e.message]: for a [VerificationException] the constructor passes
    [VerificationStatus[status] + (cause ? ': ' + cause.message : '')] to
    [Error]; [native_message] gives the message of an error of the
    platform. *)
Fixpoint message_of (native_message : NativeError -> string) (e : Thrown)
  : string :=
  match e with
  | Native n => native_message n
  | VerificationException status cause =>
      VerificationStatus_name status
      ++ match cause with
         | Some c => ": " ++ message_of native_message c
         | None => ""
         end
  end.

(** * Stand-ins for the collaborators of the models, the client and the
      creators, to run them on examples *)

Module Stub.

(** Enumerations validated as [StringValidator] and [NumberValidator]
    would; the two nested payloads as the identity fields of the
    reference validator. *)
#[export] Instance models : ModelValidators := {|
  environmentValidator := typeof_string;
  statusValidator := typeof_number;
  consumptionRequestReasonValidator := typeof_string;
  notificationTypeValidator := typeof_string;
  subtypeValidator := typeof_string;
  summaryValidator := Reference.payload_validator;
  externalPurchaseTokenValidator := Reference.payload_validator
|}.

(** A network that answers every request with [answer], and a token
    factory that always issues the same token. *)
Definition network (answer : NativeError + API.Response) : API.Network := {|
  API.fetch := fun _ _ => answer;
  API.JSON_stringify := Reference.stringify;
  API.URLSearchParams_toString := Reference.search_params;
  API.Number_toString := Reference.number_to_string;
  API.create_as_string := fun _ _ _ => inr "token"
|}.

#[export] Instance signer : Signature.Signer := {|
  Signature.create := fun _ _ _ => inr "token";
  Signature.toISOString := Reference.to_ISO_string;
  Signature.Number_toString := Reference.number_to_string
|}.

Definition client : API.AppStoreServerAPIClient :=
  API.mkAppStoreServerAPIClient "issuer" "key" "pem" "com.example"
    API.SANDBOX_URL.

(** The header [{alg: ES256, x5c: [YQ==, Yg==, 5]}], whose third chain
    entry is a number. *)
Definition header_chain3_number : string :=
  "eyJhbGciOiJFUzI1NiIsIng1YyI6WyJZUT09IiwiWWc9PSIsNV19".

(** The notification [{data: 5}] and the app transaction
    [{bundleId: com.example, receiptType: Sandbox, appAppleId: 7}]. *)
Definition notification_data_number : string := "eyJkYXRhIjo1fQ".

Definition app_transaction_sandbox : string :=
  "eyJidW5kbGVJZCI6ImNvbS5leGFtcGxlIiwicmVjZWlwdFR5cGUiOiJTYW5kYm94IiwiYXBwQXBwbGVJZCI6N30".

Definition decoded_app_transaction : Value :=
  Object [("bundleId", Str "com.example"); ("receiptType", Str "Sandbox");
          ("appAppleId", Number 7)].

(** Responses: a success with a JSON body, and a refusal whose body is no
    JSON. *)
Definition response_ok : API.Response :=
  API.mkResponse true 200 (inr (Object [("success", Bool true)])).

Definition response_unreadable : API.Response :=
  API.mkResponse false 502 (inl SyntaxError).

End Stub.

(** * Properties *)

Section Properties.
Context {platform : Platform} {validators : Validators}.
Implicit Types (this : SignedDataVerifier) (jwt : string) (w : World)
  (validator : Validator) (payload : Value).

(** ** The monad *)

(** Decoding the certificates reads no clock and writes nothing. *)
Lemma map_M_certificate_bytes (certs : list Value) w :
  exists r, forall w', map_M certificate_bytes certs w' = (r, w').
Proof.
  induction certs as [|cert certs [r IH]]; [by eexists|].
  cbn [map_M]. unfold bind, certificate_bytes at 1, bind.
  destruct (atob cert) as [e|binary]; cbn.
  - by eexists.
  - destruct r as [e|ys].
    + exists (inl e). intros w'. by rewrite IH.
    + exists (inr (list_byte_of_string binary :: ys)). intros w'. by rewrite IH.
Qed.

(** ** [verifyJWT], step by step *)

#[local] Arguments get : simpl never.
#[local] Arguments nullish : simpl never.
#[local] Arguments chain_length_ne_3 : simpl never.
#[local] Arguments chain_slice_0_2_map : simpl never.
#[local] Arguments strict_eq : simpl never.

Ltac step_verifyJWT :=
  unfold verifyJWT, try_catch, bind, status_error, throw, ret, native.

Lemma verifyJWT_wrong_part_count this jwt validator extractor w :
  length (split "." jwt) ≠ 3%nat ->
  verifyJWT this jwt validator extractor w
  = (inl (VerificationException FAILURE None), w).
Proof.
  intros Hparts. step_verifyJWT.
  destruct (Nat.eqb_spec (length (split "." jwt)) 3); [done|]. reflexivity.
Qed.

Lemma verifyJWT_undecodable_payload this jwt validator extractor w e :
  length (split "." jwt) = 3%nat ->
  decode (nth 1 (split "." jwt) "") = inl e ->
  verifyJWT this jwt validator extractor w
  = (inl (VerificationException FAILURE (Some (Native e))), w).
Proof.
  intros Hparts Hdecode. step_verifyJWT.
  rewrite Hparts, Hdecode. reflexivity.
Qed.

Lemma verifyJWT_unparsable_payload this jwt validator extractor w bytes e :
  length (split "." jwt) = 3%nat ->
  decode (nth 1 (split "." jwt) "") = inr bytes ->
  JSON_parse (TextDecoder_decode bytes) = inl e ->
  verifyJWT this jwt validator extractor w
  = (inl (VerificationException FAILURE (Some (Native e))), w).
Proof.
  intros Hparts Hdecode Hparse. step_verifyJWT.
  rewrite Hparts, Hdecode; cbn. rewrite Hparse. reflexivity.
Qed.

Lemma verifyJWT_invalid_payload this jwt validator extractor w bytes payload :
  length (split "." jwt) = 3%nat ->
  decode (nth 1 (split "." jwt) "") = inr bytes ->
  JSON_parse (TextDecoder_decode bytes) = inr payload ->
  validator payload ≠ inr true ->
  exists cause,
    verifyJWT this jwt validator extractor w
    = (inl (VerificationException FAILURE cause), w).
Proof.
  intros Hparts Hdecode Hparse Hvalid. step_verifyJWT.
  rewrite Hparts, Hdecode; cbn. rewrite Hparse; cbn.
  destruct (validator payload) as [e|[|]]; [|done|]; by eexists.
Qed.

(** In the two unsigned environments the header and the signature are not
    looked at. *)
Lemma verifyJWT_bypass this jwt validator extractor w bytes payload :
  environment this = XCODE \/ environment this = LOCAL_TESTING ->
  length (split "." jwt) = 3%nat ->
  decode (nth 1 (split "." jwt) "") = inr bytes ->
  JSON_parse (TextDecoder_decode bytes) = inr payload ->
  validator payload = inr true ->
  verifyJWT this jwt validator extractor w = (inr payload, w).
Proof.
  intros Henv Hparts Hdecode Hparse Hvalid. step_verifyJWT.
  rewrite Hparts, Hdecode; cbn. rewrite Hparse; cbn. rewrite Hvalid; cbn.
  unfold this_environment_is.
  destruct Henv as [-> | ->]; reflexivity.
Qed.

(** Whatever [verifyJWT] throws is a [VerificationException]. *)
Lemma verifyJWT_throws_VerificationException this jwt validator extractor w e w' :
  verifyJWT this jwt validator extractor w = (inl e, w') ->
  instanceof_VerificationException e = true.
Proof.
  unfold verifyJWT, try_catch at 1.
  destruct (_ w) as [[e'|v] w'']; [|done].
  destruct e' as [n|status cause]; cbn; unfold throw; by intros [= <- _].
Qed.

Lemma chain_slice_0_2_map_certificate_bytes (chain : Value) :
  exists r, forall w, chain_slice_0_2_map chain certificate_bytes w = (r, w).
Proof.
  destruct chain; try (by eexists).
  apply (map_M_certificate_bytes _ (mkWorld 0 0 [])).
Qed.

(** With such an extractor the outcome of [verifyJWT] is the same in every
    world: it throws one exception, or it returns the decoded middle part,
    after one key generation unless the environment is unsigned. *)
Lemma verifyJWT_outcome this jwt validator extractor :
  reads_clock_only extractor ->
  (exists e, forall w, exists w',
      verifyJWT this jwt validator extractor w = (inl e, w')
      /\ clock w' = clock w)
  \/ (exists payload bytes,
        length (split "." jwt) = 3%nat
        /\ decode (nth 1 (split "." jwt) "") = inr bytes
        /\ JSON_parse (TextDecoder_decode bytes) = inr payload
        /\ validator payload = inr true
        /\ forall w,
             verifyJWT this jwt validator extractor w
             = (inr payload,
                if this_environment_is this XCODE
                   || this_environment_is this LOCAL_TESTING
                then w else after_key_generation w)).
Proof.
  intros Hextractor. step_verifyJWT.
  destruct (Nat.eqb_spec (length (split "." jwt)) 3) as [Hparts|]; cbn;
    [|left; eexists; intros w; eexists; done].
  destruct (decode (nth 1 _ _)) as [e|payloadBytes] eqn:Hdecode; cbn;
    [left; eexists; intros w; eexists; done|].
  destruct (JSON_parse (TextDecoder_decode payloadBytes)) as [e|payload] eqn:Hparse;
    cbn; [left; eexists; intros w; eexists; done|].
  destruct (validator payload) as [e|[|]] eqn:Hvalid; cbn;
    [left; eexists; intros w; eexists; done| |left; eexists; intros w; eexists; done].
  destruct (_ || _); [right; exists payload, payloadBytes; repeat split; done|].
  destruct (decode (nth 0 _ _)) as [e|headerBytes]; cbn;
    [left; eexists; intros w; eexists; done|].
  destruct (JSON_parse (TextDecoder_decode headerBytes)) as [e|headerObj]; cbn;
    [left; eexists; intros w; eexists; done|].
  destruct (get (Some headerObj) "x5c") as [e|x5c]; cbn;
    [left; eexists; intros w; eexists; done|].
  destruct (chain_length_ne_3 _);
    [left; eexists; intros w; eexists; done|].
  destruct (chain_slice_0_2_map_certificate_bytes (nullish x5c (Array [])))
    as [[e|certificateChain] Hchain].
  { left; eexists; intros w; eexists. rewrite Hchain. done. }
  destruct (Hextractor payload) as [[e Hdate]|Hdate].
  { left; eexists; intros w; eexists. rewrite Hchain, Hdate. done. }
  unfold verifyCertificateChain, generateKey_publicKey.
  destruct generateKey_rejection as [e|].
  { left; eexists; intros w; eexists. rewrite Hchain.
    destruct (Hdate w) as [d ->]. done. }
  right. exists payload, payloadBytes. repeat split; try done.
  intros w. rewrite Hchain. destruct (Hdate w) as [d ->]. reflexivity.
Qed.

Lemma extractSignedDate_reads_clock_only : reads_clock_only extractSignedDate.
Proof.
  intros v. unfold extractSignedDate, bind, native, new_Date, new_Date_of.
  destruct (get (Some v) "signedDate") as [e|[d|]]; cbn.
  - left. by eexists.
  - destruct (toPrimitive_throws d); [left|right]; by eexists.
  - right. by eexists.
Qed.

Lemma extractReceiptCreationDate_reads_clock_only :
  reads_clock_only extractReceiptCreationDate.
Proof.
  intros v. unfold extractReceiptCreationDate, bind, native, new_Date, new_Date_of.
  destruct (get (Some v) "receiptCreationDate") as [e|[d|]]; cbn.
  - left. by eexists.
  - destruct (toPrimitive_throws d); [left|right]; by eexists.
  - right. by eexists.
Qed.

(** A chain that has not three entries: [INVALID_CHAIN_LENGTH] is thrown
    inside the inner [try], whose [catch] logs it and throws
    [VERIFICATION_FAILURE] with it as the cause. *)
Lemma verifyJWT_chain_length this jwt validator extractor w
    bytes payload headerBytes headerObj x5c :
  environment this = PRODUCTION \/ environment this = SANDBOX ->
  length (split "." jwt) = 3%nat ->
  decode (nth 1 (split "." jwt) "") = inr bytes ->
  JSON_parse (TextDecoder_decode bytes) = inr payload ->
  validator payload = inr true ->
  decode (nth 0 (split "." jwt) "") = inr headerBytes ->
  JSON_parse (TextDecoder_decode headerBytes) = inr headerObj ->
  get (Some headerObj) "x5c" = inr x5c ->
  chain_length_ne_3 (nullish x5c (Array [])) = true ->
  verifyJWT this jwt validator extractor w
  = (inl (VerificationException VERIFICATION_FAILURE
            (Some (VerificationException INVALID_CHAIN_LENGTH None))),
     after_console_error (VerificationException INVALID_CHAIN_LENGTH None) w).
Proof.
  intros Henv Hparts Hdecode Hparse Hvalid Hheader Hobj Hx5c Hlength.
  step_verifyJWT.
  rewrite Hparts, Hdecode; cbn. rewrite Hparse; cbn. rewrite Hvalid; cbn.
  replace (_ || _) with false
    by (unfold this_environment_is; destruct Henv as [-> | ->]; reflexivity).
  rewrite Hheader; cbn. rewrite Hobj; cbn. rewrite Hx5c; cbn.
  rewrite Hlength. reflexivity.
Qed.

(** The third part of the token is never read. *)
Lemma verifyJWT_ignores_signature this validator extractor
    (header body signature signature' : string) jwt jwt' :
  split "." jwt = [header; body; signature] ->
  split "." jwt' = [header; body; signature'] ->
  verifyJWT this jwt validator extractor = verifyJWT this jwt' validator extractor.
Proof. intros Hjwt Hjwt'. unfold verifyJWT. rewrite Hjwt, Hjwt'. reflexivity. Qed.

(** ** The typed entry points are deterministic *)

Ltac resolve_tail :=
  unfold native, status_error, throw, ret;
  repeat match goal with
    | |- context [match ?r with inl _ => _ | inr _ => _ end] => destruct r; cbn
    | |- context [if ?b then _ else _] => destruct b; cbn
    | |- context [let '(_, _) := ?p in _] => destruct p; cbn
    end;
  eexists; intros ?; eexists; reflexivity.

Lemma verifyAndDecodeTransaction_outcome this jwt :
  exists r, forall w, exists w', verifyAndDecodeTransaction this jwt w = (r, w').
Proof.
  unfold verifyAndDecodeTransaction, bind.
  destruct (verifyJWT_outcome this jwt JWSTransactionDecodedPayloadValidator
              extractSignedDate extractSignedDate_reads_clock_only)
    as [[e He]|(payload & bytes & _ & _ & _ & _ & Hrun)].
  - exists (inl e). intros w. destruct (He w) as (w' & -> & _). by exists w'.
  - setoid_rewrite Hrun. resolve_tail.
Qed.

Lemma verifyAndDecodeRenewalInfo_outcome this jwt :
  exists r, forall w, exists w', verifyAndDecodeRenewalInfo this jwt w = (r, w').
Proof.
  unfold verifyAndDecodeRenewalInfo, bind.
  destruct (verifyJWT_outcome this jwt JWSRenewalInfoDecodedPayloadValidator
              extractSignedDate extractSignedDate_reads_clock_only)
    as [[e He]|(payload & bytes & _ & _ & _ & _ & Hrun)].
  - exists (inl e). intros w. destruct (He w) as (w' & -> & _). by exists w'.
  - setoid_rewrite Hrun. resolve_tail.
Qed.

Lemma verifyAndDecodeNotification_outcome this jwt :
  exists r, forall w, exists w', verifyAndDecodeNotification this jwt w = (r, w').
Proof.
  unfold verifyAndDecodeNotification, bind.
  destruct (verifyJWT_outcome this jwt responseBodyV2DecodedPayloadValidator
              extractSignedDate extractSignedDate_reads_clock_only)
    as [[e He]|(payload & bytes & _ & _ & _ & _ & Hrun)].
  - exists (inl e). intros w. destruct (He w) as (w' & -> & _). by exists w'.
  - setoid_rewrite Hrun.
    destruct (notification_identity payload) as [e|[[a b] env]]; cbn;
      unfold verifyNotification; resolve_tail.
Qed.

Lemma verifyAndDecodeAppTransaction_outcome this jwt :
  exists r, forall w, exists w', verifyAndDecodeAppTransaction this jwt w = (r, w').
Proof.
  unfold verifyAndDecodeAppTransaction, bind.
  destruct (verifyJWT_outcome this jwt appTransactionValidator
              extractReceiptCreationDate
              extractReceiptCreationDate_reads_clock_only)
    as [[e He]|(payload & bytes & _ & _ & _ & _ & Hrun)].
  - exists (inl e). intros w. destruct (He w) as (w' & -> & _). by exists w'.
  - setoid_rewrite Hrun. resolve_tail.
Qed.

Lemma entry_point_outcome op this jwt :
  exists r, forall w, exists w', entry_point op this jwt w = (r, w').
Proof.
  destruct op; cbn;
    auto using verifyAndDecodeTransaction_outcome,
      verifyAndDecodeRenewalInfo_outcome, verifyAndDecodeNotification_outcome,
      verifyAndDecodeAppTransaction_outcome.
Qed.

(** ** Strict equality *)

Lemma strict_eq_true (x y : option Value) : strict_eq x y = true -> x = y.
Proof.
  unfold strict_eq.
  destruct x as [[]|], y as [[]|]; try done.
  - by intros ->%Bool.eqb_prop.
  - by intros ->%Z.eqb_eq.
  - by intros ->%String.eqb_eq.
Qed.

Lemma strict_eq_ne (x y : option Value) : x ≠ y -> strict_eq x y = false.
Proof.
  intros Hne. destruct (strict_eq x y) eqn:Heq; [|done].
  by apply strict_eq_true in Heq.
Qed.

Lemma strict_eq_this_bundleId this :
  strict_eq (this_bundleId this) (this_bundleId this) = true.
Proof. apply String.eqb_refl. Qed.

Lemma strict_eq_this_environment this :
  strict_eq (this_environment this) (this_environment this) = true.
Proof. apply String.eqb_refl. Qed.

Lemma strict_eq_this_appAppleId this :
  strict_eq (this_appAppleId this) (this_appAppleId this) = true.
Proof.
  unfold this_appAppleId. destruct (appAppleId this); [apply Z.eqb_refl|done].
Qed.

Lemma unsigned_not_production this :
  environment this = XCODE \/ environment this = LOCAL_TESTING ->
  this_environment_is this PRODUCTION = false.
Proof. unfold this_environment_is. by intros [-> | ->]. Qed.

(** A value that answers one property read answers every other. *)
Lemma get_defined (x : option Value) (k k' : string) (v : option Value) :
  get x k = inr v -> exists v', get x k' = inr v'.
Proof. destruct x as [[]|]; cbv [get]; intros; by eexists. Qed.

(** ** Malformed tokens *)

Lemma verifyJWT_malformed this jwt validator extractor w :
  malformed validator jwt ->
  exists cause,
    verifyJWT this jwt validator extractor w
    = (inl (VerificationException FAILURE cause), w).
Proof.
  intros Hmalformed.
  destruct (decide (length (split "." jwt) = 3%nat)) as [Hparts|Hparts].
  - destruct Hmalformed
      as [?|[[e Hdecode]|[(bytes & e & Hdecode & Hparse)
                         |(bytes & payload & Hdecode & Hparse & Hvalid)]]].
    + done.
    + eexists. by apply verifyJWT_undecodable_payload.
    + eexists. by eapply verifyJWT_unparsable_payload.
    + by eapply verifyJWT_invalid_payload.
  - eexists. by apply verifyJWT_wrong_part_count.
Qed.

Lemma entry_point_malformed op this jwt w :
  malformed (validator_of op) jwt ->
  exists cause,
    entry_point op this jwt w = (inl (VerificationException FAILURE cause), w).
Proof.
  intros Hmalformed.
  destruct op; cbn in *;
    unfold verifyAndDecodeTransaction, verifyAndDecodeRenewalInfo,
      verifyAndDecodeNotification, verifyAndDecodeAppTransaction, bind;
    edestruct verifyJWT_malformed as [cause ->]; try done; by exists cause.
Qed.

(** ** The claims *)

(** C4.  A malformed token (wrong number of parts, a middle part that is
    not base64url, decoded bytes that are not JSON, or a payload that the
    structural validator does not accept) makes [verifyJWT], and so each
    typed entry point, fail with a [VerificationException] of status
    [FAILURE], in an unchanged world; and whatever the input, nothing but
    a [VerificationException] leaves [verifyJWT]. *)
Theorem malformed_token_fails_with_FAILURE this jwt w :
  (forall validator extractor,
      malformed validator jwt ->
      exists cause,
        verifyJWT this jwt validator extractor w
        = (inl (VerificationException FAILURE cause), w))
  /\ (forall op,
        malformed (validator_of op) jwt ->
        exists cause,
          entry_point op this jwt w
          = (inl (VerificationException FAILURE cause), w))
  /\ (forall validator extractor e w',
        verifyJWT this jwt validator extractor w = (inl e, w') ->
        instanceof_VerificationException e = true).
Proof.
  split; [|split].
  - intros validator extractor. apply verifyJWT_malformed.
  - intros op. apply entry_point_malformed.
  - intros validator extractor e w'.
    apply verifyJWT_throws_VerificationException.
Qed.

(** C7.  Without an [appAppleId] the constructor throws for PRODUCTION and
    returns the configured verifier, its cache empty, for every other
    environment. *)
Theorem constructor_requires_appAppleId_for_production
    (roots : list (list Byte.byte)) (online : bool) (env : Environment)
    (bundle : string) :
  constructor roots online env bundle None
  = match env with
    | PRODUCTION =>
        inl (Error "appAppleId is required when the environment is Production")
    | SANDBOX | XCODE | LOCAL_TESTING =>
        inr (mkSignedDataVerifier roots online bundle None env ∅)
    end.
Proof. by destruct env. Qed.

(** ** Unsigned environments *)

Lemma three_parts (header body signature : string) jwt :
  split "." jwt = [header; body; signature] ->
  length (split "." jwt) = 3%nat /\ nth 1 (split "." jwt) "" = body.
Proof. by intros ->. Qed.

(** C5.  In the environments XCODE and LOCAL_TESTING, a three-part token
    whose middle part decodes to a payload that the validator accepts and
    whose identity fields match the configuration is returned by every
    typed entry point, whatever the header and the signature are, and
    nothing is verified: no key is generated, nothing is logged.  The
    identity checks still run, in each of the four entry points: another
    bundle fails with [INVALID_APP_IDENTIFIER] (renewal information has
    no such check), and with the right bundle another environment (the
    [receiptType] of an app transaction, the extracted environment of a
    notification) fails with [INVALID_ENVIRONMENT]. *)
Theorem unsigned_environment_skips_verification
    op this jwt (header body signature : string) bytes payload w :
  environment this = XCODE \/ environment this = LOCAL_TESTING ->
  split "." jwt = [header; body; signature] ->
  decode body = inr bytes ->
  JSON_parse (TextDecoder_decode bytes) = inr payload ->
  validator_of op payload = inr true ->
  (identity_matches op this payload ->
   entry_point op this jwt w = (inr payload, w))
  /\ match op with
     | Transaction =>
         (forall bundle,
            get (Some payload) "bundleId" = inr bundle ->
            bundle ≠ this_bundleId this ->
            verifyAndDecodeTransaction this jwt w
            = (inl (VerificationException INVALID_APP_IDENTIFIER None), w))
         /\ (forall env,
               get (Some payload) "bundleId" = inr (this_bundleId this) ->
               get (Some payload) "environment" = inr env ->
               env ≠ this_environment this ->
               verifyAndDecodeTransaction this jwt w
               = (inl (VerificationException INVALID_ENVIRONMENT None), w))
     | RenewalInfo =>
         forall env,
           get (Some payload) "environment" = inr env ->
           env ≠ this_environment this ->
           verifyAndDecodeRenewalInfo this jwt w
           = (inl (VerificationException INVALID_ENVIRONMENT None), w)
     | Notification =>
         forall app bundle env,
           notification_identity payload = inr (app, bundle, env) ->
           (bundle ≠ this_bundleId this ->
            verifyAndDecodeNotification this jwt w
            = (inl (VerificationException INVALID_APP_IDENTIFIER None), w))
           /\ (bundle = this_bundleId this -> env ≠ this_environment this ->
               verifyAndDecodeNotification this jwt w
               = (inl (VerificationException INVALID_ENVIRONMENT None), w))
     | AppTransaction =>
         (forall bundle,
            get (Some payload) "bundleId" = inr bundle ->
            bundle ≠ this_bundleId this ->
            verifyAndDecodeAppTransaction this jwt w
            = (inl (VerificationException INVALID_APP_IDENTIFIER None), w))
         /\ (forall env,
               get (Some payload) "bundleId" = inr (this_bundleId this) ->
               get (Some payload) "receiptType" = inr env ->
               env ≠ this_environment this ->
               verifyAndDecodeAppTransaction this jwt w
               = (inl (VerificationException INVALID_ENVIRONMENT None), w))
     end.
Proof.
  intros Henv [Hparts Hbody]%three_parts Hdecode Hparse Hvalid.
  rewrite <- Hbody in Hdecode.
  pose proof (unsigned_not_production this Henv) as Hproduction.
  assert (Hrun : forall extractor,
             verifyJWT this jwt (validator_of op) extractor w = (inr payload, w))
    by (intros extractor; by eapply verifyJWT_bypass).
  split.
  - destruct op; cbn in *;
      unfold verifyAndDecodeTransaction, verifyAndDecodeRenewalInfo,
        verifyAndDecodeNotification, verifyAndDecodeAppTransaction, bind;
      rewrite Hrun; cbn.
    + intros [-> ->]; cbn.
      by rewrite strict_eq_this_bundleId, strict_eq_this_environment.
    + intros ->; cbn. by rewrite strict_eq_this_environment.
    + intros (a & -> & _); cbn. unfold verifyNotification.
      by rewrite strict_eq_this_bundleId, Hproduction,
        strict_eq_this_environment.
    + intros (Hbundle & -> & _); cbn.
      destruct (get_defined _ "bundleId" "appAppleId" _ Hbundle) as [a ->].
      rewrite Hbundle; cbn.
      by rewrite strict_eq_this_bundleId, Hproduction,
        strict_eq_this_environment.
  - destruct op; cbn in Hrun.
    + unfold verifyAndDecodeTransaction, bind. rewrite (Hrun _); cbn. split.
      * intros bundle Hbundle Hne. rewrite Hbundle; cbn.
        by rewrite strict_eq_ne.
      * intros env Hbundle Henvironment Hne. rewrite Hbundle; cbn.
        rewrite strict_eq_this_bundleId; cbn.
        rewrite Henvironment; cbn. by rewrite strict_eq_ne.
    + intros env Henvironment Hne.
      unfold verifyAndDecodeRenewalInfo, bind. rewrite (Hrun _); cbn.
      rewrite Henvironment; cbn. by rewrite strict_eq_ne.
    + intros app bundle env Hidentity.
      unfold verifyAndDecodeNotification, bind. rewrite (Hrun _); cbn.
      rewrite Hidentity; cbn. unfold verifyNotification. split.
      * intros Hne. by rewrite (strict_eq_ne (this_bundleId this)).
      * intros -> Hne.
        by rewrite strict_eq_this_bundleId, Hproduction,
          (strict_eq_ne (this_environment this)).
    + unfold verifyAndDecodeAppTransaction, bind. rewrite (Hrun _); cbn.
      split.
      * intros bundle Hbundle Hne.
        destruct (get_defined _ "bundleId" "receiptType" _ Hbundle) as [e ->].
        destruct (get_defined _ "bundleId" "appAppleId" _ Hbundle) as [a ->].
        cbn. rewrite Hbundle; cbn.
        by rewrite (strict_eq_ne (this_bundleId this)).
      * intros env Hbundle Henvironment Hne.
        destruct (get_defined _ "bundleId" "appAppleId" _ Hbundle) as [a ->].
        rewrite Henvironment; cbn. rewrite Hbundle; cbn.
        by rewrite strict_eq_this_bundleId, Hproduction,
          (strict_eq_ne (this_environment this)).
Qed.

(** ** Identity checks *)

Section IdentityChecks.
Implicit Types (bundle app env : option Value).

Lemma verifyNotification_bundleId this bundle app env w :
  bundle ≠ this_bundleId this ->
  verifyNotification this bundle app env w
  = (inl (VerificationException INVALID_APP_IDENTIFIER None), w).
Proof.
  intros Hne. unfold verifyNotification.
  rewrite strict_eq_ne by done. reflexivity.
Qed.

Lemma verifyNotification_appAppleId this bundle app env w :
  environment this = PRODUCTION ->
  app ≠ this_appAppleId this ->
  verifyNotification this bundle app env w
  = (inl (VerificationException INVALID_APP_IDENTIFIER None), w).
Proof.
  intros Hproduction Hne. unfold verifyNotification, this_environment_is.
  rewrite Hproduction, (strict_eq_ne (this_appAppleId this)) by done.
  cbn. by rewrite orb_true_r.
Qed.

Lemma verifyNotification_sandbox_appAppleId this bundle app app' env w :
  environment this ≠ PRODUCTION ->
  verifyNotification this bundle app env w
  = verifyNotification this bundle app' env w.
Proof.
  intros Hne. unfold verifyNotification, this_environment_is.
  by rewrite bool_decide_eq_false_2.
Qed.

Lemma verifyNotification_environment this app env w :
  (environment this = PRODUCTION -> app = this_appAppleId this) ->
  env ≠ this_environment this ->
  verifyNotification this (this_bundleId this) app env w
  = (inl (VerificationException INVALID_ENVIRONMENT None), w).
Proof.
  intros Happ Hne. unfold verifyNotification, this_environment_is.
  rewrite strict_eq_this_bundleId, (strict_eq_ne (this_environment this)) by done.
  case_bool_decide as Hproduction; cbn; [|done].
  by rewrite (Happ Hproduction), strict_eq_this_appAppleId.
Qed.

Lemma verifyNotification_match this app w :
  (environment this = PRODUCTION -> app = this_appAppleId this) ->
  verifyNotification this (this_bundleId this) app (this_environment this) w
  = (inr tt, w).
Proof.
  intros Happ. unfold verifyNotification, this_environment_is.
  rewrite strict_eq_this_bundleId, strict_eq_this_environment.
  case_bool_decide as Hproduction; cbn; [|done].
  by rewrite (Happ Hproduction), strict_eq_this_appAppleId.
Qed.

(** The notification entry point is [verifyJWT], then [verifyNotification]
    on the fields that [notification_identity] extracts. *)
Lemma verifyAndDecodeNotification_checks this jwt w payload w' app bundle env :
  verifyJWT this jwt responseBodyV2DecodedPayloadValidator extractSignedDate w
  = (inr payload, w') ->
  notification_identity payload = inr (app, bundle, env) ->
  verifyAndDecodeNotification this jwt w
  = match verifyNotification this bundle app env w' with
    | (inl e, w'') => (inl e, w'')
    | (inr _, w'') => (inr payload, w'')
    end.
Proof.
  intros Hrun Hidentity. unfold verifyAndDecodeNotification, bind.
  rewrite Hrun, Hidentity; cbn.
  by destruct (verifyNotification this bundle app env w') as [[e|[]] w''].
Qed.

(** The environment of an external purchase token: SANDBOX when the
    purchase identifier is a string that starts with SANDBOX, PRODUCTION
    when it is another string or is missing. *)
Lemma notification_identity_externalPurchaseToken
    payload (data summary token id : option Value) :
  get (Some payload) "data" = inr data -> truthy data = false ->
  get (Some payload) "summary" = inr summary -> truthy summary = false ->
  get (Some payload) "externalPurchaseToken" = inr token -> truthy token = true ->
  get token "externalPurchaseId" = inr id ->
  id = None \/ (exists s, id = Some (Str s)) ->
  exists app bundle,
    get token "appAppleId" = inr app
    /\ get token "bundleId" = inr bundle
    /\ notification_identity payload
       = inr (app, bundle,
              Some (Str (Environment_value
                           (match id with
                            | Some (Str s) =>
                                if startsWith s "SANDBOX" then SANDBOX
                                else PRODUCTION
                            | _ => PRODUCTION
                            end)))).
Proof.
  intros Hdata Hfalsy Hsummary Hfalsy' Htoken Htruthy Hid Hstring.
  destruct (get_defined _ _ "appAppleId" _ Hid) as [app Happ].
  destruct (get_defined _ _ "bundleId" _ Hid) as [bundle Hbundle].
  exists app, bundle. split; [done|]. split; [done|].
  unfold notification_identity.
  rewrite Hdata, Hfalsy, Hsummary, Hfalsy', Htoken, Htruthy, Happ, Hbundle, Hid.
  destruct Hstring as [-> | [s ->]]; [done|].
  cbn. destruct (String.eqb_spec s "") as [->|_]; cbn; [done|].
  by destruct (startsWith s "SANDBOX").
Qed.

(** The fields compared for a notification whose [data], or else whose
    [summary], is populated are the three fields of that sub-object. *)
Lemma notification_identity_data payload (data : option Value) app bundle env :
  get (Some payload) "data" = inr data -> truthy data = true ->
  get data "appAppleId" = inr app ->
  get data "bundleId" = inr bundle ->
  get data "environment" = inr env ->
  notification_identity payload = inr (app, bundle, env).
Proof.
  intros Hdata Htruthy Happ Hbundle Henv. unfold notification_identity.
  by rewrite Hdata, Htruthy, Happ, Hbundle, Henv.
Qed.

Lemma notification_identity_summary
    payload (data summary : option Value) app bundle env :
  get (Some payload) "data" = inr data -> truthy data = false ->
  get (Some payload) "summary" = inr summary -> truthy summary = true ->
  get summary "appAppleId" = inr app ->
  get summary "bundleId" = inr bundle ->
  get summary "environment" = inr env ->
  notification_identity payload = inr (app, bundle, env).
Proof.
  intros Hdata Hfalsy Hsummary Htruthy Happ Hbundle Henv.
  unfold notification_identity.
  by rewrite Hdata, Hfalsy, Hsummary, Htruthy, Happ, Hbundle, Henv.
Qed.

End IdentityChecks.

(** C3, as amended.  Of a payload that [verifyJWT] returns, the
    transaction entry point compares the bundle identifier and fails with
    [INVALID_APP_IDENTIFIER] when it differs from the configured one; the
    renewal-information entry point never reads the bundle identifier: it
    fails with [INVALID_ENVIRONMENT] when the environment differs and
    returns the payload otherwise. *)
Theorem bundleId_is_checked_for_transactions this jwt w payload w' :
  (verifyJWT this jwt JWSTransactionDecodedPayloadValidator extractSignedDate w
   = (inr payload, w') ->
   forall bundle,
     get (Some payload) "bundleId" = inr bundle ->
     bundle ≠ this_bundleId this ->
     verifyAndDecodeTransaction this jwt w
     = (inl (VerificationException INVALID_APP_IDENTIFIER None), w'))
  /\ (verifyJWT this jwt JWSRenewalInfoDecodedPayloadValidator extractSignedDate w
      = (inr payload, w') ->
      forall env,
        get (Some payload) "environment" = inr env ->
        (env = this_environment this ->
         verifyAndDecodeRenewalInfo this jwt w = (inr payload, w'))
        /\ (env ≠ this_environment this ->
            verifyAndDecodeRenewalInfo this jwt w
            = (inl (VerificationException INVALID_ENVIRONMENT None), w'))).
Proof.
  split.
  - intros Hrun bundle Hbundle Hne.
    unfold verifyAndDecodeTransaction, bind. rewrite Hrun; cbn.
    rewrite Hbundle; cbn. by rewrite strict_eq_ne.
  - intros Hrun env Henv.
    unfold verifyAndDecodeRenewalInfo, bind. rewrite Hrun; cbn.
    rewrite Henv; cbn. split.
    + intros ->. by rewrite strict_eq_this_environment.
    + intros Hne. by rewrite strict_eq_ne.
Qed.

(** C8.  For a notification that [verifyJWT] returns, the entry point runs
    [verifyNotification] on the extracted fields.  That check compares the
    app identifier only when the configured environment is PRODUCTION;
    for an external purchase token the environment compared is SANDBOX
    exactly when the purchase identifier starts with SANDBOX, PRODUCTION
    otherwise; a bundle or app-identifier mismatch gives
    [INVALID_APP_IDENTIFIER], an environment mismatch
    [INVALID_ENVIRONMENT], and matching fields pass.  The fields
    extracted from a populated [data], or else from a populated
    [summary], are its [appAppleId], [bundleId] and [environment]. *)
Theorem notification_identity_policy this :
  (forall jwt w payload w' app bundle env,
      verifyJWT this jwt responseBodyV2DecodedPayloadValidator
        extractSignedDate w = (inr payload, w') ->
      notification_identity payload = inr (app, bundle, env) ->
      verifyAndDecodeNotification this jwt w
      = match verifyNotification this bundle app env w' with
        | (inl e, w'') => (inl e, w'')
        | (inr _, w'') => (inr payload, w'')
        end)
  /\ (forall bundle app app' env w,
        environment this ≠ PRODUCTION ->
        verifyNotification this bundle app env w
        = verifyNotification this bundle app' env w)
  /\ (forall payload (data summary token id : option Value),
        get (Some payload) "data" = inr data -> truthy data = false ->
        get (Some payload) "summary" = inr summary -> truthy summary = false ->
        get (Some payload) "externalPurchaseToken" = inr token ->
        truthy token = true ->
        get token "externalPurchaseId" = inr id ->
        id = None \/ (exists s, id = Some (Str s)) ->
        exists app bundle,
          get token "appAppleId" = inr app
          /\ get token "bundleId" = inr bundle
          /\ notification_identity payload
             = inr (app, bundle,
                    Some (Str (Environment_value
                                 (match id with
                                  | Some (Str s) =>
                                      if startsWith s "SANDBOX" then SANDBOX
                                      else PRODUCTION
                                  | _ => PRODUCTION
                                  end)))))
  /\ (forall bundle app env w,
        bundle ≠ this_bundleId this ->
        verifyNotification this bundle app env w
        = (inl (VerificationException INVALID_APP_IDENTIFIER None), w))
  /\ (forall bundle app env w,
        environment this = PRODUCTION ->
        app ≠ this_appAppleId this ->
        verifyNotification this bundle app env w
        = (inl (VerificationException INVALID_APP_IDENTIFIER None), w))
  /\ (forall app env w,
        (environment this = PRODUCTION -> app = this_appAppleId this) ->
        env ≠ this_environment this ->
        verifyNotification this (this_bundleId this) app env w
        = (inl (VerificationException INVALID_ENVIRONMENT None), w))
  /\ (forall app w,
        (environment this = PRODUCTION -> app = this_appAppleId this) ->
        verifyNotification this (this_bundleId this) app (this_environment this) w
        = (inr tt, w))
  /\ (forall payload (data : option Value) app bundle env,
        get (Some payload) "data" = inr data -> truthy data = true ->
        get data "appAppleId" = inr app ->
        get data "bundleId" = inr bundle ->
        get data "environment" = inr env ->
        notification_identity payload = inr (app, bundle, env))
  /\ (forall payload (data summary : option Value) app bundle env,
        get (Some payload) "data" = inr data -> truthy data = false ->
        get (Some payload) "summary" = inr summary -> truthy summary = true ->
        get summary "appAppleId" = inr app ->
        get summary "bundleId" = inr bundle ->
        get summary "environment" = inr env ->
        notification_identity payload = inr (app, bundle, env)).
Proof.
  repeat split.
  - intros *. apply verifyAndDecodeNotification_checks.
  - intros *. apply verifyNotification_sandbox_appAppleId.
  - intros *. apply notification_identity_externalPurchaseToken.
  - intros *. apply verifyNotification_bundleId.
  - intros *. apply verifyNotification_appAppleId.
  - intros *. apply verifyNotification_environment.
  - intros *. apply verifyNotification_match.
  - intros *. apply notification_identity_data.
  - intros *. apply notification_identity_summary.
Qed.

(** C9.  A typed entry point that has returned a payload for a token
    returns the same payload for that token on the same verifier in any
    later world. *)
Theorem verification_is_idempotent op this jwt w payload w' :
  entry_point op this jwt w = (inr payload, w') ->
  forall w2, exists w2', entry_point op this jwt w2 = (inr payload, w2').
Proof.
  intros Hfirst w2.
  destruct (entry_point_outcome op this jwt) as [r Hr].
  destruct (Hr w) as [w1' Hw]. destruct (Hr w2) as [w2' Hw2].
  exists w2'. rewrite Hw2. rewrite Hw in Hfirst. by injection Hfirst as -> _.
Qed.

(** C10.  A notification that [verifyJWT] returns and in which none of
    [data], [summary] and [externalPurchaseToken] is populated fails with
    [INVALID_APP_IDENTIFIER], whatever the configured bundle identifier:
    the extracted bundle identifier is [undefined]. *)
Theorem unpopulated_notification_is_rejected
    this jwt w payload w' (data summary token : option Value) :
  verifyJWT this jwt responseBodyV2DecodedPayloadValidator extractSignedDate w
  = (inr payload, w') ->
  get (Some payload) "data" = inr data -> truthy data = false ->
  get (Some payload) "summary" = inr summary -> truthy summary = false ->
  get (Some payload) "externalPurchaseToken" = inr token ->
  truthy token = false ->
  verifyAndDecodeNotification this jwt w
  = (inl (VerificationException INVALID_APP_IDENTIFIER None), w').
Proof.
  intros Hrun Hdata Hfalsy Hsummary Hfalsy' Htoken Hfalsy''.
  unfold verifyAndDecodeNotification, bind. rewrite Hrun; cbn.
  unfold notification_identity.
  rewrite Hdata, Hfalsy, Hsummary, Hfalsy', Htoken, Hfalsy''; cbn.
  reflexivity.
Qed.

(** ** Key generation *)

(** In a signed environment every call that returns has generated one key
    pair and changed nothing else. *)
Lemma verifyJWT_generates_a_key this jwt validator extractor w payload w' :
  reads_clock_only extractor ->
  environment this = PRODUCTION \/ environment this = SANDBOX ->
  verifyJWT this jwt validator extractor w = (inr payload, w') ->
  w' = after_key_generation w.
Proof.
  intros Hextractor Henv Hrun.
  destruct (verifyJWT_outcome this jwt validator extractor Hextractor)
    as [[e He]|(payload' & bytes & _ & _ & _ & _ & Hall)].
  - destruct (He w) as (w'' & Hthrow & _). congruence.
  - rewrite Hall in Hrun. unfold this_environment_is in Hrun.
    destruct Henv as [Heq | Heq]; rewrite Heq in Hrun; cbn in Hrun;
      by injection Hrun as _ <-.
Qed.

(** In a signed environment every call on a token with a valid payload and
    a chain of three decodable entries calls the key generator, whatever
    the clock shows and whatever keys were generated before: no cache is
    consulted. *)
Lemma verifyJWT_calls_generateKey this jwt validator extractor w
    bytes payload headerBytes headerObj (leaf intermediate root : Value)
    (leafBinary intermediateBinary : string) date :
  environment this = PRODUCTION \/ environment this = SANDBOX ->
  length (split "." jwt) = 3%nat ->
  decode (nth 1 (split "." jwt) "") = inr bytes ->
  JSON_parse (TextDecoder_decode bytes) = inr payload ->
  validator payload = inr true ->
  decode (nth 0 (split "." jwt) "") = inr headerBytes ->
  JSON_parse (TextDecoder_decode headerBytes) = inr headerObj ->
  get (Some headerObj) "x5c" = inr (Some (Array [leaf; intermediate; root])) ->
  atob leaf = inr leafBinary ->
  atob intermediate = inr intermediateBinary ->
  extractor payload w = (inr date, w) ->
  generateKey_calls (verifyJWT this jwt validator extractor w).2
  = S (generateKey_calls w).
Proof.
  intros Henv Hparts Hdecode Hparse Hvalid Hheader Hobj Hx5c Hleaf Hintermediate
    Hdate.
  step_verifyJWT.
  rewrite Hparts, Hdecode; cbn. rewrite Hparse; cbn. rewrite Hvalid; cbn.
  replace (_ || _) with false
    by (unfold this_environment_is; destruct Henv as [-> | ->]; reflexivity).
  rewrite Hheader; cbn. rewrite Hobj; cbn. rewrite Hx5c; cbn.
  unfold chain_length_ne_3, chain_slice_0_2_map, nullish; cbn.
  unfold certificate_bytes, bind, native, ret.
  rewrite Hleaf, Hintermediate; cbn. rewrite Hdate.
  unfold verifyCertificateChain, generateKey_publicKey.
  by destruct generateKey_rejection.
Qed.




End Properties.

(** * The verifier on the reference platform *)

Section Examples.
Import Reference.

Ltac run := vm_compute; reflexivity.


(** C2.  A token whose chain has two entries, and one whose header has no
    chain, in the SANDBOX environment: the exception of status
    [INVALID_CHAIN_LENGTH] is caught by the inner handler, logged, and
    replaced by one of status [VERIFICATION_FAILURE] that carries it as
    its cause. *)
Theorem short_chain_reports_VERIFICATION_FAILURE :
  Forall
    (fun header =>
       verifyJWT sandbox_verifier (token header payload_sandbox "AAAA")
         payload_validator extractSignedDate world0
       = (inl (VerificationException VERIFICATION_FAILURE
                 (Some (VerificationException INVALID_CHAIN_LENGTH None))),
          after_console_error (VerificationException INVALID_CHAIN_LENGTH None)
            world0))
    [header_chain2; header_no_chain].
Proof. repeat constructor; vm_compute; reflexivity. Qed.

(** C3, the claim as stated fails: renewal information of bundle
    [com.other], verified for bundle [com.example] in the XCODE
    environment, is returned. *)
Lemma renewal_info_of_another_bundle_is_returned :
  bundleId xcode_verifier = "com.example"
  /\ get (Some (decoded_xcode "com.other")) "bundleId"
     = inr (Some (Str "com.other"))
  /\ verifyAndDecodeRenewalInfo xcode_verifier
       (token header_chain3 payload_xcode_other "AAAA") world0
     = (inr (decoded_xcode "com.other"), world0).
Proof. repeat split; vm_compute; reflexivity. Qed.

(** C3 as amended, on the XCODE verifier: the transaction of bundle
    [com.other] is refused, the renewal information of that bundle is
    returned. *)
Lemma bundleId_is_checked_for_transactions_witness :
  verifyAndDecodeTransaction xcode_verifier
    (token header_chain3 payload_xcode_other "AAAA") world0
  = (inl (VerificationException INVALID_APP_IDENTIFIER None), world0)
  /\ verifyAndDecodeRenewalInfo xcode_verifier
       (token header_chain3 payload_xcode_other "AAAA") world0
     = (inr (decoded_xcode "com.other"), world0).
Proof.
  pose proof (bundleId_is_checked_for_transactions xcode_verifier
                (token header_chain3 payload_xcode_other "AAAA") world0
                (decoded_xcode "com.other") world0)
    as [Htransaction Hrenewal].
  split.
  - apply (Htransaction ltac:(run) (Some (Str "com.other"))).
    + run.
    + discriminate.
  - apply (Hrenewal ltac:(run) (Some (Str "Xcode"))).
    + run.
    + run.
Defined.

(** C4 on five tokens: two parts; a middle part that is not base64url;
    one that is not JSON; the payload [null], on which the validator
    throws; a payload whose [bundleId] is a number, which it rejects. *)
Lemma malformed_token_fails_with_FAILURE_witness :
  let fails jwt :=
    exists cause,
      verifyAndDecodeTransaction sandbox_verifier jwt world0
      = (inl (VerificationException FAILURE cause), world0) in
  fails "a.b"
  /\ fails (token header_chain3 "!!!" "AAAA")
  /\ fails (token header_chain3 payload_not_json "AAAA")
  /\ fails (token header_chain3 payload_null "AAAA")
  /\ fails (token header_chain3 payload_bundle_number "AAAA").
Proof.
  cbv zeta. split; [|split; [|split; [|split]]];
    match goal with
    | |- exists _, _ _ ?jwt _ = _ =>
        apply (proj1 (proj2 (malformed_token_fails_with_FAILURE
                               sandbox_verifier jwt world0)) Transaction)
    end.
  - left. vm_compute. lia.
  - right; left. eexists. vm_compute. reflexivity.
  - right; right; left. eexists _, _.
    split; [vm_compute; reflexivity|]. vm_compute; reflexivity.
  - right; right; right. eexists _, _.
    split; [|split]; [vm_compute; reflexivity..|]. vm_compute. discriminate.
  - right; right; right. eexists _, _.
    split; [|split]; [vm_compute; reflexivity..|]. vm_compute. discriminate.
Defined.

(** C5 on the XCODE verifier, for tokens whose header and signature are
    not even base64url: a matching transaction is returned; a
    transaction and an app transaction of another bundle, renewal
    information and a notification of another environment are refused. *)
Lemma unsigned_environment_skips_verification_witness :
  verifyAndDecodeTransaction xcode_verifier (token "!" payload_xcode "!!!") world0
  = (inr (decoded_xcode "com.example"), world0)
  /\ verifyAndDecodeTransaction xcode_verifier
       (token "!" payload_xcode_other "!!!") world0
     = (inl (VerificationException INVALID_APP_IDENTIFIER None), world0)
  /\ verifyAndDecodeRenewalInfo xcode_verifier
       (token "!" payload_sandbox "!!!") world0
     = (inl (VerificationException INVALID_ENVIRONMENT None), world0)
  /\ verifyAndDecodeNotification xcode_verifier
       (token "!" notification_sandbox "!!!") world0
     = (inl (VerificationException INVALID_ENVIRONMENT None), world0)
  /\ verifyAndDecodeAppTransaction xcode_verifier
       (token "!" app_transaction_xcode_other "!!!") world0
     = (inl (VerificationException INVALID_APP_IDENTIFIER None), world0).
Proof.
  split; [|split; [|split; [|split]]].
  - refine (proj1 (unsigned_environment_skips_verification Transaction
                     xcode_verifier (token "!" payload_xcode "!!!")
                     "!" payload_xcode "!!!" (bytes_of payload_xcode)
                     (decoded_xcode "com.example") world0
                     (or_introl eq_refl) eq_refl _ _ _) _);
      first [run | split; run].
  - refine (proj1 (proj2 (unsigned_environment_skips_verification Transaction
                     xcode_verifier (token "!" payload_xcode_other "!!!")
                     "!" payload_xcode_other "!!!" (bytes_of payload_xcode_other)
                     (decoded_xcode "com.other") world0
                     (or_introl eq_refl) eq_refl _ _ _))
                     (Some (Str "com.other")) _ _);
      first [discriminate | run].
  - refine (proj2 (unsigned_environment_skips_verification RenewalInfo
                     xcode_verifier (token "!" payload_sandbox "!!!")
                     "!" payload_sandbox "!!!" (bytes_of payload_sandbox)
                     (decoded_sandbox "com.example") world0
                     (or_introl eq_refl) eq_refl _ _ _)
                     (Some (Str "Sandbox")) _ _);
      first [discriminate | run].
  - refine (proj2 (proj2 (unsigned_environment_skips_verification Notification
                     xcode_verifier (token "!" notification_sandbox "!!!")
                     "!" notification_sandbox "!!!"
                     (bytes_of notification_sandbox)
                     decoded_notification_sandbox world0
                     (or_introl eq_refl) eq_refl _ _ _)
                     (Some (Number 7)) (Some (Str "com.example"))
                     (Some (Str "Sandbox")) _) _ _);
      first [discriminate | run].
  - refine (proj1 (proj2 (unsigned_environment_skips_verification AppTransaction
                     xcode_verifier (token "!" app_transaction_xcode_other "!!!")
                     "!" app_transaction_xcode_other "!!!"
                     (bytes_of app_transaction_xcode_other)
                     (decoded_app_transaction_xcode "com.other") world0
                     (or_introl eq_refl) eq_refl _ _ _))
                     (Some (Str "com.other")) _ _);
      first [discriminate | run].
Defined.


(** C8.  On the XCODE verifier, which has no app identifier, a
    notification of app 8 is returned.  On the SANDBOX verifier another
    environment and another bundle are refused; on the PRODUCTION
    verifier of app 7, app 8 is refused. *)
Lemma notification_identity_policy_witness :
  verifyAndDecodeNotification xcode_verifier
    (token header_chain3 notification_xcode "AAAA") world0
  = (inr decoded_notification_xcode, world0)
  /\ verifyNotification sandbox_verifier (Some (Str "com.example"))
       (Some (Number 7)) (Some (Str "Production")) world0
     = (inl (VerificationException INVALID_ENVIRONMENT None), world0)
  /\ verifyNotification sandbox_verifier (Some (Str "com.other"))
       (Some (Number 7)) (Some (Str "Sandbox")) world0
     = (inl (VerificationException INVALID_APP_IDENTIFIER None), world0)
  /\ verifyNotification production_verifier (Some (Str "com.example"))
       (Some (Number 8)) (Some (Str "Production")) world0
     = (inl (VerificationException INVALID_APP_IDENTIFIER None), world0)
  /\ JSON_parse (TextDecoder_decode (bytes_of notification_external_sandbox))
     = inr decoded_notification_external
  /\ (exists app bundle,
        notification_identity decoded_notification_external
        = inr (app, bundle, Some (Str "Sandbox")))
  /\ notification_identity decoded_notification_xcode
     = inr (Some (Number 8), Some (Str "com.example"), Some (Str "Xcode")).
Proof.
  destruct (notification_identity_policy xcode_verifier)
    as (Hentry & _ & _ & _ & _ & _ & _ & Hdata & _).
  destruct (notification_identity_policy sandbox_verifier)
    as (_ & _ & Htoken & Hbundle & _ & Henvironment & _).
  destruct (notification_identity_policy production_verifier)
    as (_ & _ & _ & _ & Happ & _).
  split; [|split; [|split; [|split; [|split; [|split]]]]]; cycle 3.
  - apply (Happ (Some (Str "com.example")) (Some (Number 8))
             (Some (Str "Production")) world0); [reflexivity|discriminate].
  - run.
  - destruct (Htoken decoded_notification_external None None
                (Some external_purchase_token) (Some (Str "SANDBOX_1234")))
      as (app & bundle & _ & _ & Hidentity);
      [reflexivity..|right; by eexists|].
    exists app, bundle. exact Hidentity.
  - apply (Hdata decoded_notification_xcode
             (Some (Object [("bundleId", Str "com.example");
                            ("environment", Str "Xcode");
                            ("appAppleId", Number 8)])));
      reflexivity.
  - etrans.
    + apply (Hentry (token header_chain3 notification_xcode "AAAA") world0
               decoded_notification_xcode world0
               (Some (Number 8)) (Some (Str "com.example"))
               (Some (Str "Xcode"))); run.
    + run.
  - apply (Henvironment (Some (Number 7)) (Some (Str "Production")) world0);
      discriminate.
  - apply (Hbundle (Some (Str "com.other")) (Some (Number 7))
             (Some (Str "Sandbox")) world0); discriminate.
Defined.

(** C9 on the XCODE verifier: a second call, a minute later, returns the
    same payload. *)
Lemma verification_is_idempotent_witness :
  exists w2',
    verifyAndDecodeTransaction xcode_verifier
      (token header_chain3 payload_xcode "AAAA") (mkWorld 1700000060000 0 [])
    = (inr (decoded_xcode "com.example"), w2').
Proof.
  apply (verification_is_idempotent Transaction xcode_verifier
           (token header_chain3 payload_xcode "AAAA") world0
           (decoded_xcode "com.example") world0).
  run.
Defined.

(** C10 on the XCODE verifier and the notification
    [{notificationType: TEST}]. *)
Lemma unpopulated_notification_is_rejected_witness :
  verifyAndDecodeNotification xcode_verifier
    (token header_chain3 notification_unpopulated "AAAA") world0
  = (inl (VerificationException INVALID_APP_IDENTIFIER None), world0).
Proof.
  apply (unpopulated_notification_is_rejected xcode_verifier
           (token header_chain3 notification_unpopulated "AAAA") world0
           (Object [("notificationType", Str "TEST")]) world0 None None None);
    run.
Defined.

End Examples.

#[local] Set Warnings "-clear-no-such-hyp".

(** * Further properties of the verifier *)

Section MoreVerifier.
Context {platform : Platform} {validators : Validators}.
Implicit Types (this : SignedDataVerifier) (jwt : string) (w : World)
  (validator : Validator) (payload : Value).

#[local] Arguments get : simpl never.
#[local] Arguments nullish : simpl never.
#[local] Arguments chain_length_ne_3 : simpl never.
#[local] Arguments chain_slice_0_2_map : simpl never.
#[local] Arguments strict_eq : simpl never.

Ltac run_front :=
  unfold verifyJWT; unfold try_catch at 1;
  unfold bind, status_error, throw, ret, native.

(** The inner handler: what the body returns is returned; what it throws
    is logged and wrapped. *)
Lemma inner_catch {A} (body : M A) w (r : Thrown + A) w' :
  try_catch body
    (fun e =>
       do! console_error e in
       throw (VerificationException VERIFICATION_FAILURE (Some e))) w
  = (r, w') ->
  (exists a, body w = (inr a, w') /\ r = inr a)
  \/ (exists e w0,
        body w = (inl e, w0)
        /\ r = inl (VerificationException VERIFICATION_FAILURE (Some e))
        /\ w' = after_console_error e w0).
Proof.
  unfold try_catch. destruct (body w) as [[e|a] w0].
  - intros [= <- <-]. right. by exists e, w0.
  - intros [= <- <-]. left. by exists a.
Qed.

Lemma verifyJWT_thrown this jwt validator extractor w e w' :
  verifyJWT this jwt validator extractor w = (inl e, w') ->
  (exists cause, e = VerificationException FAILURE cause)
  \/ (exists cause,
        e = VerificationException VERIFICATION_FAILURE (Some cause)
        /\ environment this ≠ XCODE /\ environment this ≠ LOCAL_TESTING).
Proof.
  run_front.
  destruct (negb _); [intros [= <- _]; left; by eexists|].
  destruct (decode (nth 1 _ _)) as [e1|payloadBytes]; cbn;
    [intros [= <- _]; left; by eexists|].
  destruct (JSON_parse _) as [e1|payload]; cbn;
    [intros [= <- _]; left; by eexists|].
  destruct (validator payload) as [e1|[|]]; cbn;
    [intros [= <- _]; left; by eexists| |intros [= <- _]; left; by eexists].
  unfold this_environment_is.
  destruct (decide (environment this = XCODE)) as [->|Hxcode]; [by cbn|].
  destruct (decide (environment this = LOCAL_TESTING)) as [->|Hlocal]; [by cbn|].
  rewrite !bool_decide_eq_false_2 by done. cbn.
  destruct (try_catch _ _ w) as [r w1] eqn:Hinner.
  apply inner_catch in Hinner as [(a & _ & ->)|(e1 & w0 & _ & -> & _)]; [done|].
  cbn. intros [= <- _]. right. by exists e1.
Qed.


(** ** What the entry points throw *)

Lemma get_throws_TypeError (x : option Value) (k : string) (e : NativeError) :
  get x k = inl e -> e = TypeError.
Proof. destruct x as [[]|]; cbv [get]; congruence. Qed.

Lemma notification_identity_throws_TypeError payload (e : NativeError) :
  notification_identity payload = inl e -> e = TypeError.
Proof.
  unfold notification_identity, call_startsWith.
  repeat match goal with
    | |- context [get ?x ?k] =>
        let H := fresh "H" in
        destruct (get x k) as [?|?] eqn:H;
        [apply get_throws_TypeError in H; congruence|]
    | |- context [truthy ?x] => destruct (truthy x)
    | |- context [match ?x with Some _ => _ | None => _ end] => destruct x
    | |- context [match ?v with Null => _ | _ => _ end] => destruct v
    | |- context [if startsWith ?a ?b then _ else _] => destruct (startsWith a b)
    end; congruence.
Qed.

Ltac thrown_by_tail :=
  unfold native, status_error, throw, ret, entry_point_status;
  repeat match goal with
    | |- context [get ?x ?k] =>
        let H := fresh "H" in
        destruct (get x k) as [?|?] eqn:H;
        [apply get_throws_TypeError in H; subst|]; cbn
    | |- context [if ?b then _ else _] => destruct b; cbn
    end;
  intros [= <- _]; eauto 10.

Lemma entry_point_thrown op this jwt w e w' :
  entry_point op this jwt w = (inl e, w') ->
  e = Native TypeError
  \/ (exists status cause,
        e = VerificationException status cause /\ entry_point_status status).
Proof.
  assert (Hjwt : forall validator extractor e w',
             verifyJWT this jwt validator extractor w = (inl e, w') ->
             exists status cause,
               e = VerificationException status cause
               /\ entry_point_status status).
  { intros validator extractor e1 w1 [[c ->]|(c & -> & _)]%verifyJWT_thrown;
      unfold entry_point_status; eauto 10. }
  destruct op; cbn;
    unfold verifyAndDecodeTransaction, verifyAndDecodeRenewalInfo,
      verifyAndDecodeNotification, verifyAndDecodeAppTransaction, bind;
    (destruct (verifyJWT _ _ _ _ w) as [[e1|payload] w1] eqn:Hrun;
     [intros [= <- _]; right; by eapply Hjwt|]).
  - thrown_by_tail.
  - thrown_by_tail.
  - unfold native at 1.
    destruct (notification_identity payload) as [n|[[app bundle] env]] eqn:Hid;
      cbn.
    + apply notification_identity_throws_TypeError in Hid as ->.
      intros [= <- _]. by left.
    + unfold verifyNotification. thrown_by_tail.
  - thrown_by_tail.
Qed.

(** X2.  What leaves a typed entry point is a [VerificationException]
    whose status is [FAILURE], [VERIFICATION_FAILURE],
    [INVALID_APP_IDENTIFIER] or [INVALID_ENVIRONMENT], or else a
    [TypeError] (from reading a field of a [null] payload or calling
    [startsWith] on a purchase identifier that is no string): no error of
    the decoders or of the validator escapes as it is. *)
Theorem entry_point_throws_four_statuses_or_TypeError op this jwt w e w' :
  entry_point op this jwt w = (inl e, w') ->
  e = Native TypeError
  \/ (exists status cause,
        e = VerificationException status cause /\ entry_point_status status).
Proof. apply entry_point_thrown. Qed.

(** ** Effects *)

Ltac settle := intros ?; simplify_eq/=; naive_solver.

(** X3.  With an extractor that only reads the clock, a call of
    [verifyJWT] leaves the clock alone, calls the key generator at most
    once, and writes to the console exactly when it throws
    [VERIFICATION_FAILURE], one entry, which is the cause; in the
    environments XCODE and LOCAL_TESTING it changes nothing at all,
    whatever the token. *)
Theorem verifyJWT_effects this jwt validator extractor w r w' :
  reads_clock_only extractor ->
  verifyJWT this jwt validator extractor w = (r, w') ->
  clock w' = clock w
  /\ ((exists cause,
         r = inl (VerificationException VERIFICATION_FAILURE (Some cause))
         /\ console w' = cause :: console w)
      \/ ((forall cause,
             r ≠ inl (VerificationException VERIFICATION_FAILURE cause))
          /\ console w' = console w))
  /\ (generateKey_calls w' = generateKey_calls w
      \/ generateKey_calls w' = S (generateKey_calls w))
  /\ (environment this = XCODE \/ environment this = LOCAL_TESTING -> w' = w).
Proof.
  intros Hextractor. run_front.
  assert (Hquiet : forall (x : Thrown + Value),
             (forall cause,
                 x ≠ inl (VerificationException VERIFICATION_FAILURE cause)) ->
             (x, w) = (r, w') ->
             clock w' = clock w
             /\ ((exists cause,
                    r = inl (VerificationException VERIFICATION_FAILURE
                               (Some cause))
                    /\ console w' = cause :: console w)
                 \/ ((forall cause,
                        r ≠ inl (VerificationException VERIFICATION_FAILURE
                                   cause))
                     /\ console w' = console w))
             /\ (generateKey_calls w' = generateKey_calls w
                 \/ generateKey_calls w' = S (generateKey_calls w))
             /\ (environment this = XCODE \/ environment this = LOCAL_TESTING
                 -> w' = w)).
  { intros x Hx [= <- <-]. split; [done|]. split; [by right|]. by split; [left|]. }
  destruct (negb _); [by apply Hquiet|].
  destruct (decode (nth 1 _ _)) as [e1|payloadBytes]; cbn; [by apply Hquiet|].
  destruct (JSON_parse _) as [e1|payload]; cbn; [by apply Hquiet|].
  destruct (validator payload) as [e1|[|]]; cbn;
    [by apply Hquiet| |by apply Hquiet].
  unfold this_environment_is.
  destruct (decide (environment this = XCODE)) as [Hx|Hxcode];
    [rewrite (bool_decide_eq_true_2 _ Hx); cbn; by apply Hquiet|].
  destruct (decide (environment this = LOCAL_TESTING)) as [Hl|Hlocal];
    [rewrite (bool_decide_eq_true_2 _ Hl), orb_true_r; cbn; by apply Hquiet|].
  rewrite !bool_decide_eq_false_2 by done. cbn. clear Hquiet.
  destruct (try_catch _ _ w) as [r1 w1] eqn:Hinner.
  apply inner_catch in Hinner as [(a & Hbody & ->)|(e1 & w0 & Hbody & -> & ->)];
    cbn; intros Hrun; injection Hrun as <- <-; revert Hbody;
    unfold bind, native, throw, ret, status_error;
    (destruct (decode (nth 0 _ _)) as [e2|headerBytes]; cbn; [settle|]);
    (destruct (JSON_parse _) as [e2|headerObj]; cbn; [settle|]);
    (destruct (get (Some headerObj) "x5c") as [e2|x5c]; cbn; [settle|]);
    (destruct (chain_length_ne_3 _); [settle|]);
    (destruct (chain_slice_0_2_map_certificate_bytes (nullish x5c (Array [])))
       as [[e2|certificateChain] Hchain]; rewrite Hchain; [settle|]);
    (destruct (Hextractor payload) as [[e2 Hdate]|Hdate];
     [rewrite Hdate; settle|]);
    destruct (Hdate w) as [d ->];
    unfold verifyCertificateChain, generateKey_publicKey;
    destruct generateKey_rejection; settle.
Qed.

(** ** The header and the chain *)

Lemma signed_not_unsigned this :
  environment this = PRODUCTION \/ environment this = SANDBOX ->
  this_environment_is this XCODE || this_environment_is this LOCAL_TESTING
  = false.
Proof. unfold this_environment_is. by intros [-> | ->]. Qed.

(** X4.  In a signed environment, a header whose [x5c] is an array that
    has not three entries, or is missing, gives an exception whose
    message reads VERIFICATION_FAILURE: INVALID_CHAIN_LENGTH: the status
    of the chain check only shows in the message and in the cause. *)
Theorem short_chain_message (native_message : NativeError -> string)
    this jwt validator extractor w bytes payload headerBytes headerObj x5c :
  environment this = PRODUCTION \/ environment this = SANDBOX ->
  length (split "." jwt) = 3%nat ->
  decode (nth 1 (split "." jwt) "") = inr bytes ->
  JSON_parse (TextDecoder_decode bytes) = inr payload ->
  validator payload = inr true ->
  decode (nth 0 (split "." jwt) "") = inr headerBytes ->
  JSON_parse (TextDecoder_decode headerBytes) = inr headerObj ->
  get (Some headerObj) "x5c" = inr x5c ->
  chain_length_ne_3 (nullish x5c (Array [])) = true ->
  exists e w',
    verifyJWT this jwt validator extractor w = (inl e, w')
    /\ message_of native_message e = "VERIFICATION_FAILURE: INVALID_CHAIN_LENGTH".
Proof.
  intros. eexists _, _. split; [by eapply verifyJWT_chain_length|reflexivity].
Qed.

(** X5.  In a signed environment, once the payload has passed the
    validator, a header that does not decode, does not parse, or parses
    to [null] gives [VERIFICATION_FAILURE] with the error as its cause,
    logged once, where the same defect of the payload gives [FAILURE]. *)
Theorem malformed_header_is_VERIFICATION_FAILURE
    this jwt validator extractor w bytes payload (e : NativeError) :
  environment this = PRODUCTION \/ environment this = SANDBOX ->
  length (split "." jwt) = 3%nat ->
  decode (nth 1 (split "." jwt) "") = inr bytes ->
  JSON_parse (TextDecoder_decode bytes) = inr payload ->
  validator payload = inr true ->
  decode (nth 0 (split "." jwt) "") = inl e
  \/ (exists headerBytes,
        decode (nth 0 (split "." jwt) "") = inr headerBytes
        /\ JSON_parse (TextDecoder_decode headerBytes) = inl e)
  \/ (exists headerBytes,
        decode (nth 0 (split "." jwt) "") = inr headerBytes
        /\ JSON_parse (TextDecoder_decode headerBytes) = inr Null
        /\ e = TypeError) ->
  verifyJWT this jwt validator extractor w
  = (inl (VerificationException VERIFICATION_FAILURE (Some (Native e))),
     after_console_error (Native e) w).
Proof.
  intros Henv Hparts Hdecode Hparse Hvalid Hheader.
  unfold verifyJWT, try_catch, bind, status_error, throw, ret, native.
  rewrite Hparts, Hdecode; cbn. rewrite Hparse; cbn. rewrite Hvalid; cbn.
  rewrite signed_not_unsigned by done.
  destruct Hheader as [->|[(hb & -> & Hobj)|(hb & -> & Hobj & ->)]]; cbn;
    [done|by rewrite Hobj..].
Qed.

(** X6.  Of the three entries of the chain only the first two are
    decoded: two tokens with the same payload whose chains agree on these
    two have the same outcome, whatever their third entries and their
    signatures are. *)
Theorem third_chain_entry_is_never_read
    this validator extractor jwt jwt' (header header' body signature
    signature' : string) headerBytes headerBytes' headerObj headerObj'
    (leaf intermediate root root' : Value) :
  split "." jwt = [header; body; signature] ->
  split "." jwt' = [header'; body; signature'] ->
  decode header = inr headerBytes ->
  decode header' = inr headerBytes' ->
  JSON_parse (TextDecoder_decode headerBytes) = inr headerObj ->
  JSON_parse (TextDecoder_decode headerBytes') = inr headerObj' ->
  get (Some headerObj) "x5c" = inr (Some (Array [leaf; intermediate; root])) ->
  get (Some headerObj') "x5c" = inr (Some (Array [leaf; intermediate; root'])) ->
  forall w,
    verifyJWT this jwt validator extractor w
    = verifyJWT this jwt' validator extractor w.
Proof.
  intros Hjwt Hjwt' Hheader Hheader' Hobj Hobj' Hx5c Hx5c' w.
  unfold verifyJWT, try_catch, bind, status_error, throw, ret, native.
  rewrite Hjwt, Hjwt'. cbn [length nth Nat.eqb negb].
  destruct (decode body) as [e|payloadBytes]; cbn; [done|].
  destruct (JSON_parse (TextDecoder_decode payloadBytes)) as [e|payload]; cbn;
    [done|].
  destruct (validator payload) as [e|[|]]; cbn; [done| |done].
  destruct (_ || _); [done|].
  rewrite Hheader, Hheader'; cbn. rewrite Hobj, Hobj'; cbn.
  rewrite Hx5c, Hx5c'. reflexivity.
Qed.

(** X7.  No entry point reads the third part of the token: two tokens
    that differ in their signatures only have the same outcome and the
    same effects, in every environment. *)
Theorem signature_is_never_read op this jwt jwt'
    (header body signature signature' : string) w :
  split "." jwt = [header; body; signature] ->
  split "." jwt' = [header; body; signature'] ->
  entry_point op this jwt w = entry_point op this jwt' w.
Proof.
  intros Hjwt Hjwt'.
  destruct op; cbn;
    unfold verifyAndDecodeTransaction, verifyAndDecodeRenewalInfo,
      verifyAndDecodeNotification, verifyAndDecodeAppTransaction;
    by rewrite (verifyJWT_ignores_signature _ _ _ _ _ _ _ _ _ Hjwt Hjwt').
Qed.

(** ** What the configuration is used for *)

(** X8.  The root certificates, the flag for online checks and the cache
    of a verifier have no influence on any entry point: two verifiers
    with the same bundle identifier, app identifier and environment
    behave alike on every token, in every world. *)
Theorem trust_anchors_are_never_consulted op this jwt w
    (roots : list (list Byte.byte)) (online : bool)
    (cache : gmap string CacheValue) :
  entry_point op
    (mkSignedDataVerifier roots online (bundleId this) (appAppleId this)
       (environment this) cache) jwt w
  = entry_point op this jwt w.
Proof. destruct this, op; reflexivity. Qed.

(** ** The identity checks of the other entry points *)

Section Identity.
Implicit Types (bundle app env : option Value).

(** X9.  For a transaction that [verifyJWT] returns, the bundle
    identifier is compared first and the environment second, and the app
    identifier not at all: another bundle gives [INVALID_APP_IDENTIFIER]
    whatever the environment says, the right bundle in another
    environment [INVALID_ENVIRONMENT], and the right bundle in the right
    environment returns the payload. *)
Theorem transaction_identity_policy this jwt w payload w' bundle env :
  verifyJWT this jwt JWSTransactionDecodedPayloadValidator extractSignedDate w
  = (inr payload, w') ->
  get (Some payload) "bundleId" = inr bundle ->
  get (Some payload) "environment" = inr env ->
  (bundle ≠ this_bundleId this ->
   verifyAndDecodeTransaction this jwt w
   = (inl (VerificationException INVALID_APP_IDENTIFIER None), w'))
  /\ (bundle = this_bundleId this -> env ≠ this_environment this ->
      verifyAndDecodeTransaction this jwt w
      = (inl (VerificationException INVALID_ENVIRONMENT None), w'))
  /\ (bundle = this_bundleId this -> env = this_environment this ->
      verifyAndDecodeTransaction this jwt w = (inr payload, w')).
Proof.
  intros Hrun Hbundle Henv.
  unfold verifyAndDecodeTransaction, bind. rewrite Hrun; cbn.
  rewrite Hbundle; cbn. split; [|split].
  - intros Hne. by rewrite strict_eq_ne.
  - intros -> Hne. rewrite strict_eq_this_bundleId; cbn. rewrite Henv; cbn.
    by rewrite strict_eq_ne.
  - intros -> ->. rewrite strict_eq_this_bundleId; cbn. rewrite Henv; cbn.
    by rewrite strict_eq_this_environment.
Qed.

(** X10.  For an app transaction that [verifyJWT] returns, the
    environment compared is the [receiptType]: another bundle gives
    [INVALID_APP_IDENTIFIER]; so does, for a PRODUCTION verifier only,
    another app identifier; with these right, another receipt type gives
    [INVALID_ENVIRONMENT], and the matching one returns the payload. *)
Theorem app_transaction_identity_policy this jwt w payload w' bundle app env :
  verifyJWT this jwt appTransactionValidator extractReceiptCreationDate w
  = (inr payload, w') ->
  get (Some payload) "receiptType" = inr env ->
  get (Some payload) "bundleId" = inr bundle ->
  get (Some payload) "appAppleId" = inr app ->
  (bundle ≠ this_bundleId this ->
   verifyAndDecodeAppTransaction this jwt w
   = (inl (VerificationException INVALID_APP_IDENTIFIER None), w'))
  /\ (environment this = PRODUCTION -> app ≠ this_appAppleId this ->
      verifyAndDecodeAppTransaction this jwt w
      = (inl (VerificationException INVALID_APP_IDENTIFIER None), w'))
  /\ (bundle = this_bundleId this ->
      (environment this = PRODUCTION -> app = this_appAppleId this) ->
      (env ≠ this_environment this ->
       verifyAndDecodeAppTransaction this jwt w
       = (inl (VerificationException INVALID_ENVIRONMENT None), w'))
      /\ (env = this_environment this ->
          verifyAndDecodeAppTransaction this jwt w = (inr payload, w'))).
Proof.
  intros Hrun Henv Hbundle Happ.
  unfold verifyAndDecodeAppTransaction, bind. rewrite Hrun; cbn.
  rewrite Henv; cbn. rewrite Hbundle; cbn. rewrite Happ; cbn.
  unfold this_environment_is. split; [|split].
  - intros Hne. by rewrite strict_eq_ne.
  - intros Hproduction Hne.
    rewrite (strict_eq_ne (this_appAppleId this)), Hproduction by done.
    cbn. by rewrite orb_true_r.
  - intros -> Hsame. rewrite strict_eq_this_bundleId; cbn.
    assert (bool_decide (environment this = PRODUCTION)
            && negb (strict_eq (this_appAppleId this) app) = false) as ->.
    { case_bool_decide as Hproduction; cbn; [|done].
      by rewrite (Hsame Hproduction), strict_eq_this_appAppleId. }
    split.
    + intros Hne. by rewrite (strict_eq_ne (this_environment this)).
    + intros ->. by rewrite strict_eq_this_environment.
Qed.

(** X11.  The sub-objects of a notification are consulted in the order
    [data], [summary], [externalPurchaseToken], and the first one that is
    populated decides alone: the identity fields are those of [data]
    whenever [data] is truthy, whatever the other two hold, and those of
    [summary] when [data] is not populated and [summary] is.  A populated
    [data] or [summary] that is no object has no fields, so that the
    bundle identifier extracted is [undefined]. *)
Theorem notification_branch_precedence payload (data summary : option Value) :
  get (Some payload) "data" = inr data ->
  get (Some payload) "summary" = inr summary ->
  (truthy data = true ->
   exists app bundle env,
     get data "appAppleId" = inr app /\ get data "bundleId" = inr bundle
     /\ get data "environment" = inr env
     /\ notification_identity payload = inr (app, bundle, env)
     /\ ((forall properties, data ≠ Some (Object properties)) ->
         bundle = None))
  /\ (truthy data = false -> truthy summary = true ->
      exists app bundle env,
        get summary "appAppleId" = inr app /\ get summary "bundleId" = inr bundle
        /\ get summary "environment" = inr env
        /\ notification_identity payload = inr (app, bundle, env)
        /\ ((forall properties, summary ≠ Some (Object properties)) ->
            bundle = None)).
Proof.
  intros Hdata Hsummary. unfold notification_identity.
  rewrite Hdata. split.
  - intros Htruthy. rewrite Htruthy.
    destruct data as [[| | | | |properties]|]; try done;
      eexists _, _, _; (do 4 (split; [reflexivity|]));
      first [done | intros Hno; by destruct (Hno properties)].
  - intros Hfalsy Htruthy. rewrite Hfalsy, Hsummary, Htruthy.
    destruct summary as [[| | | | |properties]|]; try done;
      eexists _, _, _; (do 4 (split; [reflexivity|]));
      first [done | intros Hno; by destruct (Hno properties)].
Qed.

End Identity.

End MoreVerifier.

(** * The validators of the models *)

Section MoreModels.
Context {models : ModelValidators}.

#[local] Arguments get : simpl never.

Lemma defined_and_fails_false (obj : Value) (k : string) (check : Validator) :
  defined_and_fails obj k check = inr false <-> field_passes obj k check.
Proof.
  unfold defined_and_fails, field_passes.
  destruct (get (Some obj) k) as [e|[v|]]; [done| |done].
  destruct (check v) as [e|[|]]; cbn; naive_solver.
Qed.

Ltac next_field :=
  match goal with
  | |- context [defined_and_fails ?obj ?k ?check] =>
      destruct (defined_and_fails obj k check) as [?|[|]];
      [split; [done|naive_solver] | split; [done|naive_solver] | ]
  end.

(** X12.  [DataValidator] accepts a value exactly when reading its
    fields does not throw and each of the eight fields is absent or
    passes its check: the three enumerations their validators, the app
    identifier a number, the four others strings.  The order of the
    checks does not show. *)
Theorem DataValidator_accepts_iff (obj : Value) :
  DataValidator obj = inr true
  <-> field_passes obj "environment" environmentValidator
      /\ field_passes obj "appAppleId" typeof_number
      /\ field_passes obj "bundleId" typeof_string
      /\ field_passes obj "bundleVersion" typeof_string
      /\ field_passes obj "signedTransactionInfo" typeof_string
      /\ field_passes obj "signedRenewalInfo" typeof_string
      /\ field_passes obj "status" statusValidator
      /\ field_passes obj "consumptionRequestReason"
           consumptionRequestReasonValidator.
Proof.
  rewrite <- !defined_and_fails_false. unfold DataValidator.
  do 8 next_field. naive_solver.
Qed.

(** X13.  [DataValidator] does not ask for an object: it throws a
    [TypeError] on [null] and accepts every boolean, number, string and
    array, and the empty object. *)
Theorem DataValidator_on_values_without_fields
    (b : bool) (n : Z) (s : string) (l : list Value) :
  DataValidator Null = inl TypeError
  /\ DataValidator (Bool b) = inr true
  /\ DataValidator (Number n) = inr true
  /\ DataValidator (Str s) = inr true
  /\ DataValidator (Array l) = inr true
  /\ DataValidator (Object []) = inr true.
Proof. repeat split. Qed.

(** The fields of a notification that the validator accepts. *)
Lemma accepted_notification_fields (obj : Value) :
  ResponseBodyV2DecodedPayloadValidator obj = inr true
  <-> field_passes obj "notificationType" notificationTypeValidator
      /\ field_passes obj "subtype" subtypeValidator
      /\ field_passes obj "notificationUUID" typeof_string
      /\ field_passes obj "data" DataValidator
      /\ field_passes obj "version" typeof_string
      /\ field_passes obj "signedDate" typeof_number
      /\ field_passes obj "summary" summaryValidator
      /\ field_passes obj "externalPurchaseToken"
           externalPurchaseTokenValidator.
Proof.
  rewrite <- !defined_and_fails_false.
  unfold ResponseBodyV2DecodedPayloadValidator.
  do 8 next_field. naive_solver.
Qed.

(** X14.  [ResponseBodyV2DecodedPayloadValidator] accepts a value exactly
    when reading its fields does not throw and each of the eight fields
    is absent or passes its check, [data] that of [DataValidator]. *)
Theorem ResponseBodyV2DecodedPayloadValidator_accepts_iff (obj : Value) :
  ResponseBodyV2DecodedPayloadValidator obj = inr true
  <-> field_passes obj "notificationType" notificationTypeValidator
      /\ field_passes obj "subtype" subtypeValidator
      /\ field_passes obj "notificationUUID" typeof_string
      /\ field_passes obj "data" DataValidator
      /\ field_passes obj "version" typeof_string
      /\ field_passes obj "signedDate" typeof_number
      /\ field_passes obj "summary" summaryValidator
      /\ field_passes obj "externalPurchaseToken"
           externalPurchaseTokenValidator.
Proof. apply accepted_notification_fields. Qed.

End MoreModels.

(** * The verifier with the notification validator of the models *)

Section Composition.
Context {platform : Platform} {models : ModelValidators}.
Variables transaction renewal app : Validator.

#[local] Arguments get : simpl never.


(** X15.  With [ResponseBodyV2DecodedPayloadValidator] as its validator,
    the notification entry point rejects with [FAILURE], before any
    identity check and in every environment, a token whose payload is
    [null] or whose payload has a [data] field that is [null]. *)
Theorem notification_with_null_data_is_a_FAILURE
    (this : SignedDataVerifier) (jwt header body signature : string)
    (bytes : list Byte.byte) (payload : Value) (w : World) :
  split "." jwt = [header; body; signature] ->
  decode body = inr bytes ->
  JSON_parse (TextDecoder_decode bytes) = inr payload ->
  payload = Null \/ get (Some payload) "data" = inr (Some Null) ->
  exists cause,
    verifyAndDecodeNotification
        (validators := with_notification_validator transaction renewal app)
        this jwt w
    = (inl (VerificationException FAILURE cause), w).
Proof.
  intros [Hparts Hbody]%three_parts Hdecode Hparse Hnull.
  rewrite <- Hbody in Hdecode.
  apply (entry_point_malformed
           (validators := with_notification_validator transaction renewal app)
           Notification).
  right; right; right. exists bytes, payload. do 2 (split; [done|]).
  cbn. destruct Hnull as [->|Hdata]; [done|].
  intros (_ & _ & _ & Hpasses & _)%accepted_notification_fields.
  unfold field_passes in Hpasses. by rewrite Hdata in Hpasses.
Qed.

(** X16.  On a payload that [ResponseBodyV2DecodedPayloadValidator]
    accepts, the extraction of the signed date does not throw: the date
    is a number or absent, and an absent date is replaced by the clock. *)
Theorem signed_date_of_a_valid_notification (payload : Value) (w : World) :
  ResponseBodyV2DecodedPayloadValidator payload = inr true ->
  (get (Some payload) "signedDate" = inr None
   /\ extractSignedDate payload w = (inr (DateNow (clock w)), w))
  \/ (exists n,
        get (Some payload) "signedDate" = inr (Some (Number n))
        /\ extractSignedDate payload w = (inr (DateOf (Number n)), w)).
Proof.
  intros (_ & _ & _ & _ & _ & Hdate & _)%accepted_notification_fields.
  unfold field_passes in Hdate. unfold extractSignedDate, bind, native.
  destruct (get (Some payload) "signedDate") as [e|[[| |n| | |]|]]; try done.
  - right. by exists n.
  - by left.
Qed.

(** X17.  A [data] field that is populated but is no object (a number
    other than zero, a non-empty string, [true], an array) passes
    [DataValidator], and the notification that carries it, once
    [verifyJWT] has returned it, fails with [INVALID_APP_IDENTIFIER]
    whatever the verifier is configured for. *)
Theorem notification_with_scalar_data
    (this : SignedDataVerifier) (jwt : string) (w w' : World)
    (payload data : Value) :
  verifyJWT this jwt ResponseBodyV2DecodedPayloadValidator extractSignedDate w
  = (inr payload, w') ->
  get (Some payload) "data" = inr (Some data) ->
  truthy (Some data) = true ->
  (forall properties, data ≠ Object properties) ->
  DataValidator data = inr true
  /\ verifyAndDecodeNotification
      (validators := with_notification_validator transaction renewal app)
      this jwt w
     = (inl (VerificationException INVALID_APP_IDENTIFIER None), w').
Proof.
  intros Hrun Hdata Htruthy Hscalar. split.
  - destruct data as [| | | | |properties]; try done.
    by destruct (Hscalar properties).
  - unfold verifyAndDecodeNotification, bind. cbn. rewrite Hrun; cbn.
    unfold notification_identity. rewrite Hdata, Htruthy.
    destruct data as [| | | | |properties]; try done.
    by destruct (Hscalar properties).
Qed.

End Composition.

(** * The API client *)

Section MoreAPI.
Context {network : API.Network}.
Implicit Types (this : API.AppStoreServerAPIClient) (now : Z)
  (path method token : string) (validator : option Validator).

#[local] Arguments get : simpl never.

Lemma API_constructor_result (signingKey keyId issuerId bundleId : string)
    (environment : Environment) (client : API.AppStoreServerAPIClient) :
  API.constructor signingKey keyId issuerId bundleId environment = inr client ->
  environment ≠ XCODE
  /\ API.urlBase client
     = match environment with
       | PRODUCTION => API.PRODUCTION_URL
       | SANDBOX => API.SANDBOX_URL
       | _ => API.LOCAL_TESTING_URL
       end.
Proof. destruct environment; cbn; intros [= <-]; done. Qed.

(** X18.  A client can be constructed for every environment but XCODE,
    and clients of different environments never share a base URL. *)
Theorem client_environments_have_distinct_urls
    (signingKey keyId issuerId bundleId signingKey' keyId' issuerId'
     bundleId' : string) (environment environment' : Environment) :
  ((exists e,
       API.constructor signingKey keyId issuerId bundleId environment = inl e)
   <-> environment = XCODE)
  /\ (forall client client',
        API.constructor signingKey keyId issuerId bundleId environment
        = inr client ->
        API.constructor signingKey' keyId' issuerId' bundleId' environment'
        = inr client' ->
        API.urlBase client = API.urlBase client' ->
        environment = environment').
Proof.
  split.
  - destruct environment; cbn; split; try (by intros [e He]); try done.
    intros _. by eexists.
  - intros client client' [Hx Hurl]%API_constructor_result
      [Hx' Hurl']%API_constructor_result.
    rewrite Hurl, Hurl'.
    destruct environment, environment'; try done; intros Heq;
      by vm_compute in Heq.
Qed.

(** X19.  The payload of the bearer token is issued at the second that
    contains the instant [now] (in milliseconds, rounded down, also
    before 1970) and expires 3600 seconds later. *)
Theorem bearer_token_lifetime this now :
  exists iat,
    API.createBearerToken this now
    = API.create_as_string
        (Object [("alg", Str "ES256"); ("kid", Str (API.keyId this));
                 ("typ", Str "JWT")])
        (Object [("iss", Str (API.issuerId this)); ("iat", Number iat);
                 ("exp", Number (iat + 3600));
                 ("aud", Str "appstoreconnect-v1");
                 ("bid", Str (API.bundleId this))])
        (API.signingKey this)
    /\ 1000 * iat <= now < 1000 * iat + 1000.
Proof.
  exists (now / 1000). split; [reflexivity|].
  pose proof (Z.div_mod now 1000 ltac:(lia)).
  pose proof (Z.mod_pos_bound now 1000 ltac:(lia)). lia.
Qed.

(** ** [makeRequest] *)

Lemma append_empty_r (s : string) : s ++ "" = s.
Proof.
  induction s as [|c s IH]; [done|].
  change (String c (s ++ "") = String c s). by rewrite IH.
Qed.

(** [new APIException(status)] does not throw. *)
Lemma new_APIException_status (status : Z) :
  API.new_APIException status None None
  = inr (API.mkAPIException status Null Null
           ("Server returned status code " ++ API.Number_toString status)).
Proof.
  unfold API.new_APIException. cbn. by rewrite append_empty_r.
Qed.

#[local] Arguments API.new_APIException : simpl never.

(** X20.  [makeRequest] returns a value only for a response whose [ok]
    flag is set, to the request that carries the bearer token, the JSON
    body if there is one and a content type exactly then: the value is
    [null] when no validator is given, the body not even being read, and
    otherwise the body of the response, which the validator accepts. *)
Theorem makeRequest_returns send this now path method
    (queryParameters : list (string * list string)) (body : option Value)
    validator (v : Value) :
  API.makeRequest send this now path method queryParameters body validator
  = inr v ->
  exists token response,
    API.createBearerToken this now = inr token
    /\ send path (API.appended queryParameters) method
         (API.JSON_stringify <$> body) (API.headers_of token body)
       = inr response
    /\ API.ok response = true
    /\ ((validator = None /\ v = Null)
        \/ (exists validate,
              validator = Some validate
              /\ API.json response = inr v /\ validate v = inr true)).
Proof.
  unfold API.makeRequest, API.headers_of. cbv zeta.
  destruct (API.createBearerToken this now) as [e|token]; [done|]. cbn.
  destruct (send _ _ _ _ _) as [e|response] eqn:Hsend; [done|]. cbn.
  destruct (API.ok response) eqn:Hok.
  - destruct validator as [validate|].
    + destruct (API.json response) as [e|responseBody] eqn:Hjson; [done|]. cbn.
      destruct (validate responseBody) as [e|[|]] eqn:Hvalid; try done.
      cbn. intros [= <-]. exists token, response. repeat split; try done.
      right. by exists validate.
    + intros [= <-]. exists token, response. repeat split; try done. by left.
  - destruct (API.json response) as [e|responseBody]; cbn.
    { by rewrite new_APIException_status. }
    destruct (get (Some responseBody) "errorCode") as [e|errorCode]; cbn.
    { by rewrite new_APIException_status. }
    destruct (get (Some responseBody) "errorMessage") as [e|errorMessage]; cbn.
    { by rewrite new_APIException_status. }
    destruct (truthy errorCode).
    + destruct (API.new_APIException _ errorCode errorMessage); cbn; [|done].
      by rewrite new_APIException_status.
    + by rewrite new_APIException_status.
Qed.

(** X21.  When the response to that request does not have its [ok] flag
    set, [makeRequest] throws an [APIException] with the status of the
    response, whatever the body is.  The exception carries an API error
    only if the body is JSON with a truthy [errorCode], which it then
    is; in every other case, an unreadable body included, the API error
    and the error message are [null] and the message names the status
    alone. *)
Theorem makeRequest_not_ok send this now path method
    (queryParameters : list (string * list string)) (body : option Value)
    validator token (response : API.Response) :
  API.createBearerToken this now = inr token ->
  send path (API.appended queryParameters) method
    (API.JSON_stringify <$> body) (API.headers_of token body)
  = inr response ->
  API.ok response = false ->
  exists e,
    API.makeRequest send this now path method queryParameters body validator
    = inl (API.API e)
    /\ API.httpStatusCode e = API.status response
    /\ (e = API.mkAPIException (API.status response) Null Null
              ("Server returned status code "
               ++ API.Number_toString (API.status response))
        \/ (exists responseBody code,
              API.json response = inr responseBody
              /\ get (Some responseBody) "errorCode" = inr (Some code)
              /\ truthy (Some code) = true
              /\ API.apiError e = code)).
Proof.
  intros Htoken Hsend Hok. unfold API.makeRequest, API.headers_of in *.
  cbv zeta in *.
  rewrite Htoken; cbn [API.native]. rewrite Hsend; cbn [API.native].
  rewrite Hok.
  pose proof (new_APIException_status (API.status response)) as Hplain.
  destruct (API.json response) as [e|responseBody]; cbn.
  { rewrite Hplain; cbn. eexists. repeat split. by left. }
  destruct (get (Some responseBody) "errorCode") as [e|errorCode] eqn:Hcode; cbn.
  { rewrite Hplain; cbn. eexists. repeat split. by left. }
  destruct (get (Some responseBody) "errorMessage") as [e|errorMessage]; cbn.
  { rewrite Hplain; cbn. eexists. repeat split. by left. }
  destruct (truthy errorCode) eqn:Htruthy.
  - destruct (API.new_APIException _ errorCode errorMessage) as [e|e] eqn:Hnew;
      cbn.
    + rewrite Hplain; cbn. eexists. repeat split. by left.
    + exists e. revert Hnew. unfold API.new_APIException.
      destruct errorCode as [code|]; [|done]. cbn.
      destruct (match default Null errorMessage with Null => _ | _ => _ end);
        [done|].
      cbn. intros [= <-]. repeat split. right. by exists responseBody, code.
  - rewrite Hplain; cbn. eexists. repeat split. by left.
Qed.

(** X22.  An error that is no [APIException] leaves [makeRequest] only
    if the bearer token could not be created, the request could not be
    made, or the response had its [ok] flag set and its body could not
    be read, made the validator throw, or was rejected by it: a response
    without the flag never gives such an error. *)
Theorem makeRequest_raw_errors send this now path method
    (queryParameters : list (string * list string)) (body : option Value)
    validator (e : NativeError) :
  API.makeRequest send this now path method queryParameters body validator
  = inl (API.Native e) ->
  API.createBearerToken this now = inl e
  \/ (exists token,
        API.createBearerToken this now = inr token
        /\ (send path (API.appended queryParameters) method
              (API.JSON_stringify <$> body) (API.headers_of token body)
            = inl e
            \/ (exists response validate,
                  send path (API.appended queryParameters) method
                    (API.JSON_stringify <$> body) (API.headers_of token body)
                  = inr response
                  /\ API.ok response = true
                  /\ validator = Some validate
                  /\ (API.json response = inl e
                      \/ (exists responseBody,
                            API.json response = inr responseBody
                            /\ (validate responseBody = inl e
                                \/ (validate responseBody = inr false
                                    /\ e = Error "Unexpected response body format"))))))).
Proof.
  unfold API.makeRequest, API.headers_of. cbv zeta.
  destruct (API.createBearerToken this now) as [e1|token]; cbn [API.native];
    [intros [= ->]; by left|].
  destruct (send _ _ _ _ _) as [e1|response] eqn:Hsend; cbn [API.native];
    [intros [= ->]; right; exists token; split; [done|by left]|].
  destruct (API.ok response) eqn:Hok.
  - destruct validator as [validate|]; [|done].
    intros Hrun. right. exists token. split; [done|]. right.
    exists response, validate. do 3 (split; [done|]). revert Hrun.
    destruct (API.json response) as [e1|responseBody]; cbn [API.native];
      [intros [= ->]; by left|].
    intros Hrun. right. exists responseBody. split; [done|]. revert Hrun.
    destruct (validate responseBody) as [e1|[|]]; cbn; [|done|].
    + intros [= ->]. by left.
    + intros [= <-]. by right.
  - pose proof (new_APIException_status (API.status response)) as Hplain.
    destruct (API.json response) as [e1|responseBody]; cbn.
    { by rewrite Hplain. }
    destruct (get (Some responseBody) "errorCode") as [e1|errorCode]; cbn.
    { by rewrite Hplain. }
    destruct (get (Some responseBody) "errorMessage") as [e1|errorMessage]; cbn.
    { by rewrite Hplain. }
    destruct (truthy errorCode).
    + destruct (API.new_APIException _ errorCode errorMessage); cbn; [|done].
      by rewrite Hplain.
    + by rewrite Hplain.
Qed.

(** ** The two requests *)

(** X23.  Extending the renewal date of one subscription is a PUT to the
    base URL followed by /inApps/v1/subscriptions/extend/ and the
    transaction identifier as it is given, then a question mark and the
    serialization of no parameters; extending it for all subscribers is a
    POST to /inApps/v1/subscriptions/extend/mass.  Both send the request
    as JSON.  When the response to that very request has its [ok] flag
    set and a body that the validator accepts, the body is returned. *)
Theorem extend_renewal_date_requests (validate : Validator) this now token
    (originalTransactionId : string) (request : Value)
    (response : API.Response) (responseBody : Value) :
  API.createBearerToken this now = inr token ->
  API.ok response = true ->
  API.json response = inr responseBody ->
  validate responseBody = inr true ->
  (API.fetch
     (API.urlBase this
      ++ ("/inApps/v1/subscriptions/extend/" ++ originalTransactionId)
      ++ "?" ++ API.URLSearchParams_toString [])
     (API.mkRequestInit "PUT" (Some (API.JSON_stringify request))
        (API.headers_of token (Some request)))
   = inr response ->
   API.extendSubscriptionRenewalDate validate this now originalTransactionId
     request
   = inr responseBody)
  /\ (API.fetch
        (API.urlBase this ++ "/inApps/v1/subscriptions/extend/mass" ++ "?"
         ++ API.URLSearchParams_toString [])
        (API.mkRequestInit "POST" (Some (API.JSON_stringify request))
           (API.headers_of token (Some request)))
      = inr response ->
      API.extendRenewalDateForAllActiveSubscribers validate this now request
      = inr responseBody).
Proof.
  intros Htoken Hok Hjson Hvalid.
  unfold API.extendSubscriptionRenewalDate,
    API.extendRenewalDateForAllActiveSubscribers, API.makeRequest,
    API.makeFetchRequest, API.headers_of.
  cbv zeta. rewrite Htoken; cbn [API.native API.appended flat_map fmap option_fmap option_map].
  split; intros Hfetch; rewrite Hfetch; cbn [API.native];
    rewrite Hok, Hjson; cbn [API.native]; by rewrite Hvalid.
Qed.

(** X24.  No two members of [APIError] have the same number, and the
    number of every member, divided by ten thousand, is one of the HTTP
    statuses 400, 403, 404, 429 and 500. *)
Theorem APIError_numbers :
  (forall a b : API.APIError,
      API.APIError_value a = API.APIError_value b -> a = b)
  /\ (forall a : API.APIError,
        API.APIError_value a / 10000 ∈ [400; 403; 404; 429; 500]).
Proof.
  split.
  - intros a b. destruct a, b; first [reflexivity | discriminate].
  - intros a. destruct a; vm_compute; set_solver.
Qed.

End MoreAPI.

(** * The signature creators *)

Section MoreSignature.
Context {signer : Signature.Signer}.
Import Signature.

(** ** Assignment and lookup *)

Lemma own_assign_same (k : string) (v : Value) (p : list (string * Value)) :
  own k (assign k v p) = Some v.
Proof.
  induction p as [|[k' v'] p IH]; cbn.
  - by rewrite String.eqb_refl.
  - destruct (String.eqb_spec k k') as [<-|Hne]; cbn.
    + by rewrite String.eqb_refl.
    + by destruct (String.eqb_spec k k').
Qed.

Lemma own_assign_other (k k' : string) (v : Value) (p : list (string * Value)) :
  k ≠ k' -> own k' (assign k v p) = own k' p.
Proof.
  intros Hne. induction p as [|[k0 v0] p IH]; cbn.
  - by destruct (String.eqb_spec k' k).
  - destruct (String.eqb_spec k k0) as [<-|Hne0]; cbn.
    + by destruct (String.eqb_spec k' k).
    + by rewrite IH.
Qed.

Lemma length_assign (k : string) (v : Value) (p : list (string * Value)) :
  length (assign k v p)
  = match own k p with Some _ => length p | None => S (length p) end.
Proof.
  induction p as [|[k' v'] p IH]; cbn; [done|].
  destruct (String.eqb_spec k k') as [<-|Hne]; cbn; [done|].
  rewrite IH. by destruct (own k p).
Qed.

(** X25.  Whatever object [createSignature] of the advanced commerce
    creator is given, the payload that it signs has the bundle identifier
    of the creator under [bid] and its issuer under [iss], also when the
    object has properties of these names; every other property is
    passed on unchanged, and nothing else is added. *)
Theorem advanced_commerce_payload
    (this : AdvancedCommerceInApp.AdvancedCommerceInAppSignatureCreator)
    (payload : list (string * Value)) :
  exists combined,
    AdvancedCommerceInApp.createSignature this payload
    = create (header (AdvancedCommerceInApp.keyId this)) (Object combined)
        (AdvancedCommerceInApp.privateKey this)
    /\ own "bid" combined = Some (Str (AdvancedCommerceInApp.bundleId this))
    /\ own "iss" combined = Some (Str (AdvancedCommerceInApp.issuerId this))
    /\ (forall k, k ≠ "bid" -> k ≠ "iss" -> own k combined = own k payload)
    /\ length combined
       = (length payload
          + match own "bid" payload with Some _ => 0 | None => 1 end
          + match own "iss" payload with Some _ => 0 | None => 1 end)%nat.
Proof.
  eexists. split; [reflexivity|]. split; [|split; [|split]].
  - rewrite own_assign_other by done. apply own_assign_same.
  - apply own_assign_same.
  - intros k Hbid Hiss. by rewrite !own_assign_other.
  - rewrite !length_assign, own_assign_other by done.
    destruct (own "bid" payload), (own "iss" payload); lia.
Qed.

(** X26.  The two public methods of the advanced commerce creator sign
    the transaction identifier and the timestamp, for a refund request
    the instant of the call in ISO format, the offer identifier for a
    request only, and then the bundle identifier and the issuer of the
    creator, in this order and nothing else. *)
Theorem advanced_commerce_requests
    (this : AdvancedCommerceInApp.AdvancedCommerceInAppSignatureCreator)
    (clock : Z) (originalTransactionId : string)
    (request : AdvancedCommerceInApp.AdvancedCommerceInAppRequest) :
  AdvancedCommerceInApp.createRefundRequestSignature this clock
    originalTransactionId
  = create (header (AdvancedCommerceInApp.keyId this))
      (Object [("transactionId", Str originalTransactionId);
               ("timestamp", Str (toISOString clock));
               ("bid", Str (AdvancedCommerceInApp.bundleId this));
               ("iss", Str (AdvancedCommerceInApp.issuerId this))])
      (AdvancedCommerceInApp.privateKey this)
  /\ AdvancedCommerceInApp.createAdvancedCommerceRequest this request
     = create (header (AdvancedCommerceInApp.keyId this))
         (Object [("transactionId",
                   Str (AdvancedCommerceInApp.transactionId request));
                  ("offerId", Str (AdvancedCommerceInApp.offerId request));
                  ("timestamp",
                   Str (AdvancedCommerceInApp.timestamp request));
                  ("bid", Str (AdvancedCommerceInApp.bundleId this));
                  ("iss", Str (AdvancedCommerceInApp.issuerId this))])
         (AdvancedCommerceInApp.privateKey this).
Proof. split; reflexivity. Qed.

(** X27.  The introductory offer creator refuses to sign when neither
    the account token nor the user name is given, an empty string
    counting as not given; otherwise it signs the bundle identifier, the
    issuer and the app identifier as a string, with the account token
    under [iat] and the user name under [nonce], each exactly when it is
    given. *)
Theorem introductory_offer_payload
    (this : IntroductoryOfferEligibility.IntroductoryOfferEligibilitySignatureCreator)
    (appAccountToken applicationUsername : option string) :
  (provided appAccountToken = false -> provided applicationUsername = false ->
   IntroductoryOfferEligibility.createSignature this appAccountToken
     applicationUsername
   = inl (Error "Either appAccountToken or applicationUsername must be provided."))
  /\ (provided appAccountToken = true \/ provided applicationUsername = true ->
      exists payload,
        IntroductoryOfferEligibility.createSignature this appAccountToken
          applicationUsername
        = create (header (IntroductoryOfferEligibility.keyId this))
            (Object payload) (IntroductoryOfferEligibility.privateKey this)
        /\ own "bid" payload
           = Some (Str (IntroductoryOfferEligibility.bundleId this))
        /\ own "iss" payload
           = Some (Str (IntroductoryOfferEligibility.issuerId this))
        /\ own "aid" payload
           = Some (Str (Number_toString
                          (IntroductoryOfferEligibility.appAppleId this)))
        /\ own "iat" payload
           = (if provided appAccountToken then Str <$> appAccountToken
              else None)
        /\ own "nonce" payload
           = (if provided applicationUsername then Str <$> applicationUsername
              else None)).
Proof.
  unfold IntroductoryOfferEligibility.createSignature. split.
  - by intros -> ->.
  - intros Hgiven.
    assert (negb (provided appAccountToken)
            && negb (provided applicationUsername) = false) as ->
      by (destruct Hgiven as [-> | ->]; [done|apply andb_false_r]).
    eexists. split; [reflexivity|].
    destruct appAccountToken as [token|], applicationUsername as [name|];
      cbn; repeat case_match; done.
Qed.

(** X28.  The promotional offer creator always signs the seven fields
    [bid], [iss], [pid], [oid], [timestamp], [nonce] and [kid], where
    [kid] is the key identifier passed to the call while the [kid] of the
    header is that of the creator; the user name is signed, under
    [appAccountToken], exactly when it is given and not empty. *)
Theorem promotional_offer_payload
    (this : PromotionalOfferV2.PromotionalOfferV2SignatureCreator)
    (productIdentifier subscriptionOfferID : string)
    (applicationUsername : option string) (nonce : string) (timestamp : Z)
    (keyIdentifier : string) :
  exists payload,
    PromotionalOfferV2.createSignature this productIdentifier
      subscriptionOfferID applicationUsername nonce timestamp keyIdentifier
    = create
        (Object [("alg", Str "ES256");
                 ("kid", Str (PromotionalOfferV2.keyId this));
                 ("typ", Str "JWT")])
        (Object payload) (PromotionalOfferV2.privateKey this)
    /\ map fst payload
       = (["bid"; "iss"; "pid"; "oid"; "timestamp"; "nonce"; "kid"]
          ++ if provided applicationUsername then ["appAccountToken"] else [])%list
    /\ own "bid" payload = Some (Str (PromotionalOfferV2.bundleId this))
    /\ own "iss" payload = Some (Str (PromotionalOfferV2.issuerId this))
    /\ own "pid" payload = Some (Str productIdentifier)
    /\ own "oid" payload = Some (Str subscriptionOfferID)
    /\ own "timestamp" payload = Some (Number timestamp)
    /\ own "nonce" payload = Some (Str nonce)
    /\ own "kid" payload = Some (Str keyIdentifier)
    /\ own "appAccountToken" payload
       = (if provided applicationUsername then Str <$> applicationUsername
          else None).
Proof.
  unfold PromotionalOfferV2.createSignature.
  eexists. split; [reflexivity|].
  destruct applicationUsername as [name|]; cbn; [|done].
  by destruct (negb (String.eqb name "")).
Qed.

End MoreSignature.

(** * The further properties on examples *)

Section MoreExamples.
Import Reference Stub.

Ltac compute_it := vm_compute; reflexivity.


Lemma entry_point_throws_four_statuses_or_TypeError_witness :
  let e := VerificationException INVALID_APP_IDENTIFIER None in
  e = Native TypeError
  \/ (exists status cause,
        e = VerificationException status cause /\ entry_point_status status).
Proof.
  apply (entry_point_throws_four_statuses_or_TypeError Transaction
           xcode_verifier (token header_chain3 payload_xcode_other "AAAA")
           world0 _ world0).
  compute_it.
Defined.

Lemma signature_is_never_read_witness :
  entry_point Transaction sandbox_verifier
    (token header_chain3 payload_sandbox "") world0
  = entry_point Transaction sandbox_verifier
      (token header_chain3 payload_sandbox "AAAA") world0.
Proof.
  apply (signature_is_never_read Transaction sandbox_verifier _ _
           header_chain3 payload_sandbox "" "AAAA" world0); compute_it.
Defined.

Lemma verifyJWT_effects_witness :
  let w' :=
    after_console_error (VerificationException INVALID_CHAIN_LENGTH None)
      world0 in
  clock w' = clock world0
  /\ generateKey_calls w' = generateKey_calls world0.
Proof.
  edestruct (verifyJWT_effects sandbox_verifier
               (token header_chain2 payload_sandbox "AAAA") payload_validator
               extractSignedDate world0)
    as (Hclock & _ & _ & _);
    [apply extractSignedDate_reads_clock_only|compute_it|].
  split; [exact Hclock|reflexivity].
Defined.

Lemma short_chain_message_witness :
  exists e w',
    verifyJWT sandbox_verifier (token header_chain2 payload_sandbox "AAAA")
      payload_validator extractSignedDate world0 = (inl e, w')
    /\ message_of (fun _ => "") e = "VERIFICATION_FAILURE: INVALID_CHAIN_LENGTH".
Proof.
  apply (short_chain_message (fun _ => "") sandbox_verifier
           (token header_chain2 payload_sandbox "AAAA") payload_validator
           extractSignedDate world0 (bytes_of payload_sandbox)
           (decoded_sandbox "com.example") (bytes_of header_chain2)
           (Object [("alg", Str "ES256");
                    ("x5c", Array [Str "YQ=="; Str "Yg=="])])
           (Some (Array [Str "YQ=="; Str "Yg=="])));
    first [by right | compute_it].
Defined.

Lemma malformed_header_is_VERIFICATION_FAILURE_witness :
  verifyJWT sandbox_verifier (token "!" payload_sandbox "AAAA")
    payload_validator extractSignedDate world0
  = (inl (VerificationException VERIFICATION_FAILURE (Some (Native TypeError))),
     after_console_error (Native TypeError) world0).
Proof.
  apply (malformed_header_is_VERIFICATION_FAILURE sandbox_verifier
           (token "!" payload_sandbox "AAAA") payload_validator
           extractSignedDate world0 (bytes_of payload_sandbox)
           (decoded_sandbox "com.example") TypeError);
    first [by right | left; compute_it | compute_it].
Defined.

Lemma third_chain_entry_is_never_read_witness :
  verifyJWT sandbox_verifier (token header_chain3 payload_sandbox "")
    payload_validator extractSignedDate world0
  = verifyJWT sandbox_verifier
      (token header_chain3_number payload_sandbox "AAAA")
      payload_validator extractSignedDate world0.
Proof.
  apply (third_chain_entry_is_never_read sandbox_verifier payload_validator
           extractSignedDate _ _ header_chain3 header_chain3_number
           payload_sandbox "" "AAAA" (bytes_of header_chain3)
           (bytes_of header_chain3_number)
           (decoded_header (Str "Yw==")) (decoded_header (Number 5))
           (Str "YQ==") (Str "Yg==") (Str "Yw==") (Number 5)); compute_it.
Defined.

Lemma transaction_identity_policy_witness :
  verifyAndDecodeTransaction xcode_verifier
    (token header_chain3 payload_xcode "AAAA") world0
  = (inr (decoded_xcode "com.example"), world0)
  /\ verifyAndDecodeTransaction xcode_verifier
       (token header_chain3 payload_sandbox "AAAA") world0
     = (inl (VerificationException INVALID_ENVIRONMENT None), world0).
Proof.
  split.
  - edestruct (transaction_identity_policy xcode_verifier
                 (token header_chain3 payload_xcode "AAAA") world0
                 (decoded_xcode "com.example") world0
                 (Some (Str "com.example")) (Some (Str "Xcode")))
      as (_ & _ & Hmatch); [compute_it..|].
    exact (Hmatch eq_refl eq_refl).
  - edestruct (transaction_identity_policy xcode_verifier
                 (token header_chain3 payload_sandbox "AAAA") world0
                 (decoded_sandbox "com.example") world0
                 (Some (Str "com.example")) (Some (Str "Sandbox")))
      as (_ & Hother & _); [compute_it..|].
    apply (Hother eq_refl). discriminate.
Defined.

Lemma app_transaction_identity_policy_witness :
  verifyAndDecodeAppTransaction xcode_verifier
    (token header_chain3 app_transaction_xcode "AAAA") world0
  = (inr (decoded_app_transaction_xcode "com.example"), world0)
  /\ verifyAndDecodeAppTransaction xcode_verifier
       (token header_chain3 app_transaction_sandbox "AAAA") world0
     = (inl (VerificationException INVALID_ENVIRONMENT None), world0).
Proof.
  split.
  - edestruct (app_transaction_identity_policy xcode_verifier
                 (token header_chain3 app_transaction_xcode "AAAA") world0
                 (decoded_app_transaction_xcode "com.example") world0
                 (Some (Str "com.example")) (Some (Number 7))
                 (Some (Str "Xcode")))
      as (_ & _ & Hmatch); [compute_it..|].
    apply (Hmatch eq_refl); [discriminate|reflexivity].
  - edestruct (app_transaction_identity_policy xcode_verifier
                 (token header_chain3 app_transaction_sandbox "AAAA") world0
                 decoded_app_transaction world0
                 (Some (Str "com.example")) (Some (Number 7))
                 (Some (Str "Sandbox")))
      as (_ & _ & Hmatch); [compute_it..|].
    apply (Hmatch eq_refl); discriminate.
Defined.

Lemma notification_branch_precedence_witness :
  exists app bundle env,
    notification_identity decoded_notification_sandbox
    = inr (app, bundle, env).
Proof.
  destruct (notification_branch_precedence decoded_notification_sandbox
              (Some (Object [("bundleId", Str "com.example");
                             ("environment", Str "Sandbox");
                             ("appAppleId", Number 7)]))
              None eq_refl eq_refl)
    as [Hdata _].
  destruct (Hdata eq_refl) as (app & bundle & env & _ & _ & _ & Hidentity & _).
  by exists app, bundle, env.
Defined.

Lemma DataValidator_accepts_iff_witness :
  DataValidator decoded_app_transaction = inr true.
Proof.
  apply (proj2 (DataValidator_accepts_iff decoded_app_transaction)).
  repeat split.
Defined.

Lemma ResponseBodyV2DecodedPayloadValidator_accepts_iff_witness :
  ResponseBodyV2DecodedPayloadValidator decoded_notification_sandbox
  = inr true.
Proof.
  apply (proj2 (ResponseBodyV2DecodedPayloadValidator_accepts_iff
                  decoded_notification_sandbox)).
  repeat split.
Defined.

Lemma notification_with_null_data_is_a_FAILURE_witness :
  exists cause,
    verifyAndDecodeNotification
      (validators := with_notification_validator payload_validator
                       payload_validator payload_validator)
      sandbox_verifier (token header_chain3 payload_null "AAAA") world0
    = (inl (VerificationException FAILURE cause), world0).
Proof.
  apply (notification_with_null_data_is_a_FAILURE payload_validator
           payload_validator payload_validator sandbox_verifier
           (token header_chain3 payload_null "AAAA") header_chain3
           payload_null "AAAA" (bytes_of payload_null) Null world0);
    first [by left | compute_it].
Defined.

Lemma signed_date_of_a_valid_notification_witness :
  extractSignedDate decoded_notification_sandbox world0
  = (inr (DateNow (clock world0)), world0).
Proof.
  edestruct (signed_date_of_a_valid_notification decoded_notification_sandbox
               world0)
    as [[_ Hdate]|(n & Hget & _)];
    [reflexivity|exact Hdate|discriminate Hget].
Defined.

Lemma notification_with_scalar_data_witness :
  verifyAndDecodeNotification
    (validators := with_notification_validator payload_validator
                     payload_validator payload_validator)
    xcode_verifier (token "!" notification_data_number "!") world0
  = (inl (VerificationException INVALID_APP_IDENTIFIER None), world0).
Proof.
  apply (notification_with_scalar_data payload_validator payload_validator
           payload_validator xcode_verifier
           (token "!" notification_data_number "!") world0 world0
           (Object [("data", Number 5)]) (Number 5));
    first [discriminate | compute_it].
Defined.

Lemma client_environments_have_distinct_urls_witness :
  exists e,
    API.constructor "pem" "key" "issuer" "com.example" XCODE = inl e.
Proof.
  apply (proj1 (client_environments_have_distinct_urls "pem" "key" "issuer"
                  "com.example" "pem" "key" "issuer" "com.example" XCODE
                  SANDBOX)).
  reflexivity.
Defined.

Lemma makeRequest_returns_witness :
  exists token response,
    API.createBearerToken (network := network (inr response_ok)) client
      1700000000000
    = inr token
    /\ API.makeFetchRequest (network := network (inr response_ok)) client
         "/inApps/v1/notifications/test" [] "POST" None
         (API.headers_of token None)
       = inr response
    /\ API.ok response = true.
Proof.
  edestruct (makeRequest_returns (network := network (inr response_ok))
               (API.makeFetchRequest (network := network (inr response_ok))
                  client)
               client 1700000000000 "/inApps/v1/notifications/test" "POST" []
               None None Null)
    as (token & response & Htoken & Hsent & Hok & _); [reflexivity|].
  by exists token, response.
Defined.

Lemma makeRequest_not_ok_witness :
  exists e,
    API.makeRequest (network := network (inr response_unreadable))
      (API.makeFetchRequest (network := network (inr response_unreadable))
         client)
      client 1700000000000 "/inApps/v1/notifications/test" "POST" [] None None
    = inl (API.API e)
    /\ API.httpStatusCode e = 502.
Proof.
  edestruct (makeRequest_not_ok (network := network (inr response_unreadable))
               (API.makeFetchRequest
                  (network := network (inr response_unreadable)) client)
               client 1700000000000 "/inApps/v1/notifications/test" "POST" []
               None None "token" response_unreadable)
    as (e & Hthrown & Hstatus & _); [reflexivity..|].
  by exists e.
Defined.

Lemma makeRequest_raw_errors_witness :
  API.createBearerToken (network := network (inl TypeError)) client
    1700000000000
  = inl TypeError
  \/ (exists token,
        API.createBearerToken (network := network (inl TypeError)) client
          1700000000000
        = inr token
        /\ API.makeFetchRequest (network := network (inl TypeError)) client
             "/inApps/v1/notifications/test" [] "POST" None
             (API.headers_of token None)
           = inl TypeError).
Proof.
  edestruct (makeRequest_raw_errors (network := network (inl TypeError))
               (API.makeFetchRequest (network := network (inl TypeError))
                  client)
               client 1700000000000 "/inApps/v1/notifications/test" "POST" []
               None None TypeError)
    as [Htoken|(token & Htoken & Hrest)]; [reflexivity|by left|].
  right. exists token. split; [done|]. reflexivity.
Defined.

Lemma extend_renewal_date_requests_witness :
  API.extendSubscriptionRenewalDate (network := network (inr response_ok))
    (fun _ => inr true) client 1700000000000 "1234"
    (Object [("extendByDays", Number 7)])
  = inr (Object [("success", Bool true)]).
Proof.
  apply (extend_renewal_date_requests (network := network (inr response_ok))
           (fun _ => inr true) client 1700000000000 "token" "1234"
           (Object [("extendByDays", Number 7)]) response_ok
           (Object [("success", Bool true)]));
    reflexivity.
Defined.

Lemma APIError_numbers_witness :
  API.APIError_value API.GENERAL_BAD_REQUEST / 10000
  ∈ [400; 403; 404; 429; 500].
Proof. apply (proj2 APIError_numbers API.GENERAL_BAD_REQUEST). Defined.

Lemma advanced_commerce_payload_witness :
  exists combined,
    own "bid" combined = Some (Str "com.example")
    /\ own "requestIdentifier" combined = Some (Str "r").
Proof.
  destruct (advanced_commerce_payload
              (Signature.AdvancedCommerceInApp.mkCreator "key" "issuer" 0%nat
                 "com.example")
              [("bid", Str "other"); ("requestIdentifier", Str "r")])
    as (combined & _ & Hbid & _ & Hother & _).
  exists combined. split; [exact Hbid|].
  by rewrite Hother.
Defined.

Lemma introductory_offer_payload_witness :
  Signature.IntroductoryOfferEligibility.createSignature
    (Signature.IntroductoryOfferEligibility.mkCreator "key" "issuer" 0%nat
       "com.example" 7)
    (Some "") None
  = inl (Error "Either appAccountToken or applicationUsername must be provided.").
Proof.
  apply (proj1 (introductory_offer_payload _ (Some "") None)); reflexivity.
Defined.

End MoreExamples.
